(** * Catalog retriever: embedding batching, fusion and ranking

    A shallow embedding of [catalog_retriever/src/retriever.py] and of the
    helpers of [catalog_retriever/src/utils.py] it calls.

    Conventions of the embedding:
    - A Python [int] is a [Z]; list lengths are [nat] and are injected with
      [Z.of_nat] where the source multiplies or slices by them.
    - A similarity score and an embedding coordinate are Python floats; they
      are embedded as rationals [Q] (every finite double is a rational; no
      NaN, no infinity).  The code compares scores and moves embeddings
      around; the one place where it computes with floats is [numpy.mean].
      [mean_axis0] reads that call in exact arithmetic, without the rounding
      of doubles; module [Generic] leaves the call and the type of an
      embedding open, for the properties that depend on the value of a mean.
    - A call to a remote service (embedding endpoints, vector index, HTTP
      fetch, image codec) is a parameter of the enclosing section: a function
      whose [None] result stands for a raised exception.
    - Logging is omitted; [verbose] therefore does not appear. *)

From stdpp Require Import base gmap strings.
From Stdlib Require Import List ZArith QArith Bool Lia Sorted Permutation.
From Stdlib Require Import String Ascii DecimalString Zify ZifyNat.
From Stdlib Require DecimalZ DecimalPos Floats.
From Equations Require Import Equations.
Import ListNotations.

Local Open Scope string_scope.
Local Open Scope list_scope.

(** ** Python built-ins used by the source *)

Module Py.

(** [xs[:k]] for a Python int [k]: a negative bound counts from the end. *)
Definition slice_to {A : Type} (k : Z) (xs : list A) : list A :=
  if (k <? 0)%Z
  then firstn (Z.to_nat (Z.of_nat (List.length xs) + k)) xs
  else firstn (Z.to_nat k) xs.

(** [xs[i:i+n]] for non-negative [i] and [n]; out-of-range bounds clamp. *)
Definition slice {A : Type} (i n : nat) (xs : list A) : list A :=
  firstn n (skipn i xs).

(** [x > y] on scores. *)
Definition gt (x y : Q) : bool := negb (Qle_bool x y).

(** [sorted(xs, key=key, reverse=True)]: descending by key; Python's sort
    is stable also under [reverse=True], so elements with equal keys keep
    their input order. *)
Fixpoint insert_desc {A : Type} (key : A -> Q) (x : A) (l : list A) : list A :=
  match l with
  | [] => [x]
  | y :: l' => if gt (key y) (key x) then y :: insert_desc key x l' else x :: l
  end.

Definition sorted_desc {A : Type} (key : A -> Q) (xs : list A) : list A :=
  fold_right (insert_desc key) [] xs.

(** [str(n)] for an int. *)
Definition str_int (n : Z) : string := NilZero.string_of_int (Z.to_int n).

(** [s.startswith(p)]. *)
Fixpoint startswith (p s : string) : bool :=
  match p, s with
  | EmptyString, _ => true
  | String a p', String b s' => if Ascii.eqb a b then startswith p' s' else false
  | String _ _, EmptyString => false
  end.

(** [p in s] for strings. *)
Fixpoint contains (p s : string) : bool :=
  startswith p s ||
  match s with
  | EmptyString => false
  | String _ s' => contains p s'
  end.

(** Characters removed by [str.strip()] (ASCII range). *)
Definition isspace (c : ascii) : bool :=
  let n := nat_of_ascii c in
  ((9 <=? n)%nat && (n <=? 13)%nat) || ((28 <=? n)%nat && (n <=? 32)%nat).

Fixpoint lstrip (s : string) : string :=
  match s with
  | EmptyString => EmptyString
  | String c s' => if isspace c then lstrip s' else s
  end.

Fixpoint rstrip (s : string) : string :=
  match s with
  | EmptyString => EmptyString
  | String c s' =>
      match rstrip s' with
      | EmptyString => if isspace c then EmptyString else String c EmptyString
      | r => String c r
      end
  end.

Definition strip (s : string) : string := rstrip (lstrip s).

(** [s.lower()] (ASCII range). *)
Definition lower_char (c : ascii) : ascii :=
  let n := nat_of_ascii c in
  if (65 <=? n)%nat && (n <=? 90)%nat then ascii_of_nat (n + 32) else c.

Fixpoint lower (s : string) : string :=
  match s with
  | EmptyString => EmptyString
  | String c s' => String (lower_char c) (lower s')
  end.

(** [s.split(sep)] for a non-empty separator: the pieces between the
    non-overlapping occurrences of [sep], scanned left to right.  [skip]
    counts the characters of a matched separator still to be dropped and
    [cur] is the piece being read, reversed. *)
Fixpoint split_go (sep : string) (skip : nat) (cur : string) (s : string)
  : list string :=
  match s with
  | EmptyString => [String.rev cur]
  | String c s' =>
      match skip with
      | S n => split_go sep n cur s'
      | O =>
          if startswith sep s
          then String.rev cur :: split_go sep (String.length sep - 1) EmptyString s'
          else split_go sep 0 (String c cur) s'
      end
  end.

Definition split (sep s : string) : list string := split_go sep 0 EmptyString s.

(** [s.replace(old, new)] for a non-empty [old]. *)
Fixpoint replace_go (old new : string) (skip : nat) (s : string) : string :=
  match s with
  | EmptyString => EmptyString
  | String c s' =>
      match skip with
      | S n => replace_go old new n s'
      | O =>
          if startswith old s
          then (new ++ replace_go old new (String.length old - 1) s')%string
          else String c (replace_go old new 0 s')
      end
  end.

Definition replace (old new s : string) : string := replace_go old new 0 s.

(** [s[n:]] for a non-negative [n]. *)
Fixpoint drop (n : nat) (s : string) : string :=
  match n, s with
  | O, _ => s
  | S n', String _ s' => drop n' s'
  | S _, EmptyString => EmptyString
  end.

(** [s.split(sep, 1)] when [sep] occurs in [s]: the text before and after
    its first occurrence; [None] when it does not occur (the result then
    has one element only). *)
Fixpoint split_once_go (sep cur s : string) : option (string * string) :=
  if startswith sep s
  then Some (String.rev cur, drop (String.length sep) s)
  else match s with
       | EmptyString => None
       | String c s' => split_once_go sep (String c cur) s'
       end.

Definition split_once (sep s : string) : option (string * string) :=
  split_once_go sep EmptyString s.

(** [len(s)] as a Python int. *)
Definition len (s : string) : Z := Z.of_nat (String.length s).

(** [range(0, stop, step)] for a positive [step]. *)
Definition range_step (stop step : nat) : list nat :=
  map (fun j => j * step)%nat (seq 0 ((stop + step - 1) / step)).

(** [[x for x in xs if x is not None]]. *)
Definition not_none {A : Type} (xs : list (option A)) : list A :=
  flat_map (fun x => match x with Some a => [a] | None => [] end) xs.

End Py.

(** ** Records of the vector index *)

(** A [Document] as the index returns it.  The source indexes
    [metadata['name']], [metadata['price']] and [metadata['image']] directly
    and reads the id with [metadata.get("pk")], so only the id may be
    missing ([None] stands for a missing key as well as for a [None] value).
    [price] holds the text that formatting the value produces. *)
Record Document : Type := mkDocument {
  page_content : string;
  pk : option Z;
  name : string;
  price : string;
  image : string
}.

(** A search hit: [(Document, score)]. *)
Definition Hit : Type := (Document * Q)%type.

(** ** Search dispatch of [Retriever.retrieve] *)

(** One call of [similarity_search_with_relevance_scores], with the
    collection it goes to, its query and its [k=] argument. *)
Inductive SearchCall : Type :=
| TextSearch (query : string) (k : Z)
| ImageSearch (payload : string) (k : Z).

Definition search_k (c : SearchCall) : Z :=
  match c with TextSearch _ k => k | ImageSearch _ k => k end.

Definition placeholder_query : string :=
  "Can you find me something like this image?".

(** [local_queries]: the caller's list, or the placeholder when it is empty. *)
Definition local_queries (query : list string) : list string :=
  match query with
  | [] => [placeholder_query]
  | _ => query
  end.

(** The searches [retrieve] launches, in the order they are gathered. *)
Definition dispatch (query : list string) (image : string) (k : Z)
    (image_bool : bool) : list SearchCall :=
  if image_bool then
    let t2t_tasks := map (fun local_query => TextSearch local_query k)
                         (local_queries query) in
    let base64_string :=
      Py.replace "data:application/octet-stream" "data:image/jpeg" image in
    let i2i_task :=
      ImageSearch base64_string (k * Z.of_nat (List.length query)) in
    t2t_tasks ++ [i2i_task]
  else
    map (fun local_query =>
           TextSearch local_query (k * Z.of_nat (List.length query)))
        (local_queries query).


(** ** The retriever object and the services behind it *)

Definition Vector : Type := list Q.

(** The fields of [self] that the modelled methods read.  The two index
    handles answer [similarity_search_with_relevance_scores(query, k=k)];
    the two clients answer [embeddings.create(input=batch, ...)].  A client
    takes the offset [i] of the batch in its loop as well, so that two calls
    on equal batches may fare differently, and returns [None] when the call
    raises.  A search that raises aborts [retrieve]; only searches that
    return are modelled. *)
Record Retriever : Type := mkRetriever {
  sim_threshold : Q;
  text_db_search : string -> Z -> list Hit;
  image_db_search : string -> Z -> list Hit;
  text_client : nat -> list string -> string -> option (list Vector);
  image_client : nat -> list string -> option (list Vector)
}.

Definition run_search (self : Retriever) (c : SearchCall) : list Hit :=
  match c with
  | TextSearch local_query k => text_db_search self local_query k
  | ImageSearch base64_string k => image_db_search self base64_string k
  end.

(** ** Fusion *)

Definition score (res : Hit) : Q := snd res.

Definition iterators_size {A : Type} (active_iterators : list (list A)) : nat :=
  fold_right (fun it n => S (List.length it) + n)%nat 0%nat active_iterators.

(** The [while active_iterators:] loop of the text-only branch: pop the
    first iterator; when it yields an item, emit the item and push the
    iterator back at the end; when it is exhausted, drop it. *)
Equations? interleave {A : Type} (active_iterators : list (list A)) : list A
  by wf (iterators_size active_iterators) lt :=
interleave [] := [];
interleave ([] :: rest) := interleave rest;
interleave ((item :: current_it) :: rest) := item :: interleave (rest ++ [current_it]).
Proof.
  all: clear; unfold iterators_size; rewrite ?fold_right_app; simpl;
    first [lia | induction rest as [|it rest IH]; simpl; lia].
Qed.

(** Lines 493-524: sort each result list, then merge by score (image mode)
    or interleave (text-only mode). *)
Definition fuse (image_bool : bool) (unformatted_results : list (list Hit))
  : list Hit :=
  let sorted_unformatted_results :=
    map (Py.sorted_desc score) unformatted_results in
  if image_bool
  then Py.sorted_desc score (List.concat sorted_unformatted_results)
  else interleave sorted_unformatted_results.

(** ** Deduplication *)

(** [id_]: [str(pk_value)] when the record has an id, else [None]. *)
Definition hit_id (res : Hit) : option string :=
  match pk (fst res) with
  | Some pk_value => Some (Py.str_int pk_value)
  | None => None
  end.

Fixpoint deduplicate_from (seen_ids : gset string) (interleaved_results : list Hit)
  : list Hit :=
  match interleaved_results with
  | [] => []
  | res :: rest =>
      match hit_id res with
      | Some id_ =>
          if decide (id_ ∈ seen_ids)
          then deduplicate_from seen_ids rest
          else res :: deduplicate_from ({[ id_ ]} ∪ seen_ids) rest
      | None => deduplicate_from seen_ids rest
      end
  end.

Definition deduplicate (interleaved_results : list Hit) : list Hit :=
  deduplicate_from ∅ interleaved_results.

(** ** Threshold, top-k and final sort *)

(** The five parallel lists [retrieve] returns. *)
Record Results : Type := mkResults {
  texts : list string;
  ids : list string;
  sims : list Q;
  names : list string;
  images : list string
}.

Definition no_results : Results := mkResults [] [] [] [] [].

Definition newline : string := String (ascii_of_nat 10) EmptyString.

(** [str(res[0].metadata["pk"])]; [str(None)] is the text [None]. *)
Definition str_pk (d : Document) : string :=
  match pk d with
  | Some pk_value => Py.str_int pk_value
  | None => "None"
  end.

(** [[x for x, sim in zip(xs[:k], final_sims[:k]) if sim > threshold]]. *)
Definition above_threshold {A : Type} (threshold : Q) (k : Z)
    (xs : list A) (final_sims : list Q) : list A :=
  map fst
      (List.filter (fun p => Py.gt (snd p) threshold)
              (combine (Py.slice_to k xs) (Py.slice_to k final_sims))).

(** One row of [zip(final_sims, final_texts, final_ids, final_names, final_images)]. *)
Definition Row : Type := (Q * (string * (string * (string * string))))%type.

Definition zip5 (final_sims : list Q) (final_texts final_ids final_names
    final_images : list string) : list Row :=
  combine final_sims
    (combine final_texts (combine final_ids (combine final_names final_images))).

Definition row_sim (x : Row) : Q := fst x.
Definition row_text (x : Row) : string := fst (snd x).
Definition row_id (x : Row) : string := fst (snd (snd x)).
Definition row_name (x : Row) : string := fst (snd (snd (snd x))).
Definition row_image (x : Row) : string := snd (snd (snd (snd x))).

(** Lines 543-571: build the five lists from the deduplicated hits, keep the
    first [k] whose score exceeds the threshold, sort by score, cut at [k]. *)
Definition rank (self : Retriever) (k : Z) (all_results : list Hit) : Results :=
  let final_texts :=
    map (fun res => (page_content (fst res) ++ newline ++ "PRICE: " ++ price (fst res))%string)
        all_results in
  let final_ids := map (fun res => str_pk (fst res)) all_results in
  let final_sims := map (fun res => snd res) all_results in
  let final_names := map (fun res => name (fst res)) all_results in
  let final_images := map (fun res => image (fst res)) all_results in
  let threshold := sim_threshold self in
  let final_texts' := above_threshold threshold k final_texts final_sims in
  let final_ids' := above_threshold threshold k final_ids final_sims in
  let final_names' := above_threshold threshold k final_names final_sims in
  let final_images' := above_threshold threshold k final_images final_sims in
  let final_sims' :=
    List.filter (fun sim => Py.gt sim threshold) (Py.slice_to k final_sims) in
  let zipped := zip5 final_sims' final_texts' final_ids' final_names' final_images' in
  let zipped_sorted := Py.sorted_desc row_sim zipped in
  mkResults (Py.slice_to k (map row_text zipped_sorted))
            (Py.slice_to k (map row_id zipped_sorted))
            (Py.slice_to k (map row_sim zipped_sorted))
            (Py.slice_to k (map row_name zipped_sorted))
            (Py.slice_to k (map row_image zipped_sorted)).

(** ** Category extraction and filtering *)

Definition nonempty (s : string) : bool :=
  match s with EmptyString => false | String _ _ => true end.

(** Lines 578-598: the categories of one returned text.  None of the string
    operations can raise on a string, so the [except] branch is dead. *)
Definition parse_categories (text : string) : list string :=
  let category_part := Py.strip (List.last (Py.split "|" text) EmptyString) in
  let category_part :=
    if Py.contains "PRICE:" category_part
    then Py.strip (List.hd EmptyString (Py.split "PRICE:" category_part))
    else category_part in
  let parts := Py.split "," category_part in
  List.filter (fun cleaned => nonempty cleaned && negb (Py.startswith "/" cleaned))
         (map (fun part => Py.lower (Py.strip part)) parts).

(** Lines 625-634: does a user category match a product category? *)
Definition match_found (categories cats : list string) : bool :=
  existsb (fun user_cat =>
             let user_cat_lower := Py.strip (Py.lower user_cat) in
             existsb (fun prod_cat =>
                        Py.contains user_cat_lower prod_cat
                        || Py.contains prod_cat user_cat_lower)
                     cats)
          categories.

(** One element of [zip(final_texts, ..., final_images, cat_list)]. *)
Definition zip6 (r : Results) (cat_list : list (list string))
  : list (Row * list string) :=
  combine (zip5 (sims r) (texts r) (ids r) (names r) (images r)) cat_list.

(** Lines 603-647. *)
Definition category_filter (image_bool : bool) (categories : list string)
    (r : Results) : Results :=
  let cat_list := map parse_categories (texts r) in
  if image_bool then r
  else match categories with
       | [] => no_results
       | _ =>
           let filtered :=
             map fst (List.filter (fun x => match_found categories (snd x))
                             (zip6 r cat_list)) in
           match filtered with
           | [] => no_results
           | _ => mkResults (map row_text filtered) (map row_id filtered)
                            (map row_sim filtered) (map row_name filtered)
                            (map row_image filtered)
           end
       end.

(** ** [Retriever.retrieve] *)

Definition retrieve (self : Retriever) (query categories : list string)
    (image : string) (k : Z) (image_bool : bool) : Results :=
  let unformatted_results :=
    map (run_search self) (dispatch query image k image_bool) in
  let interleaved_results := fuse image_bool unformatted_results in
  let all_results := deduplicate interleaved_results in
  category_filter image_bool categories (rank self k all_results).

(** ** Exceptions *)

(** The outcome of code that may raise: a value, or an exception that
    leaves the function. *)
Inductive result (A : Type) : Type :=
| Ok (a : A)
| Raise.
Arguments Ok {A} a.
Arguments Raise {A}.

#[global] Instance result_ret : MRet result := fun A a => Ok a.

#[global] Instance result_bind : MBind result := fun A B f r =>
  match r with
  | Ok a => f a
  | Raise => Raise
  end.

(** ** Text embeddings *)

(** Libraries and the outside world, as far as the modelled code calls
    them.  [None] stands for an exception raised inside the call.
    - [split_text]: [RecursiveCharacterTextSplitter(chunk_size=1000,
      chunk_overlap=200).split_text].
    - [fetch_encode]: the [try] body of [image_url_to_base64] up to the data
      URI it builds (HTTP fetch, decode, thumbnail, JPEG, base64).
    - [read_encode]: the same for [image_path_to_base64] (file read).
    - [recompress]: decode, thumbnail and re-encode of
      [resize_base64_image], from the base64 data to the new base64 data. *)
Record World : Type := mkWorld {
  split_text : string -> list string;
  fetch_encode : string -> option string;
  read_encode : string -> option string;
  recompress : string -> option string
}.

Definition batch_size : nat := 32.

(** [_create_text_chunks]: all chunks, and the number of chunks per text. *)
Definition _create_text_chunks (w : World) (texts : list string)
  : list string * list nat :=
  let chunks_of := map (split_text w) texts in
  (List.concat chunks_of, map (@List.length string) chunks_of).

(** The body of the batch loop of [_embed_chunks_in_batches] at offset [i]:
    the embeddings of the response, or one [None] per chunk of the batch
    when the call raises. *)
Definition embed_batch (self : Retriever) (all_chunks : list string)
    (query_type : string) (i : nat) : list (option Vector) :=
  let batch_chunks := Py.slice i batch_size all_chunks in
  match text_client self i batch_chunks query_type with
  | Some data => map Some data
  | None => map (fun _ => None) batch_chunks
  end.

Definition _embed_chunks_in_batches (self : Retriever) (all_chunks : list string)
    (query_type : string) : list (option Vector) :=
  List.concat (map (embed_batch self all_chunks query_type)
              (Py.range_step (List.length all_chunks) batch_size)).

(** Coordinate-wise sum of two vectors of one length. *)
Definition vadd (u v : Vector) : Vector :=
  map (fun p => Qplus (fst p) (snd p)) (combine u v).

(** [list(numpy.mean(vs, axis=0))] for a list of vectors: the sum along
    the first axis divided by the number of vectors.  numpy raises on an
    empty list (the mean is a scalar, which [list] refuses) and on vectors
    of different lengths.  The arithmetic is exact here, where numpy rounds
    to doubles. *)
Definition mean_axis0 (vs : list Vector) : result Vector :=
  match vs with
  | [] => Raise
  | v :: rest =>
      if forallb (fun u => Nat.eqb (List.length u) (List.length v)) rest
      then Ok (map (fun x => Qdiv x (inject_Z (Z.of_nat (List.length vs))))
                   (fold_left vadd rest v))
      else Raise
  end.

(** The embedding of one text from its slice of chunk embeddings
    (lines 276-282). *)
Definition average_valid (chunk_embeddings : list (option Vector))
  : result (option Vector) :=
  let valid_chunk_embeddings := Py.not_none chunk_embeddings in
  match valid_chunk_embeddings with
  | [] => Ok None
  | _ => average_embedding ← mean_axis0 valid_chunk_embeddings;
         Ok (Some average_embedding)
  end.

(** The loop of [_reconstruct_embeddings] from text number [i] on, with
    [current_chunk_idx] as it stands there.  [text_chunk_counts[i]] raises
    when the list is too short. *)
Fixpoint reconstruct_from (all_chunk_embeddings : list (option Vector))
    (text_chunk_counts : list nat) (texts : list string)
    (i current_chunk_idx : nat) : result (list (option Vector)) :=
  match texts with
  | [] => Ok []
  | _ :: texts' =>
      match nth_error text_chunk_counts i with
      | None => Raise
      | Some O =>
          rest ← reconstruct_from all_chunk_embeddings text_chunk_counts
                    texts' (S i) current_chunk_idx;
          Ok (None :: rest)
      | Some num_chunks =>
          let chunk_embeddings :=
            Py.slice current_chunk_idx num_chunks all_chunk_embeddings in
          e ← average_valid chunk_embeddings;
          rest ← reconstruct_from all_chunk_embeddings text_chunk_counts
                    texts' (S i) (current_chunk_idx + num_chunks);
          Ok (e :: rest)
      end
  end.

Definition _reconstruct_embeddings (texts : list string)
    (all_chunk_embeddings : list (option Vector)) (text_chunk_counts : list nat)
  : result (list (option Vector)) :=
  reconstruct_from all_chunk_embeddings text_chunk_counts texts 0 0.

(** [Retriever.text_embeddings]. *)
Definition text_embeddings (self : Retriever) (w : World) (texts : list string)
    (query_type : string) : result (list (option Vector)) :=
  match texts with
  | [] => Ok []
  | _ =>
      let '(all_chunks, text_chunk_counts) := _create_text_chunks w texts in
      match all_chunks with
      | [] => Ok (map (fun _ => None) texts)
      | _ =>
          let all_chunk_embeddings :=
            _embed_chunks_in_batches self all_chunks query_type in
          _reconstruct_embeddings texts all_chunk_embeddings text_chunk_counts
      end
  end.

(** ** Text embeddings with the numeric library left open

    An embedding is a list of Python floats, and [mean] is [numpy.mean],
    which computes in IEEE doubles and rounds.  The code itself never
    computes with an embedding: it moves the embeddings of the responses
    around and hands lists of them to [mean].  The definitions of this
    module are the functions above with the type [E] of an embedding, the
    library call [mean] (for [list(mean(vs, axis=0))]), the endpoint and
    the splitter as parameters; the functions above are these at lists of
    rationals and the exact mean [mean_axis0]. *)

Module Generic.
Section Embeddings.

Context {E : Type}.
Variable mean : list E -> result E.
Variable client : nat -> list string -> string -> option (list E).
Variable splitter : string -> list string.

Definition _create_text_chunks (texts : list string) : list string * list nat :=
  let chunks_of := map splitter texts in
  (List.concat chunks_of, map (@List.length string) chunks_of).

Definition embed_batch (all_chunks : list string) (query_type : string) (i : nat)
  : list (option E) :=
  let batch_chunks := Py.slice i batch_size all_chunks in
  match client i batch_chunks query_type with
  | Some data => map Some data
  | None => map (fun _ => None) batch_chunks
  end.

Definition _embed_chunks_in_batches (all_chunks : list string)
    (query_type : string) : list (option E) :=
  List.concat (map (embed_batch all_chunks query_type)
              (Py.range_step (List.length all_chunks) batch_size)).

Definition average_valid (chunk_embeddings : list (option E))
  : result (option E) :=
  let valid_chunk_embeddings := Py.not_none chunk_embeddings in
  match valid_chunk_embeddings with
  | [] => Ok None
  | _ => average_embedding ← mean valid_chunk_embeddings;
         Ok (Some average_embedding)
  end.

Fixpoint reconstruct_from (all_chunk_embeddings : list (option E))
    (text_chunk_counts : list nat) (texts : list string)
    (i current_chunk_idx : nat) : result (list (option E)) :=
  match texts with
  | [] => Ok []
  | _ :: texts' =>
      match nth_error text_chunk_counts i with
      | None => Raise
      | Some O =>
          rest ← reconstruct_from all_chunk_embeddings text_chunk_counts
                    texts' (S i) current_chunk_idx;
          Ok (None :: rest)
      | Some num_chunks =>
          let chunk_embeddings :=
            Py.slice current_chunk_idx num_chunks all_chunk_embeddings in
          e ← average_valid chunk_embeddings;
          rest ← reconstruct_from all_chunk_embeddings text_chunk_counts
                    texts' (S i) (current_chunk_idx + num_chunks);
          Ok (e :: rest)
      end
  end.

Definition _reconstruct_embeddings (texts : list string)
    (all_chunk_embeddings : list (option E)) (text_chunk_counts : list nat)
  : result (list (option E)) :=
  reconstruct_from all_chunk_embeddings text_chunk_counts texts 0 0.

Definition text_embeddings (texts : list string) (query_type : string)
  : result (list (option E)) :=
  match texts with
  | [] => Ok []
  | _ =>
      let '(all_chunks, text_chunk_counts) := _create_text_chunks texts in
      match all_chunks with
      | [] => Ok (map (fun _ => None) texts)
      | _ =>
          let all_chunk_embeddings :=
            _embed_chunks_in_batches all_chunks query_type in
          _reconstruct_embeddings texts all_chunk_embeddings text_chunk_counts
      end
  end.

End Embeddings.
End Generic.

(** ** Image normalisation ([utils.py]) *)

Definition max_b64_length : Z := 65535.

(** [is_url]: the pattern [^https?://] matches. *)
Definition is_url (s : string) : bool :=
  Py.startswith "http://" s || Py.startswith "https://" s.

(** [is_path]: the pattern [^/] matches. *)
Definition is_path (s : string) : bool := Py.startswith "/" s.

(** [image_url_to_base64]: every exception is caught and gives [None], and
    so does a data URI longer than [max_b64_length]. *)
Definition image_url_to_base64 (w : World) (image_url : string) : option string :=
  match fetch_encode w image_url with
  | Some base64_string =>
      if (Py.len base64_string >? max_b64_length)%Z then None
      else Some base64_string
  | None => None
  end.

(** [image_path_to_base64]: nothing is caught here, so a failing read or
    decode raises; a data URI longer than [max_b64_length] gives [None]. *)
Definition image_path_to_base64 (w : World) (image_path : string)
  : result (option string) :=
  match read_encode w image_path with
  | Some base64_string =>
      if (Py.len base64_string >? max_b64_length)%Z then Ok None
      else Ok (Some base64_string)
  | None => Raise
  end.

(** [resize_base64_image]: split off the data-URI header, recompress the
    data, put the header back.  Every exception is caught and gives [None];
    unpacking [split(',', 1)] raises when there is no comma. *)
Definition resize_base64_image (w : World) (base64_string : string) : option string :=
  let parts :=
    if Py.startswith "data:" base64_string
    then Py.split_once "," base64_string
    else Some ("data:image/jpeg;base64", base64_string) in
  match parts with
  | Some (header, base64_data) =>
      match recompress w base64_data with
      | Some resized_base64 => Some (header ++ "," ++ resized_base64)%string
      | None => None
      end
  | None => None
  end.

(** ** Image embeddings *)

(** The helper calls made while one reference is prepared, in order. *)
Inductive HelperCall : Type :=
| CallUrlToBase64 (image_url : string)
| CallPathToBase64 (image_path : string)
| CallResize (base64_string : string).

Definition is_resize (c : HelperCall) : bool :=
  match c with CallResize _ => true | _ => false end.

Definition MAX_VARCHAR_LENGTH : Z := 65535.

(** Lines 309-313: the payload a reference resolves to, with the helper
    call made for it. *)
Definition resolve_input (w : World) (text : string)
  : result (option string) * list HelperCall :=
  if is_url text then (Ok (image_url_to_base64 w text), [CallUrlToBase64 text])
  else if is_path text then (image_path_to_base64 w text, [CallPathToBase64 text])
  else (Ok (Some text), []).

(** Lines 308-332, the body of [for text in batch_texts]: the element
    appended to [input_data_list], with the helper calls made.  A helper
    that returns [None] makes [len(input_data)] raise, and the [except]
    clause turns every exception into [None]. *)
Definition prepare_input (w : World) (text : string)
  : option string * list HelperCall :=
  let '(resolved, calls) := resolve_input w text in
  match resolved with
  | Ok (Some input_data) =>
      if (Py.len input_data >? MAX_VARCHAR_LENGTH)%Z then
        let calls' := calls ++ [CallResize input_data] in
        match resize_base64_image w input_data with
        | Some resized =>
            if nonempty resized && (Py.len resized <=? MAX_VARCHAR_LENGTH)%Z
            then (Some resized, calls')
            else (None, calls')
        | None => (None, calls')
        end
      else (Some input_data, calls)
  | Ok None => (None, calls)
  | Raise => (None, calls)
  end.

(** Lines 360-370: walk [input_data_list] and take the next embedding for
    every prepared input; [next] on an exhausted iterator raises
    [StopIteration], which gives [None]. *)
Fixpoint splice (input_data_list : list (option string))
    (batch_embeddings : list Vector) : list (option Vector) :=
  match input_data_list with
  | [] => []
  | None :: rest => None :: splice rest batch_embeddings
  | Some _ :: rest =>
      match batch_embeddings with
      | embedding :: later => Some embedding :: splice rest later
      | [] => None :: splice rest []
      end
  end.

(** The body of the batch loop of [image_embeddings] at offset [i]. *)
Definition embed_image_batch (self : Retriever) (w : World) (texts : list string)
    (i : nat) : list (option Vector) :=
  let batch_texts := Py.slice i batch_size texts in
  let input_data_list := map (fun text => fst (prepare_input w text)) batch_texts in
  let valid_inputs := Py.not_none input_data_list in
  let batch_embeddings :=
    match valid_inputs with
    | [] => []
    | _ => match image_client self i valid_inputs with
           | Some data => data
           | None => []
           end
    end in
  splice input_data_list batch_embeddings.

(** [Retriever.image_embeddings]. *)
Definition image_embeddings (self : Retriever) (w : World) (texts : list string)
  : list (option Vector) :=
  List.concat (map (embed_image_batch self w texts)
              (Py.range_step (List.length texts) batch_size)).

(** ** Bulk import *)

(** One row of the CSV file; it is also the metadata stored with a record. *)
Record CsvRow : Type := mkCsvRow {
  csv_name : string;
  csv_description : string;
  csv_category : string;
  csv_subcategory : string;
  csv_price : string;
  csv_image : string
}.

(** A stored record: text, embedding, metadata. *)
Definition Entity : Type := (string * Vector * CsvRow)%type.

(** A collection: its records, and whether the server answers ([flush],
    [num_entities] and an insert raise when it does not). *)
Record Collection : Type := mkCollection {
  entities : list Entity;
  online : bool
}.

(** [self.text_db.col] and [self.image_db.col]; [None] until the collection
    is created by the first insert. *)
Record Store : Type := mkStore {
  text_col : option Collection;
  image_col : option Collection
}.

(** Lines 147-150: the count of one collection. *)
Definition count_entities (col : option Collection) : result nat :=
  match col with
  | Some c => if online c then Ok (List.length (entities c)) else Raise
  | None => Ok 0%nat
  end.

(** [Retriever.embeddings_exist]. *)
Definition embeddings_exist (st : Store) : bool :=
  match (text_count ← count_entities (text_col st);
         image_count ← count_entities (image_col st);
         Ok ((0 <? text_count)%nat && (0 <? image_count)%nat)) with
  | Ok b => b
  | Raise => false
  end.

(** [add_embeddings]: append the records, creating the collection first
    when there is none. *)
Definition add_embeddings (col : option Collection) (new : list Entity)
  : result (option Collection) :=
  match col with
  | Some c =>
      if online c then Ok (Some (mkCollection (entities c ++ new) true))
      else Raise
  | None => Ok (Some (mkCollection new true))
  end.

(** [[(x, emb, meta) for x, emb, meta in zip(xs, embs, metadatas)
     if emb is not None]]. *)
Definition successful_data (xs : list string) (embs : list (option Vector))
    (metadatas : list CsvRow) : list Entity :=
  flat_map (fun t => match t with
                     | (x, (Some emb, meta)) => [(x, emb, meta)]
                     | (_, (None, _)) => []
                     end)
           (combine xs (combine embs metadatas)).

Definition combined_text (r : CsvRow) : string :=
  (csv_name r ++ " | " ++ csv_description r ++ " | "
   ++ csv_category r ++ "," ++ csv_subcategory r)%string.

(** Lines 388-442 of [milvus_from_csv]: what runs when population is not
    skipped.  [df] is the outcome of [pd.read_csv]; when reading fails the
    error is logged and the first use of the unbound [df] raises. *)
Definition populate (self : Retriever) (w : World) (st : Store)
    (df : option (list CsvRow)) : result Store :=
  match df with
  | None => Raise
  | Some metadatas =>
      let combined_texts := map combined_text metadatas in
      text_embs ← text_embeddings self w combined_texts "passage";
      let successful_texts_data :=
        successful_data combined_texts text_embs metadatas in
      text_col' ← match successful_texts_data with
                  | [] => Ok (text_col st)
                  | _ => add_embeddings (text_col st) successful_texts_data
                  end;
      let image_embs := image_embeddings self w (map csv_image metadatas) in
      let successful_images_data :=
        successful_data (map csv_image metadatas) image_embs metadatas in
      image_col' ← match successful_images_data with
                   | [] => Ok (image_col st)
                   | _ => add_embeddings (image_col st) successful_images_data
                   end;
      Ok (mkStore text_col' image_col')
  end.

(** [Retriever.milvus_from_csv]. *)
Definition milvus_from_csv (self : Retriever) (w : World) (st : Store)
    (df : option (list CsvRow)) : result Store :=
  if embeddings_exist st then Ok st else populate self w st df.

(** ** The specification's reading of the fusion and deduplication steps *)

(** The head of every list that still has one, in order. *)
Definition heads {A : Type} (lists : list (list A)) : list A :=
  flat_map (fun l => match l with [] => [] | x :: _ => [x] end) lists.

(** What is left of every list that had a head, in order. *)
Definition tails {A : Type} (lists : list (list A)) : list (list A) :=
  flat_map (fun l => match l with [] => [] | _ :: t => [t] end) lists.

(** Round-robin as the specification words it: take the head of each
    non-exhausted list in turn, then go round again on what is left, until
    all lists are exhausted. *)
Equations? round_robin {A : Type} (lists : list (list A)) : list A
  by wf (iterators_size lists) lt :=
round_robin [] := [];
round_robin (l :: ls) := heads (l :: ls) ++ round_robin (tails (l :: ls)).
Proof.
  clear. unfold tails.
  assert (Hle : forall ms : list (list A),
             (iterators_size (flat_map
                (fun l => match l with [] => [] | _ :: t => [t] end) ms)
              <= iterators_size ms)%nat).
  { induction ms as [|m ms IH]; simpl; [lia|].
    destruct m; simpl; lia. }
  specialize (Hle ls). destruct l; simpl; lia.
Qed.

(** First-occurrence deduplication as the specification words it: a hit is
    kept when it has an id that no earlier hit of the sequence has. *)
Fixpoint first_occurrences (earlier later : list Hit) : list Hit :=
  match later with
  | [] => []
  | res :: rest =>
      match hit_id res with
      | Some id_ =>
          if existsb (fun e => match hit_id e with
                               | Some id' => String.eqb id' id_
                               | None => false
                               end) earlier
          then first_occurrences (earlier ++ [res]) rest
          else res :: first_occurrences (earlier ++ [res]) rest
      | None => first_occurrences (earlier ++ [res]) rest
      end
  end.

(** ** The returned lists as one list of hits *)

Definition hit_text (res : Hit) : string :=
  (page_content (fst res) ++ newline ++ "PRICE: " ++ price (fst res))%string.

(** The five lists read off one list of hits. *)
Definition results_of_hits (hs : list Hit) : Results :=
  mkResults (map hit_text hs)
            (map (fun res => str_pk (fst res)) hs)
            (map score hs)
            (map (fun res => name (fst res)) hs)
            (map (fun res => image (fst res)) hs).

Definition above (threshold : Q) (res : Hit) : bool := Py.gt (score res) threshold.

(** The hits behind the lists [rank] returns. *)
Definition ranked_hits (self : Retriever) (k : Z) (all_results : list Hit)
  : list Hit :=
  Py.slice_to k
    (Py.sorted_desc score
       (List.filter (above (sim_threshold self)) (Py.slice_to k all_results))).

(** The hits behind the lists [category_filter] returns. *)
Definition filtered_hits (image_bool : bool) (categories : list string)
    (hs : list Hit) : list Hit :=
  if image_bool then hs
  else match categories with
       | [] => []
       | _ => List.filter (fun res => match_found categories
                                   (parse_categories (hit_text res))) hs
       end.

(** The hits that reach the fusion step of a call. *)
Definition fused_hits (self : Retriever) (query : list string) (image : string)
    (k : Z) (image_bool : bool) : list Hit :=
  fuse image_bool (map (run_search self) (dispatch query image k image_bool)).

(** Scores in descending order. *)
Definition descending (qs : list Q) : Prop :=
  StronglySorted (fun a b => Qle b a) qs.


(** ** Notions used in the statements *)

Definition has_id (res : Hit) : bool :=
  match hit_id res with Some _ => true | None => false end.

(** The ids of the hits of a list that have one. *)
Definition ids_of (l : list Hit) : list string := Py.not_none (map hit_id l).

Definition hit_row (res : Hit) : Row :=
  (score res, (hit_text res, (str_pk (fst res), (name (fst res), image (fst res))))).

(** [retrieve], read as one pipeline over hits. *)
Definition final_hits (self : Retriever) (query categories : list string)
    (image : string) (k : Z) (image_bool : bool) : list Hit :=
  filtered_hits image_bool categories
    (ranked_hits self k (deduplicate (fused_hits self query image k image_bool))).

Ltac div_lia := zify; Z.to_euclidean_division_equations; lia.

(** The sum of coordinate [j] over a list of vectors. *)
Definition column_sum (j : nat) (vs : list Vector) : Q :=
  fold_right Qplus 0%Q (map (fun v => nth j v 0%Q) vs).

(** [m] is the coordinate-wise arithmetic mean of the vectors [vs]. *)
Definition is_mean (m : Vector) (vs : list Vector) : Prop :=
  match vs with
  | [] => False
  | v :: _ =>
      List.length m = List.length v
      /\ forall j, (j < List.length v)%nat ->
           (nth j m 0 == column_sum j vs / inject_Z (Z.of_nat (List.length vs)))%Q
  end.

(** Where the chunks of text [n] start in the flat chunk list. *)
Definition chunk_offset (text_chunk_counts : list nat) (n : nat) : nat :=
  list_sum (firstn n text_chunk_counts).

(** The prepared inputs of the image batch at offset [i]. *)
Definition image_batch_inputs (w : World) (texts : list string) (i : nat)
  : list (option string) :=
  map (fun text => fst (prepare_input w text)) (Py.slice i batch_size texts).

(** The embeddings the image batch at offset [i] has to hand out. *)
Definition image_batch_embeddings (self : Retriever) (w : World)
    (texts : list string) (i : nat) : list Vector :=
  match Py.not_none (image_batch_inputs w texts i) with
  | [] => []
  | valid_inputs =>
      match image_client self i valid_inputs with
      | Some data => data
      | None => []
      end
  end.

(** The data URI a reference stands for before any size check: the one
    the URL or path helper builds, or the reference itself when it is an
    inline payload. *)
Definition encoded_payload (w : World) (text : string) : option string :=
  if is_url text then fetch_encode w text
  else if is_path text then read_encode w text
  else Some text.

(** The number of [resize_base64_image] passes made for one reference. *)
Definition resize_passes (w : World) (text : string) : nat :=
  List.length (List.filter is_resize (snd (prepare_input w text))).

(** The check of the URL and path helpers on the data URI they built. *)
Definition within_limit (base64_string : option string) : option string :=
  match base64_string with
  | Some s => if (Py.len s >? max_b64_length)%Z then None else Some s
  | None => None
  end.

(** A collection that exists, answers, and holds at least one record. *)
Definition holds_data (col : option Collection) : Prop :=
  exists c, col = Some c /\ online c = true /\ entities c <> [].

(** [n] startups in a row, each running the import on the store the
    previous one left. *)
Fixpoint startups (self : Retriever) (w : World) (df : option (list CsvRow))
    (n : nat) (st : Store) : result Store :=
  match n with
  | O => Ok st
  | S n' => st' ← milvus_from_csv self w st df; startups self w df n' st'
  end.

(** The vectors found at the given positions of a flat list of chunk
    embeddings, in the order of the positions; a position that holds
    [None], or that the list does not have, gives nothing. *)
Definition vectors_at {E : Type} (embs : list (option E)) (positions : list nat)
  : list E :=
  flat_map (fun p => match nth_error embs p with
                     | Some (Some v) => [v]
                     | _ => []
                     end) positions.

(** The positions of the chunks of text [n] in the flat chunk list. *)
Definition chunk_positions (text_chunk_counts : list nat) (n : nat) : list nat :=
  seq (chunk_offset text_chunk_counts n) (nth n text_chunk_counts 0%nat).

(** The number of chunks the texts before text [n] are split into. *)
Definition chunks_before (splitter : string -> list string) (texts : list string)
    (n : nat) : nat :=
  list_sum (map (fun text => List.length (splitter text)) (firstn n texts)).

(** What the endpoint answers for chunk number [p] of the chunks of all
    texts: the chunk is sent with the batch that starts at the multiple of
    32 below [p], and its vector is the one at its place in the response;
    there is none when the call raises. *)
Definition answer {E : Type}
    (client : nat -> list string -> string -> option (list E))
    (splitter : string -> list string) (texts : list string)
    (query_type : string) (p : nat) : option E :=
  let i := (p / batch_size * batch_size)%nat in
  match client i (firstn batch_size (skipn i (flat_map splitter texts)))
               query_type with
  | Some data => nth_error data (p mod batch_size)
  | None => None
  end.

(** The answers of the endpoint for the chunks of text [n], in chunk
    order, without the chunks that got none. *)
Definition text_answers {E : Type}
    (client : nat -> list string -> string -> option (list E))
    (splitter : string -> list string) (texts : list string)
    (query_type : string) (n : nat) : list E :=
  flat_map (fun p => match answer client splitter texts query_type p with
                     | Some v => [v]
                     | None => []
                     end)
           (seq (chunks_before splitter texts n)
                (List.length (splitter (nth n texts EmptyString)))).

(** The records an import is to add for a list of rows and the embeddings
    computed for them, position by position: one record for every row
    whose embedding is present, made of the indexed field of the row, that
    embedding and the row itself; nothing for a row without embedding. *)
Definition records_of (field : CsvRow -> string) (rows : list CsvRow)
    (embs : list (option Vector)) : list Entity :=
  flat_map (fun p : CsvRow * option Vector =>
              match snd p with
              | Some emb => [(field (fst p), emb, fst p)]
              | None => []
              end)
           (combine rows embs).

(** ** Sample data *)

Definition sample_doc (id : Z) (text : string) : Document :=
  mkDocument text (Some id) text "9.99" "/images/item.jpg".

(** A retriever whose text index knows two queries, whose text endpoint
    fails on the batch at offset 32 and whose image endpoint is down. *)
Definition sample_retriever : Retriever :=
  mkRetriever 0.75%Q
    (fun local_query _ =>
       if String.eqb local_query "red shoes"
       then [(sample_doc 1 "Red sneaker | canvas | shoes,sneakers", 0.9%Q);
             (sample_doc 2 "Red boot | leather | shoes,boots", 0.8%Q)]
       else [(sample_doc 3 "Blue sneaker | canvas | shoes,sneakers", 0.85%Q);
             (sample_doc 1 "Red sneaker | canvas | shoes,sneakers", 0.7%Q)])
    (fun _ _ => [])
    (fun i batch_chunks _ =>
       if Nat.eqb i 32 then None
       else Some (map (fun _ => [1%Q; 0%Q]) batch_chunks))
    (fun _ _ => None).

(** A data URI of 23 + 65536 characters. *)
Definition oversize_payload : string :=
  ("data:image/jpeg;base64," ++ Pos.iter (String "A"%char) EmptyString 65536)%string.

(** A world whose splitter keeps a text as one chunk and whose URL fetch
    builds the oversize data URI. *)
Definition sample_world : World :=
  mkWorld (fun text => [text])
          (fun _ => Some oversize_payload)
          (fun _ => None)
          (fun _ => None).

Definition sample_rows : list CsvRow :=
  [mkCsvRow "Red sneaker" "canvas" "shoes" "sneakers" "59.0"
            "data:image/jpeg;base64,AAAA"].

Definition empty_store : Store := mkStore None None.

(** A text endpoint that answers, for every chunk, the vector of its
    length and 1, and that fails on the batch at offset 32. *)
Definition sample_text_client (i : nat) (batch_chunks : list string)
    (query_type : string) : option (list Vector) :=
  if Nat.eqb i 32 then None
  else Some (map (fun chunk => [inject_Z (Py.len chunk); 1%Q]) batch_chunks).

(** A splitter that cuts a text into 20 chunks, and an empty text into
    none. *)
Definition sample_splitter (text : string) : list string :=
  match text with
  | EmptyString => []
  | _ => repeat text 20
  end.

(** A retriever whose image endpoint answers, for every input, the vector
    of its length. *)
Definition answering_retriever : Retriever :=
  mkRetriever 0.75%Q (fun _ _ => []) (fun _ _ => [])
    sample_text_client
    (fun _ valid_inputs =>
       Some (map (fun input_data => [inject_Z (Py.len input_data)]) valid_inputs)).

(** A world whose splitter cuts every text into 20 chunks and in which no
    file can be fetched or read. *)
Definition chunking_world : World :=
  mkWorld sample_splitter (fun _ => None) (fun _ => None) (fun _ => None).

(** Three rows; the image of the second is a path. *)
Definition three_rows : list CsvRow :=
  [mkCsvRow "Red sneaker" "canvas" "shoes" "sneakers" "59.0"
            "data:image/jpeg;base64,AAAA";
   mkCsvRow "Red boot" "leather" "shoes" "boots" "89.0" "/images/boot.jpg";
   mkCsvRow "Tote" "canvas" "bags" "totes" "19.0"
            "data:image/png;base64,BBBBBB"].

(** A store whose text collection holds one record and whose image
    collection does not exist yet. *)
Definition text_only_store : Store :=
  mkStore (Some (mkCollection
                   [("Old hat | felt | hats,caps", [1%Q; 1%Q],
                     mkCsvRow "Old hat" "felt" "hats" "caps" "9.0"
                              "data:image/jpeg;base64,CCCC")]
                   true))
          None.

(** Embeddings of doubles.  [mean] is [list(numpy.mean(vs, axis=0))] on
    lists of doubles as the sample needs it: the vectors are added
    coordinate by coordinate and the sums divided by the number of
    vectors, every operation rounding as IEEE 754 binary64 does (with two
    vectors, as in the sample, the order of the additions plays no role);
    vectors of different lengths raise. *)
Module Doubles.
Import PrimFloat.
Local Set Warnings "-inexact-float".

Definition mean (vs : list (list float)) : result (list float) :=
  match vs with
  | [] => Raise
  | v :: rest =>
      if forallb (fun u => Nat.eqb (List.length u) (List.length v)) rest
      then Ok (map (fun x => div x (of_uint63 (Uint63.of_Z (Z.of_nat (List.length vs)))))
                   (fold_left (fun acc u => map (fun p => add (fst p) (snd p))
                                                (combine acc u)) rest v))
      else Raise
  end.

Definition sample_chunk_embeddings : list (option (list float)) :=
  [Some [0.1%float; 0.2%float]; None; Some [0.2%float; 0.4%float]; None].

(** Python prints these two doubles as 0.15000000000000002 and
    0.30000000000000004. *)
Definition sample_mean : list float :=
  [0.15000000000000002%float; 0.30000000000000004%float].

End Doubles.

(** ** Notions used in the further properties *)

(** The retriever with another similarity threshold. *)
Definition with_threshold (self : Retriever) (threshold : Q) : Retriever :=
  mkRetriever threshold (text_db_search self) (image_db_search self)
              (text_client self) (image_client self).

(** The test [category_filter] applies to a returned text. *)
Definition text_matches (categories : list string) (text : string) : bool :=
  match_found categories (parse_categories text).

(** [ImageEmbeddings.embed_query]: the embedding of the single image, or
    [ValueError] when there is none. *)
Definition image_embed_query (self : Retriever) (w : World) (text : string)
  : result Vector :=
  let embeddings := image_embeddings self w [text] in
  match embeddings with
  | Some embedding :: _ => Ok embedding
  | _ => Raise
  end.


(** The records of a collection; none before it is created. *)
Definition entities_of (col : option Collection) : list Entity :=
  match col with
  | Some c => entities c
  | None => []
  end.

(** The batches a batch loop cuts a list into. *)
Definition batches {A : Type} (l : list A) : list (list A) :=
  map (fun i => Py.slice i batch_size l)
      (Py.range_step (List.length l) batch_size).

(** A category text without the characters the text format uses. *)
Definition plain (s : string) : bool :=
  negb (Py.contains "|" s) && negb (Py.contains "," s) && negb (Py.contains ":" s).

(** The test of lines 592 on a cleaned token. *)
Definition usable (cleaned : string) : bool :=
  nonempty cleaned && negb (Py.startswith "/" cleaned).

(** The media type a browser upload carries, and the one it is given. *)
Definition octet_stream : string := "data:application/octet-stream".
Definition image_jpeg : string := "data:image/jpeg".

(** [h] is a best-scoring hit of the list [l]. *)
Definition best_of (l : list Hit) (h : Hit) : Prop :=
  In h l /\ Forall (fun x => Qle (score x) (score h)) l.

(** The row of [sample_rows] and a hit on the text stored for it. *)
Definition sample_row : CsvRow :=
  mkCsvRow "Red sneaker" "canvas" "shoes" "sneakers" "59.0"
           "data:image/jpeg;base64,AAAA".

Definition sample_hit : Hit :=
  (mkDocument (combined_text sample_row) (Some 1%Z) "Red sneaker" "59.0"
              "data:image/jpeg;base64,AAAA", 0.9%Q).

(** Case analysis on the next character test of a string function. *)
Ltac test_char :=
  match goal with
  | |- context [Ascii.eqb ?a ?b] => is_var b; destruct (Ascii.eqb a b); [|reflexivity]
  end.

(** * Properties *)

(** ** Python built-ins *)

Lemma slice_to_firstn {A : Type} (k : Z) (xs : list A) :
  exists n, Py.slice_to k xs = firstn n xs
            /\ ((0 <= k)%Z -> n = Z.to_nat k).
Proof.
  unfold Py.slice_to. destruct (k <? 0)%Z eqn:Hk.
  - eexists. split; [reflexivity|]. intros Hpos.
    apply Z.ltb_lt in Hk. lia.
  - eexists. split; [reflexivity|]. reflexivity.
Qed.

Lemma slice_to_map {A B : Type} (f : A -> B) (k : Z) (xs : list A) :
  Py.slice_to k (map f xs) = map f (Py.slice_to k xs).
Proof.
  unfold Py.slice_to. rewrite length_map.
  destruct (k <? 0)%Z; apply firstn_map.
Qed.

Lemma slice_to_length {A : Type} (k : Z) (xs : list A) :
  (0 <= k)%Z -> (Z.of_nat (List.length (Py.slice_to k xs)) <= k)%Z.
Proof.
  intros Hk. destruct (slice_to_firstn k xs) as (n & -> & Hn).
  rewrite (Hn Hk). pose proof (firstn_le_length (Z.to_nat k) xs). lia.
Qed.

Lemma gt_spec (x y : Q) : Py.gt x y = true <-> (y < x)%Q.
Proof.
  unfold Py.gt. rewrite negb_true_iff. split.
  - intros H. apply Qnot_le_lt. intros Hle.
    apply Qle_bool_iff in Hle. congruence.
  - intros H. destruct (Qle_bool x y) eqn:E; [|reflexivity].
    apply Qle_bool_iff in E. exfalso. exact (Qlt_not_le _ _ H E).
Qed.

Lemma gt_false (x y : Q) : Py.gt x y = false -> (x <= y)%Q.
Proof.
  unfold Py.gt. rewrite negb_false_iff. apply Qle_bool_iff.
Qed.

Section Sorting.
Context {A : Type} (key : A -> Q).

Lemma insert_desc_perm (x : A) (l : list A) :
  Permutation (Py.insert_desc key x l) (x :: l).
Proof.
  induction l as [|y l IH]; simpl; [reflexivity|].
  destruct (Py.gt (key y) (key x)); [|reflexivity].
  rewrite IH. apply perm_swap.
Qed.

Lemma sorted_desc_perm (l : list A) : Permutation (Py.sorted_desc key l) l.
Proof.
  induction l as [|x l IH]; simpl; [reflexivity|].
  rewrite insert_desc_perm. now constructor.
Qed.

Lemma insert_desc_descending (x : A) (l : list A) :
  descending (map key l) -> descending (map key (Py.insert_desc key x l)).
Proof.
  unfold descending. induction l as [|y l IH]; simpl; intros Hs.
  - repeat constructor.
  - apply StronglySorted_inv in Hs as [Hs Hy].
    destruct (Py.gt (key y) (key x)) eqn:E; simpl.
    + constructor; [now apply IH|].
      apply List.Forall_forall. intros q Hq.
      apply in_map_iff in Hq as (a & <- & Ha).
      apply (Permutation_in _ (insert_desc_perm x l)) in Ha as [<-|Ha].
      * apply gt_spec in E. now apply Qlt_le_weak.
      * rewrite List.Forall_forall in Hy. apply Hy. now apply in_map.
    + apply gt_false in E.
      constructor; [now constructor|].
      constructor; [exact E|].
      eapply List.Forall_impl; [|exact Hy]. intros q Hq. simpl in Hq.
      now apply Qle_trans with (key y).
Qed.

Lemma sorted_desc_descending (l : list A) :
  descending (map key (Py.sorted_desc key l)).
Proof.
  induction l as [|x l IH]; simpl; [constructor|].
  now apply insert_desc_descending.
Qed.

End Sorting.

Lemma insert_desc_map {A B : Type} (key : B -> Q) (h : A -> B) (x : A) (l : list A) :
  Py.insert_desc key (h x) (map h l)
  = map h (Py.insert_desc (fun a => key (h a)) x l).
Proof.
  induction l as [|y l IH]; simpl; [reflexivity|].
  destruct (Py.gt (key (h y)) (key (h x))); simpl; [now rewrite IH|reflexivity].
Qed.

Lemma sorted_desc_map {A B : Type} (key : B -> Q) (h : A -> B) (l : list A) :
  Py.sorted_desc key (map h l) = map h (Py.sorted_desc (fun a => key (h a)) l).
Proof.
  induction l as [|x l IH]; simpl; [reflexivity|].
  rewrite IH. apply insert_desc_map.
Qed.

Lemma in_firstn {A : Type} (n : nat) (x : A) (l : list A) :
  In x (firstn n l) -> In x l.
Proof.
  intros H. rewrite <- (firstn_skipn n l). apply in_or_app. now left.
Qed.

Lemma descending_firstn (n : nat) (qs : list Q) :
  descending qs -> descending (firstn n qs).
Proof.
  unfold descending. revert n. induction qs as [|q qs IH]; intros [|n] Hs; simpl;
    try constructor.
  - apply IH. now apply StronglySorted_inv in Hs.
  - apply StronglySorted_inv in Hs as [_ Hq].
    apply List.Forall_forall. intros x Hx. rewrite List.Forall_forall in Hq.
    apply Hq. eapply in_firstn. exact Hx.
Qed.

Lemma descending_map_filter {A : Type} (key : A -> Q) (p : A -> bool) (l : list A) :
  descending (map key l) -> descending (map key (List.filter p l)).
Proof.
  unfold descending. induction l as [|x l IH]; simpl; intros Hs; [constructor|].
  apply StronglySorted_inv in Hs as [Hs Hx].
  destruct (p x); simpl; [|now apply IH].
  constructor; [now apply IH|].
  apply List.Forall_forall. intros q Hq. rewrite List.Forall_forall in Hx. apply Hx.
  apply in_map_iff in Hq as (a & <- & Ha). apply in_map.
  now apply filter_In in Ha.
Qed.

(** ** Search dispatch *)

Lemma local_queries_nonempty (query : list string) : local_queries query <> [].
Proof. destruct query; discriminate. Qed.

(** With a non-empty query list the searched queries are the caller's, and
    the requested sizes are as the specification gives them. *)
Lemma dispatch_nonempty_query (query : list string) (image : string) (k : Z)
    (image_bool : bool) :
  query <> [] ->
  let n := Z.of_nat (List.length (local_queries query)) in
  forall c, In c (dispatch query image k image_bool) ->
    match c with
    | TextSearch _ kc => kc = if image_bool then k else (k * n)%Z
    | ImageSearch _ kc => image_bool = true /\ kc = (k * n)%Z
    end.
Proof.
  intros Hq n c Hc. unfold dispatch in Hc.
  assert (Hl : local_queries query = query) by (destruct query; [exfalso; now apply Hq | reflexivity]).
  subst n. rewrite Hl in *.
  destruct image_bool.
  - apply in_app_or in Hc as [Hc|[<-|[]]].
    + apply in_map_iff in Hc as (q & <- & _). reflexivity.
    + split; reflexivity.
  - apply in_map_iff in Hc as (q & <- & _). reflexivity.
Qed.

(** C1 (as the code behaves): with an empty query list the placeholder
    query is still searched, so one text query is searched, but the sizes
    that the source computes from [len(query)] are [k * 0 = 0]: the
    text-only search and the image-collection search both request no
    candidates, whatever [k] is. *)
Theorem dispatch_empty_query_requests_zero (image : string) (k : Z) :
  List.length (local_queries []) = 1%nat
  /\ dispatch [] image k false = [TextSearch placeholder_query 0]
  /\ dispatch [] image k true
     = [TextSearch placeholder_query k;
        ImageSearch
          (Py.replace "data:application/octet-stream" "data:image/jpeg" image) 0].
Proof.
  unfold dispatch; simpl. rewrite Z.mul_0_r. repeat split; reflexivity.
Qed.

(** ** Fusion *)

Lemma interleave_round {A : Type} (xs ys : list (list A)) :
  interleave (xs ++ ys) = heads xs ++ interleave (ys ++ tails xs).
Proof.
  revert ys. induction xs as [|x xs IH]; intros ys; simpl.
  - now rewrite app_nil_r.
  - destruct x as [|a x]; simpl.
    + rewrite interleave_equation_2. apply IH.
    + rewrite interleave_equation_3. f_equal.
      rewrite <- app_assoc. rewrite IH. now rewrite <- app_assoc.
Qed.

Lemma interleave_round_robin {A : Type} (lists : list (list A)) :
  interleave lists = round_robin lists.
Proof.
  funelim (round_robin lists).
  - now simp interleave.
  - change (interleave (l :: ls)
            = heads (l :: ls) ++ round_robin (tails (l :: ls))).
    rewrite <- H.
    rewrite <- (app_nil_r (l :: ls)) at 1.
    now rewrite interleave_round.
Qed.

(** C4: in text-only mode the fused sequence is the round-robin interleaving
    of the per-query lists, each sorted by descending score: the head of each
    non-exhausted list in turn, round after round, until all are exhausted.
    For two queries with scores [0.9, 0.8] and [0.85, 0.7] the fused order is
    [0.9, 0.85, 0.8, 0.7]. *)
Theorem fuse_text_only_round_robin :
  (forall unformatted_results : list (list Hit),
      fuse false unformatted_results
      = round_robin (map (Py.sorted_desc score) unformatted_results)
      /\ Forall (fun l => descending (map score l))
                (map (Py.sorted_desc score) unformatted_results))
  /\ (forall d1 d2 d3 d4 : Document,
         map score (fuse false [[(d1, 0.9%Q); (d2, 0.8%Q)];
                                [(d3, 0.85%Q); (d4, 0.7%Q)]])
         = [0.9%Q; 0.85%Q; 0.8%Q; 0.7%Q]).
Proof.
  split.
  - intros rs. split.
    + unfold fuse. apply interleave_round_robin.
    + apply List.Forall_forall. intros l Hl.
      apply in_map_iff in Hl as (l0 & <- & _).
      apply sorted_desc_descending.
  - intros d1 d2 d3 d4. unfold fuse. rewrite interleave_round_robin.
    simpl. simp round_robin. simpl. simp round_robin. simpl. simp round_robin.
    reflexivity.
Qed.

(** ** Deduplication *)

Lemma ids_of_app (l1 l2 : list Hit) : ids_of (l1 ++ l2) = ids_of l1 ++ ids_of l2.
Proof.
  unfold ids_of, Py.not_none. now rewrite map_app, flat_map_app.
Qed.

Lemma ids_of_snoc (l : list Hit) (res : Hit) :
  ids_of (l ++ [res])
  = ids_of l ++ match hit_id res with Some id_ => [id_] | None => [] end.
Proof.
  rewrite ids_of_app. f_equal. unfold ids_of, Py.not_none. simpl.
  apply app_nil_r.
Qed.

Lemma in_ids_of (x : string) (l : list Hit) :
  In x (ids_of l) <-> exists res, In res l /\ hit_id res = Some x.
Proof.
  unfold ids_of, Py.not_none. rewrite in_flat_map. split.
  - intros (o & Ho & Hx). apply in_map_iff in Ho as (res & <- & Hres).
    exists res. split; [exact Hres|].
    destruct (hit_id res); simpl in Hx; [|contradiction].
    destruct Hx as [->|[]]. reflexivity.
  - intros (res & Hres & Hid). exists (Some x). split.
    + rewrite <- Hid. now apply in_map.
    + now left.
Qed.

Lemma seen_earlier (x : string) (earlier : list Hit) :
  existsb (fun e => match hit_id e with
                    | Some id' => String.eqb id' x
                    | None => false
                    end) earlier = true
  <-> In x (ids_of earlier).
Proof.
  rewrite existsb_exists, in_ids_of. split.
  - intros (e & He & Hx). exists e. split; [exact He|].
    destruct (hit_id e); [|discriminate].
    apply String.eqb_eq in Hx. now subst.
  - intros (e & He & Hx). exists e. split; [exact He|].
    rewrite Hx. apply String.eqb_refl.
Qed.

Lemma deduplicate_from_first_occurrences (seen_ids : gset string)
    (earlier later : list Hit) :
  (forall x, x ∈ seen_ids <-> In x (ids_of earlier)) ->
  deduplicate_from seen_ids later = first_occurrences earlier later.
Proof.
  revert seen_ids earlier.
  induction later as [|res rest IH]; intros seen_ids earlier Hinv; simpl;
    [reflexivity|].
  assert (Hnone : hit_id res = None ->
                  forall x, x ∈ seen_ids <-> In x (ids_of (earlier ++ [res]))).
  { intros Hn x. rewrite ids_of_snoc, Hinv, Hn. now rewrite app_nil_r. }
  destruct (hit_id res) as [id_|] eqn:Hid; [|apply IH; apply Hnone; reflexivity].
  destruct (decide (id_ ∈ seen_ids)) as [Hin|Hnin].
  - assert (Hex : In id_ (ids_of earlier)) by now apply Hinv.
    apply seen_earlier in Hex. rewrite Hex. apply IH.
    intros x. rewrite ids_of_snoc, in_app_iff, Hinv, Hid. split; [tauto|].
    intros [H|[<-|[]]]; [exact H|]. now apply Hinv.
  - destruct (existsb _ earlier) eqn:Hex.
    + exfalso. apply Hnin, Hinv. now apply seen_earlier.
    + f_equal. apply IH.
      intros x. rewrite ids_of_snoc, in_app_iff, Hid.
      rewrite elem_of_union, elem_of_singleton, Hinv. simpl.
      split; [intros [->|H]; tauto|intros [H|[<-|[]]]; tauto].
Qed.

Lemma deduplicate_first_occurrences (l : list Hit) :
  deduplicate l = first_occurrences [] l.
Proof.
  apply deduplicate_from_first_occurrences.
  intros x. simpl. split; [|contradiction]. apply not_elem_of_empty.
Qed.

Lemma deduplicate_from_in (seen_ids : gset string) (l : list Hit) (res : Hit) :
  In res (deduplicate_from seen_ids l) ->
  In res l /\ exists id_, hit_id res = Some id_ /\ id_ ∉ seen_ids.
Proof.
  revert seen_ids. induction l as [|r rest IH]; intros seen_ids; simpl;
    [contradiction|].
  destruct (hit_id r) as [id_|] eqn:Hid.
  - destruct (decide (id_ ∈ seen_ids)) as [Hin|Hnin].
    + intros H. apply IH in H as (? & ?). tauto.
    + intros [<-|H].
      * split; [now left|]. now exists id_.
      * apply IH in H as (H1 & x & Hx & Hnx). split; [now right|].
        exists x. split; [exact Hx|].
        intros Hc. apply Hnx, elem_of_union. now right.
  - intros H. apply IH in H as (? & ?). tauto.
Qed.

Lemma deduplicate_from_nodup (seen_ids : gset string) (l : list Hit) :
  NoDup (map (fun res => str_pk (fst res)) (deduplicate_from seen_ids l)).
Proof.
  revert seen_ids. induction l as [|r rest IH]; intros seen_ids; simpl;
    [constructor|].
  destruct (hit_id r) as [id_|] eqn:Hid; [|apply IH].
  destruct (decide (id_ ∈ seen_ids)) as [Hin|Hnin]; [apply IH|].
  simpl. constructor; [|apply IH].
  intros Hdup. apply in_map_iff in Hdup as (res & Hres & Hin).
  apply deduplicate_from_in in Hin as (_ & x & Hx & Hnx).
  unfold hit_id in Hid, Hx. unfold str_pk in Hres.
  destruct (pk (fst r)); [|discriminate].
  destruct (pk (fst res)); [|discriminate].
  injection Hid as <-. injection Hx as <-. rewrite Hres in Hnx.
  apply Hnx, elem_of_union. left. now apply elem_of_singleton.
Qed.

Lemma deduplicate_from_filter (seen_ids : gset string) (l : list Hit) :
  deduplicate_from seen_ids (List.filter has_id l) = deduplicate_from seen_ids l.
Proof.
  revert seen_ids. induction l as [|r rest IH]; intros seen_ids; simpl;
    [reflexivity|].
  unfold has_id at 1. destruct (hit_id r) as [id_|] eqn:Hid; simpl.
  - rewrite Hid. destruct (decide (id_ ∈ seen_ids)); [apply IH|].
    f_equal. apply IH.
  - apply IH.
Qed.

(** ** The returned lists are projections of one list of hits *)

Lemma combine_map {A B C : Type} (f : A -> B) (g : A -> C) (l : list A) :
  combine (map f l) (map g l) = map (fun x => (f x, g x)) l.
Proof. induction l as [|x l IH]; simpl; [reflexivity|now rewrite IH]. Qed.

Lemma filter_map {A B : Type} (p : B -> bool) (h : A -> B) (l : list A) :
  List.filter p (map h l) = map h (List.filter (fun x => p (h x)) l).
Proof.
  induction l as [|x l IH]; simpl; [reflexivity|].
  destruct (p (h x)); simpl; now rewrite IH.
Qed.

Lemma above_threshold_map {A B : Type} (threshold : Q) (k : Z) (f : A -> B)
    (g : A -> Q) (l : list A) :
  above_threshold threshold k (map f l) (map g l)
  = map f (List.filter (fun x => Py.gt (g x) threshold) (Py.slice_to k l)).
Proof.
  unfold above_threshold. rewrite !slice_to_map, combine_map, filter_map.
  rewrite map_map. reflexivity.
Qed.

Lemma zip5_map (hs : list Hit) :
  zip5 (map score hs) (map hit_text hs) (map (fun res => str_pk (fst res)) hs)
       (map (fun res => name (fst res)) hs) (map (fun res => image (fst res)) hs)
  = map hit_row hs.
Proof.
  unfold zip5. rewrite !combine_map. reflexivity.
Qed.

Lemma rank_hits (self : Retriever) (k : Z) (all_results : list Hit) :
  rank self k all_results = results_of_hits (ranked_hits self k all_results).
Proof.
  unfold rank, results_of_hits, ranked_hits.
  change (fun res : Hit =>
            (page_content (fst res) ++ newline ++ "PRICE: " ++ price (fst res))%string)
    with hit_text.
  change (fun res : Hit => snd res) with score.
  rewrite !above_threshold_map.
  rewrite (slice_to_map score), (filter_map _ score).
  change (fun x : Hit => Py.gt (score x) (sim_threshold self))
    with (above (sim_threshold self)).
  rewrite zip5_map, sorted_desc_map.
  change (fun a : Hit => row_sim (hit_row a)) with score.
  rewrite !map_map, !slice_to_map. reflexivity.
Qed.

Lemma category_filter_hits (image_bool : bool) (categories : list string)
    (hs : list Hit) :
  category_filter image_bool categories (results_of_hits hs)
  = results_of_hits (filtered_hits image_bool categories hs).
Proof.
  unfold category_filter, filtered_hits.
  destruct image_bool; [reflexivity|].
  destruct categories as [|c cs]; [reflexivity|].
  unfold zip6. cbn [texts ids sims names images results_of_hits].
  rewrite zip5_map, map_map, combine_map, filter_map, map_map. cbn [fst snd].
  set (p := fun x : Hit => match_found (c :: cs) (parse_categories (hit_text x))).
  destruct (List.filter p hs) as [|h hs'] eqn:E; [reflexivity|].
  cbn [map]. unfold results_of_hits. cbn [map]. rewrite !map_map. reflexivity.
Qed.

Lemma retrieve_hits (self : Retriever) (query categories : list string)
    (image : string) (k : Z) (image_bool : bool) :
  retrieve self query categories image k image_bool
  = results_of_hits (final_hits self query categories image k image_bool).
Proof.
  unfold retrieve, final_hits, fused_hits.
  now rewrite rank_hits, category_filter_hits.
Qed.

(** ** Properties kept along the pipeline *)

Lemma nodup_map_firstn {A B : Type} (f : A -> B) (n : nat) (l : list A) :
  List.NoDup (map f l) -> List.NoDup (map f (firstn n l)).
Proof.
  intros H. rewrite <- (firstn_skipn n l), map_app in H.
  now apply NoDup_app_remove_r in H.
Qed.

Lemma nodup_map_filter {A B : Type} (f : A -> B) (p : A -> bool) (l : list A) :
  List.NoDup (map f l) -> List.NoDup (map f (List.filter p l)).
Proof.
  induction l as [|x l IH]; simpl; intros H; [constructor|].
  apply NoDup_cons_iff in H as [Hx Hl].
  destruct (p x); simpl; [|now apply IH].
  constructor; [|now apply IH].
  intros Hin. apply Hx. apply in_map_iff in Hin as (a & <- & Ha).
  apply in_map. now apply filter_In in Ha.
Qed.

Lemma nodup_map_perm {A B : Type} (f : A -> B) (l l' : list A) :
  Permutation l l' -> List.NoDup (map f l) -> List.NoDup (map f l').
Proof.
  intros Hp. apply Permutation_NoDup. now apply Permutation_map.
Qed.

Lemma filtered_hits_filter (image_bool : bool) (categories : list string)
    (hs : list Hit) :
  exists p, filtered_hits image_bool categories hs = List.filter p hs.
Proof.
  unfold filtered_hits. destruct image_bool.
  - exists (fun _ => true). induction hs as [|h hs IH]; simpl; congruence.
  - destruct categories as [|c cs]; [|eexists; reflexivity].
    exists (fun _ => false). induction hs as [|h hs IH]; simpl; congruence.
Qed.

Lemma filter_length_le {A : Type} (p : A -> bool) (l : list A) :
  (List.length (List.filter p l) <= List.length l)%nat.
Proof.
  induction l as [|x l IH]; simpl; [lia|]. destruct (p x); simpl; lia.
Qed.

Section RankedHits.
Variables (self : Retriever) (k : Z) (all_results : list Hit).

Lemma ranked_hits_length :
  (0 <= k)%Z -> (Z.of_nat (List.length (ranked_hits self k all_results)) <= k)%Z.
Proof. intros Hk. unfold ranked_hits. now apply slice_to_length. Qed.

Lemma ranked_hits_in (res : Hit) :
  In res (ranked_hits self k all_results) ->
  In res all_results /\ above (sim_threshold self) res = true.
Proof.
  unfold ranked_hits. intros H.
  destruct (slice_to_firstn k
              (Py.sorted_desc score
                 (List.filter (above (sim_threshold self))
                              (Py.slice_to k all_results)))) as (n & E & _).
  rewrite E in H. apply in_firstn in H.
  apply (Permutation_in _ (sorted_desc_perm score _)) in H.
  apply filter_In in H as [H Ha]. split; [|exact Ha].
  destruct (slice_to_firstn k all_results) as (m & E' & _).
  rewrite E' in H. now apply in_firstn in H.
Qed.

Lemma ranked_hits_descending :
  descending (map score (ranked_hits self k all_results)).
Proof.
  unfold ranked_hits.
  destruct (slice_to_firstn k
              (Py.sorted_desc score
                 (List.filter (above (sim_threshold self))
                              (Py.slice_to k all_results)))) as (n & -> & _).
  rewrite <- firstn_map. apply descending_firstn, sorted_desc_descending.
Qed.

Lemma ranked_hits_nodup {B : Type} (f : Hit -> B) :
  List.NoDup (map f all_results) ->
  List.NoDup (map f (ranked_hits self k all_results)).
Proof.
  intros H. unfold ranked_hits.
  destruct (slice_to_firstn k
              (Py.sorted_desc score
                 (List.filter (above (sim_threshold self))
                              (Py.slice_to k all_results)))) as (n & -> & _).
  apply nodup_map_firstn.
  eapply nodup_map_perm; [symmetry; apply sorted_desc_perm|].
  apply nodup_map_filter.
  destruct (slice_to_firstn k all_results) as (m & -> & _).
  now apply nodup_map_firstn.
Qed.

End RankedHits.

(** C2: for a candidate count [k >= 0], the lists a retrieval call returns
    have one length, at most [k]; every returned score is strictly greater
    than [sim_threshold]; the scores are in descending order; and no id
    occurs twice. *)
Theorem retrieve_bounded_sorted_unique (self : Retriever)
    (query categories : list string) (image : string) (k : Z) (image_bool : bool) :
  (0 <= k)%Z ->
  let out := retrieve self query categories image k image_bool in
  (Z.of_nat (List.length (sims out)) <= k)%Z
  /\ (List.length (texts out) = List.length (sims out)
      /\ List.length (ids out) = List.length (sims out)
      /\ List.length (names out) = List.length (sims out)
      /\ List.length (images out) = List.length (sims out))
  /\ Forall (fun sim => (sim_threshold self < sim)%Q) (sims out)
  /\ descending (sims out)
  /\ List.NoDup (ids out).
Proof.
  intros Hk out. subst out. rewrite retrieve_hits.
  unfold final_hits.
  set (all_results := deduplicate (fused_hits self query image k image_bool)).
  destruct (filtered_hits_filter image_bool categories
              (ranked_hits self k all_results)) as (p & ->).
  cbn [results_of_hits texts ids sims names images].
  rewrite !length_map.
  repeat split.
  - pose proof (filter_length_le p (ranked_hits self k all_results)).
    pose proof (ranked_hits_length self k all_results Hk). lia.
  - apply List.Forall_forall. intros q Hq.
    apply in_map_iff in Hq as (res & <- & Hres).
    apply filter_In in Hres as [Hres _].
    apply ranked_hits_in in Hres as [_ Ha]. now apply gt_spec in Ha.
  - apply descending_map_filter, ranked_hits_descending.
  - apply nodup_map_filter, ranked_hits_nodup.
    apply deduplicate_from_nodup.
Qed.

(** C3: in text-only mode a call without category terms returns empty
    lists, whatever was found; in image mode the category terms are not
    looked at and the ranked survivors are returned as they are. *)
Theorem retrieve_category_policy (self : Retriever) (query : list string)
    (image : string) (k : Z) :
  retrieve self query [] image k false = no_results
  /\ (forall categories,
         retrieve self query categories image k true
         = rank self k (deduplicate (fused_hits self query image k true)))
  /\ (forall categories categories',
         retrieve self query categories image k true
         = retrieve self query categories' image k true).
Proof.
  repeat split; reflexivity.
Qed.

(** C10: deduplication drops every hit whose metadata has no id: such a
    hit is in no later stage, whatever its score; the hits that have an id
    are kept at their first occurrence; and every id a call returns is the
    id of a searched hit that has one. *)
Theorem deduplicate_drops_hits_without_id (interleaved_results : list Hit) :
  Forall (fun res => pk (fst res) <> None) (deduplicate interleaved_results)
  /\ deduplicate interleaved_results
     = deduplicate (List.filter has_id interleaved_results)
  /\ deduplicate interleaved_results = first_occurrences [] interleaved_results
  /\ (forall self query categories image k image_bool,
         interleaved_results = fused_hits self query image k image_bool ->
         retrieve self query categories image k image_bool
         = category_filter image_bool categories
             (rank self k (deduplicate (List.filter has_id interleaved_results)))
         /\ forall id_,
             In id_ (ids (retrieve self query categories image k image_bool)) ->
             exists res, In res interleaved_results
                         /\ exists pk_value, pk (fst res) = Some pk_value
                                             /\ id_ = Py.str_int pk_value).
Proof.
  split; [|split; [|split]].
  - apply List.Forall_forall. intros res Hres.
    apply deduplicate_from_in in Hres as (_ & x & Hx & _).
    unfold hit_id in Hx. destruct (pk (fst res)); discriminate.
  - unfold deduplicate. symmetry. apply deduplicate_from_filter.
  - apply deduplicate_first_occurrences.
  - intros self query categories image k image_bool ->. split.
    + unfold deduplicate. rewrite deduplicate_from_filter. reflexivity.
    + intros id_. rewrite retrieve_hits. cbn [ids results_of_hits].
      intros Hin. apply in_map_iff in Hin as (res & <- & Hres).
      unfold final_hits in Hres.
      destruct (filtered_hits_filter image_bool categories
                  (ranked_hits self k
                     (deduplicate (fused_hits self query image k image_bool))))
        as (p & E).
      rewrite E in Hres. apply filter_In in Hres as [Hres _].
      apply ranked_hits_in in Hres as [Hres _].
      apply deduplicate_from_in in Hres as (Hres & x & Hx & _).
      exists res. split; [exact Hres|].
      unfold hit_id in Hx. unfold str_pk.
      destruct (pk (fst res)) as [v|]; [|discriminate].
      exists v. split; reflexivity.
Qed.

(** ** Batches *)

Lemma slice_length {A : Type} (i n : nat) (l : list A) :
  List.length (Py.slice i n l) = Nat.min n (List.length l - i).
Proof. unfold Py.slice. now rewrite length_firstn, length_skipn. Qed.

Section Blocks.
Context {B : Type} (g : nat -> list B) (n : nat).
Hypothesis block_length :
  forall j, List.length (g j) = Nat.min batch_size (n - j * batch_size).

Lemma blocks_length (m s : nat) :
  List.length (List.concat (map g (seq s m)))
  = Nat.min (m * batch_size) (n - s * batch_size).
Proof using block_length.
  revert s. induction m as [|m IH]; intros s; cbn [seq map List.concat];
    [simpl; lia|].
  rewrite length_app, IH, block_length. unfold batch_size. lia.
Qed.

Lemma blocks_nth_error (m s p : nat) :
  (s * batch_size + p < n)%nat ->
  (p / batch_size < m)%nat ->
  nth_error (List.concat (map g (seq s m))) p
  = nth_error (g (s + p / batch_size)) (p mod batch_size).
Proof using block_length.
  revert s p. induction m as [|m IH]; intros s p Hp Hm; [lia|].
  cbn [seq map List.concat]. pose proof (block_length s) as Hs. unfold batch_size in *.
  destruct (Nat.lt_ge_cases p 32) as [Hlt|Hge].
  - replace (p / 32)%nat with 0%nat by div_lia.
    replace (p mod 32)%nat with p by div_lia.
    rewrite Nat.add_0_r. apply nth_error_app1. lia.
  - rewrite nth_error_app2 by lia.
    replace (List.length (g s)) with 32%nat by lia.
    rewrite IH by div_lia.
    f_equal; [f_equal|]; div_lia.
Qed.

End Blocks.

Lemma range_step_blocks {B : Type} (f : nat -> list B) (n : nat) :
  map f (Py.range_step n batch_size)
  = map (fun j => f (j * batch_size)%nat) (seq 0 ((n + batch_size - 1) / batch_size)).
Proof. unfold Py.range_step. now rewrite map_map. Qed.

(** The output of a batch loop whose blocks are as long as the batches. *)
Lemma batches_nth_error {A B : Type} (l : list A) (f : nat -> list B) :
  (forall i, List.length (f i) = List.length (Py.slice i batch_size l)) ->
  let out := List.concat (map f (Py.range_step (List.length l) batch_size)) in
  List.length out = List.length l
  /\ forall p, (p < List.length l)%nat ->
       nth_error out p
       = nth_error (f (p / batch_size * batch_size)%nat) (p mod batch_size).
Proof.
  intros Hf out. subst out. rewrite range_step_blocks.
  assert (Hg : forall j, List.length (f (j * batch_size)%nat)
                         = Nat.min batch_size (List.length l - j * batch_size)).
  { intros j. rewrite Hf. apply slice_length. }
  split.
  - rewrite (blocks_length _ _ Hg). unfold batch_size. div_lia.
  - intros p Hp.
    rewrite (blocks_nth_error _ _ Hg) by (unfold batch_size; div_lia).
    reflexivity.
Qed.

Lemma slice_nth_error {A : Type} (i n p : nat) (l : list A) :
  (p < n)%nat -> nth_error (Py.slice i n l) p = nth_error l (i + p).
Proof.
  intros Hp. unfold Py.slice.
  rewrite nth_error_firstn.
  destruct (Nat.ltb_spec p n); [|lia].
  apply nth_error_skipn.
Qed.

(** ** Text-embedding batches *)

Lemma embed_batch_length (self : Retriever) (all_chunks : list string)
    (query_type : string) :
  (forall i data,
      text_client self i (Py.slice i batch_size all_chunks) query_type = Some data ->
      List.length data = List.length (Py.slice i batch_size all_chunks)) ->
  forall i, List.length (embed_batch self all_chunks query_type i)
            = List.length (Py.slice i batch_size all_chunks).
Proof.
  intros H i. unfold embed_batch.
  destruct (text_client self i _ query_type) as [data|] eqn:E.
  - rewrite length_map. now apply H.
  - now rewrite length_map.
Qed.

(** C7: when every successful call returns one vector per chunk, the
    output of the batch loop has one entry per chunk, and the entry at a
    position is decided by the call for the batch of that position alone:
    [None] when that call raised, the vector the call returned for the
    chunk otherwise.  The loop itself never raises. *)
Theorem embed_chunks_failure_is_per_batch (self : Retriever)
    (all_chunks : list string) (query_type : string) :
  (forall i data,
      text_client self i (Py.slice i batch_size all_chunks) query_type = Some data ->
      List.length data = List.length (Py.slice i batch_size all_chunks)) ->
  let out := _embed_chunks_in_batches self all_chunks query_type in
  List.length out = List.length all_chunks
  /\ forall p, (p < List.length all_chunks)%nat ->
       let i := (p / batch_size * batch_size)%nat in
       match text_client self i (Py.slice i batch_size all_chunks) query_type with
       | None => nth_error out p = Some None
       | Some data =>
           exists v, nth_error data (p mod batch_size) = Some v
                     /\ nth_error out p = Some (Some v)
       end.
Proof.
  intros Hc out. subst out. unfold _embed_chunks_in_batches.
  destruct (batches_nth_error all_chunks
              (embed_batch self all_chunks query_type)
              (embed_batch_length self all_chunks query_type Hc)) as [Hlen Hnth].
  split; [exact Hlen|].
  intros p Hp. cbv zeta. rewrite (Hnth p Hp).
  set (i := (p / batch_size * batch_size)%nat).
  assert (Hin : (p mod batch_size
                 < List.length (Py.slice i batch_size all_chunks))%nat).
  { rewrite slice_length. subst i. unfold batch_size. div_lia. }
  unfold embed_batch.
  destruct (text_client self i _ query_type) as [data|] eqn:E.
  - rewrite <- (Hc i data E) in Hin.
    destruct (nth_error data (p mod batch_size)) as [v|] eqn:Ev.
    + exists v. split; [reflexivity|]. rewrite nth_error_map, Ev. reflexivity.
    + apply nth_error_None in Ev. lia.
  - rewrite nth_error_map.
    destruct (nth_error (Py.slice i batch_size all_chunks) (p mod batch_size))
      eqn:Ev; [reflexivity|].
    apply nth_error_None in Ev. lia.
Qed.

(** ** Averaging chunk embeddings *)

Lemma vadd_length (u v : Vector) :
  List.length u = List.length v -> List.length (vadd u v) = List.length u.
Proof.
  intros H. unfold vadd. rewrite length_map, length_combine. lia.
Qed.

Lemma nth_map_in {A B : Type} (f : A -> B) (l : list A) (j : nat) (d : A) (d' : B) :
  (j < List.length l)%nat -> nth j (map f l) d' = f (nth j l d).
Proof.
  intros H. rewrite (nth_indep _ d' (f d)) by now rewrite length_map.
  apply map_nth.
Qed.

Lemma vadd_nth (u v : Vector) (j : nat) :
  List.length u = List.length v -> (j < List.length u)%nat ->
  nth j (vadd u v) 0%Q = (nth j u 0 + nth j v 0)%Q.
Proof.
  intros Hl Hj. unfold vadd.
  rewrite (nth_map_in _ _ _ (0%Q, 0%Q)) by (rewrite length_combine; lia).
  now rewrite combine_nth.
Qed.

Lemma fold_vadd (rest : list Vector) (acc : Vector) :
  Forall (fun u => List.length u = List.length acc) rest ->
  List.length (fold_left vadd rest acc) = List.length acc
  /\ forall j, (j < List.length acc)%nat ->
       (nth j (fold_left vadd rest acc) 0 == nth j acc 0 + column_sum j rest)%Q.
Proof.
  revert acc. induction rest as [|u rest IH]; intros acc Hall; simpl.
  - split; [reflexivity|]. intros j _. unfold column_sum. simpl. ring.
  - apply Forall_cons_iff in Hall as [Hu Hall].
    destruct (IH (vadd acc u)) as [Hlen Hnth].
    { rewrite vadd_length by congruence.
      eapply List.Forall_impl; [|exact Hall]. intros a Ha. exact Ha. }
    rewrite vadd_length in Hlen by congruence.
    split; [exact Hlen|]. intros j Hj.
    rewrite Hnth by (rewrite vadd_length; congruence).
    rewrite vadd_nth by congruence.
    unfold column_sum. simpl. ring.
Qed.

(** In exact arithmetic [mean_axis0] is the coordinate-wise arithmetic
    mean of vectors of one dimension. *)
Lemma mean_axis0_spec (v : Vector) (rest : list Vector) (d : nat) :
  Forall (fun u => List.length u = d) (v :: rest) ->
  exists m, mean_axis0 (v :: rest) = Ok m /\ is_mean m (v :: rest).
Proof.
  intros Hall. apply Forall_cons_iff in Hall as [Hv Hall].
  assert (Hsame : Forall (fun u => List.length u = List.length v) rest).
  { eapply List.Forall_impl; [|exact Hall]. intros a Ha. simpl in Ha. congruence. }
  unfold mean_axis0.
  assert (Hb : forallb (fun u => Nat.eqb (List.length u) (List.length v)) rest = true).
  { apply forallb_forall. intros u Hu. rewrite List.Forall_forall in Hsame.
    apply Nat.eqb_eq. now apply Hsame. }
  rewrite Hb. eexists. split; [reflexivity|].
  destruct (fold_vadd rest v Hsame) as [Hlen Hnth].
  unfold is_mean. split.
  - now rewrite length_map.
  - intros j Hj. rewrite (nth_map_in _ _ _ 0%Q) by lia.
    rewrite Hnth by exact Hj. unfold column_sum. simpl. reflexivity.
Qed.

Lemma slice_cons {A : Type} (i n : nat) (c : A) (l : list A) :
  nth_error l i = Some c -> Py.slice i (S n) l = c :: Py.slice (S i) n l.
Proof.
  unfold Py.slice. revert l. induction i as [|i IH]; intros [|x l] H;
    try discriminate.
  - simpl in H. injection H as ->. reflexivity.
  - simpl in H. apply IH in H. exact H.
Qed.

(** ** Averaging with the numeric library left open *)

(** The vectors of a slice are the vectors at its positions. *)
Lemma not_none_slice {E : Type} (embs : list (option E)) (n i : nat) :
  Py.not_none (Py.slice i n embs) = vectors_at embs (seq i n).
Proof.
  revert i. induction n as [|n IH]; intros i.
  - unfold Py.slice. reflexivity.
  - cbn [seq]. change (vectors_at embs (i :: seq (S i) n))
      with ((match nth_error embs i with
             | Some (Some v) => [v]
             | _ => []
             end) ++ vectors_at embs (seq (S i) n)).
    rewrite <- IH.
    destruct (nth_error embs i) as [e|] eqn:Ei.
    + rewrite (slice_cons i n e embs Ei). now destruct e.
    + apply nth_error_None in Ei. unfold Py.slice.
      rewrite !skipn_all2 by lia. now rewrite !firstn_nil.
Qed.

Section Mean.

Context {E : Type}.
Variable mean : list E -> result E.

Lemma average_valid_vectors (embs : list (option E)) (i n : nat) :
  Generic.average_valid mean (Py.slice i n embs)
  = match vectors_at embs (seq i n) with
    | [] => Ok None
    | vs => average_embedding ← mean vs; Ok (Some average_embedding)
    end.
Proof.
  unfold Generic.average_valid. rewrite not_none_slice.
  now destruct (vectors_at embs (seq i n)).
Qed.

Lemma reconstruct_from_entries (embs : list (option E)) (counts : list nat)
    (texts : list string) (i idx : nat) :
  (i + List.length texts <= List.length counts)%nat ->
  (forall n, (n < List.length texts)%nat ->
     let vs := vectors_at embs (seq (idx + list_sum (Py.slice i n counts))
                                    (nth (i + n) counts 0%nat)) in
     vs <> [] -> exists m, mean vs = Ok m) ->
  exists out,
    Generic.reconstruct_from mean embs counts texts i idx = Ok out
    /\ List.length out = List.length texts
    /\ forall n, (n < List.length texts)%nat ->
         match vectors_at embs (seq (idx + list_sum (Py.slice i n counts))
                                    (nth (i + n) counts 0%nat)) with
         | [] => nth_error out n = Some None
         | vs => exists m, mean vs = Ok m /\ nth_error out n = Some (Some m)
         end.
Proof.
  revert i idx. induction texts as [|t texts IH]; intros i idx Hlen Hmean.
  - exists []. repeat split. intros n Hn. simpl in Hn. lia.
  - cbn [List.length] in Hlen.
    destruct (nth_error counts i) as [c|] eqn:Ec;
      [|apply nth_error_None in Ec; lia].
    assert (Hnth : forall dflt, nth i counts dflt = c).
    { intros dflt. now apply nth_error_nth. }
    assert (Hshift : forall n,
               (idx + list_sum (Py.slice i (S n) counts))%nat
               = (idx + c + list_sum (Py.slice (S i) n counts))%nat).
    { intros n. rewrite (slice_cons i n c counts Ec). simpl. lia. }
    destruct (IH (S i) (idx + c)%nat) as (rest & Hrest & Hl & Hn); [lia| |].
    { intros n Hlt. specialize (Hmean (S n)). cbv zeta in *.
      rewrite Hshift in Hmean.
      replace (i + S n)%nat with (S i + n)%nat in Hmean by lia.
      apply Hmean. cbn [List.length]. lia. }
    pose proof (Hmean 0%nat) as H0. cbv zeta in H0.
    change (Py.slice i 0 counts) with (@nil nat) in H0.
    cbn [list_sum] in H0. rewrite !Nat.add_0_r, Hnth in H0.
    specialize (H0 ltac:(cbn [List.length]; lia)).
    assert (Hhead : exists e,
               Generic.average_valid mean (Py.slice idx c embs) = Ok e
               /\ match vectors_at embs (seq idx c) with
                  | [] => e = None
                  | vs => exists m, mean vs = Ok m /\ e = Some m
                  end).
    { rewrite average_valid_vectors.
      destruct (vectors_at embs (seq idx c)) as [|v vs]; [now exists None|].
      destruct H0 as (m & Hm); [discriminate|].
      exists (Some m). rewrite Hm. split; [reflexivity|]. now exists m. }
    destruct Hhead as (e & He & Hes).
    exists (e :: rest). split; [|split].
    + cbn [Generic.reconstruct_from]. rewrite Ec. destruct c as [|c'].
      * rewrite Nat.add_0_r in Hrest. rewrite Hrest.
        cbv [seq vectors_at flat_map] in Hes. subst e. reflexivity.
      * rewrite He. cbn [mbind result_bind]. rewrite Hrest. reflexivity.
    + cbn [List.length]. now rewrite Hl.
    + intros [|n] Hlt.
      * change (Py.slice i 0 counts) with (@nil nat). cbn [list_sum].
        rewrite !Nat.add_0_r, Hnth. cbn [nth_error].
        destruct (vectors_at embs (seq idx c)); [now subst e|].
        destruct Hes as (m & Hm & ->). now exists m.
      * rewrite Hshift. replace (i + S n)%nat with (S i + n)%nat by lia.
        cbn [nth_error]. apply Hn. cbn [List.length] in Hlt. lia.
Qed.

(** Reconstruction, entry by entry. *)
Lemma reconstruct_entries_of_positions (texts : list string)
    (all_chunk_embeddings : list (option E)) (text_chunk_counts : list nat) :
  List.length text_chunk_counts = List.length texts ->
  (forall n, (n < List.length texts)%nat ->
     let vs := vectors_at all_chunk_embeddings
                          (chunk_positions text_chunk_counts n) in
     vs <> [] -> exists m, mean vs = Ok m) ->
  exists out,
    Generic._reconstruct_embeddings mean texts all_chunk_embeddings
                                    text_chunk_counts = Ok out
    /\ List.length out = List.length texts
    /\ forall n, (n < List.length texts)%nat ->
         match vectors_at all_chunk_embeddings
                          (chunk_positions text_chunk_counts n) with
         | [] => nth_error out n = Some None
         | vs => exists m, mean vs = Ok m /\ nth_error out n = Some (Some m)
         end.
Proof.
  intros Hlen Hmean. unfold Generic._reconstruct_embeddings.
  apply reconstruct_from_entries; [lia|exact Hmean].
Qed.


End Mean.

(** ** Order preservation of the two embedding operations *)

Lemma embed_image_batch_splice (self : Retriever) (w : World)
    (texts : list string) (i : nat) :
  embed_image_batch self w texts i
  = splice (image_batch_inputs w texts i) (image_batch_embeddings self w texts i).
Proof.
  unfold embed_image_batch, image_batch_embeddings, image_batch_inputs.
  destruct (Py.not_none _); reflexivity.
Qed.

Lemma splice_length (l : list (option string)) (es : list Vector) :
  List.length (splice l es) = List.length l.
Proof.
  revert es. induction l as [|[x|] l IH]; intros es; simpl; [reflexivity| |].
  - destruct es; simpl; now rewrite IH.
  - now rewrite IH.
Qed.

Lemma splice_nth_error (l : list (option string)) (es : list Vector) (q : nat) :
  nth_error (splice l es) q
  = match nth_error l q with
    | Some (Some _) =>
        Some (nth_error es (List.length (Py.not_none (firstn q l))))
    | Some None => Some None
    | None => None
    end.
Proof.
  revert es q. induction l as [|[x|] l IH]; intros es q; simpl.
  - now destruct q.
  - destruct es as [|e es]; destruct q as [|q]; simpl; try reflexivity.
    + rewrite IH. destruct (nth_error l q) as [[y|]|]; try reflexivity.
      now destruct (List.length (Py.not_none (firstn q l))).
    + rewrite IH. reflexivity.
  - destruct q as [|q]; simpl; [reflexivity|]. apply IH.
Qed.

Lemma embed_image_batch_length (self : Retriever) (w : World)
    (texts : list string) (i : nat) :
  List.length (embed_image_batch self w texts i)
  = List.length (Py.slice i batch_size texts).
Proof.
  rewrite embed_image_batch_splice, splice_length.
  unfold image_batch_inputs. apply length_map.
Qed.

(** ** The generic functions at exact arithmetic *)

Lemma reconstruct_from_generic (embs : list (option Vector)) (counts : list nat)
    (texts : list string) (i idx : nat) :
  reconstruct_from embs counts texts i idx
  = Generic.reconstruct_from mean_axis0 embs counts texts i idx.
Proof.
  revert i idx. induction texts as [|t texts IH]; intros i idx; [reflexivity|].
  cbn [reconstruct_from Generic.reconstruct_from].
  destruct (nth_error counts i) as [[|c]|]; [| |reflexivity].
  - now rewrite IH.
  - rewrite IH. reflexivity.
Qed.

Lemma text_embeddings_generic (self : Retriever) (w : World)
    (texts : list string) (query_type : string) :
  text_embeddings self w texts query_type
  = Generic.text_embeddings mean_axis0 (text_client self) (split_text w)
                            texts query_type.
Proof.
  unfold text_embeddings, Generic.text_embeddings.
  destruct texts as [|t texts]; [reflexivity|].
  change (Generic._create_text_chunks (split_text w) (t :: texts))
    with (_create_text_chunks w (t :: texts)).
  destruct (_create_text_chunks w (t :: texts)) as [all_chunks counts].
  destruct all_chunks as [|c cs]; [reflexivity|].
  unfold _reconstruct_embeddings, Generic._reconstruct_embeddings.
  apply reconstruct_from_generic.
Qed.

(** ** Every text gets the answers for its own chunks *)

Lemma chunk_offset_chunks_before (splitter : string -> list string)
    (texts : list string) (n : nat) :
  chunk_offset (map (@List.length string) (map splitter texts)) n
  = chunks_before splitter texts n.
Proof.
  unfold chunk_offset, chunks_before.
  now rewrite map_map, firstn_map.
Qed.

Lemma chunk_count_nth (splitter : string -> list string)
    (texts : list string) (n : nat) :
  (n < List.length texts)%nat ->
  nth n (map (@List.length string) (map splitter texts)) 0%nat
  = List.length (splitter (nth n texts EmptyString)).
Proof.
  intros Hn. rewrite map_map.
  rewrite (nth_indep _ 0%nat (List.length (splitter EmptyString)))
    by now rewrite length_map.
  apply (map_nth (fun text => List.length (splitter text))).
Qed.

Lemma chunks_of_text_in_range (splitter : string -> list string)
    (texts : list string) (n : nat) :
  (n < List.length texts)%nat ->
  (chunks_before splitter texts n
   + List.length (splitter (nth n texts EmptyString))
   <= List.length (flat_map splitter texts))%nat.
Proof.
  unfold chunks_before. revert n.
  induction texts as [|t texts IH]; intros n Hn; [simpl in Hn; lia|].
  cbn [flat_map]. rewrite length_app. destruct n as [|n].
  - cbn [firstn map list_sum fold_right nth]. lia.
  - cbn [List.length] in Hn. specialize (IH n ltac:(lia)).
    unfold list_sum in *. cbn [firstn map fold_right nth]. lia.
Qed.

Lemma vectors_at_answers {E : Type} (embs : list (option E)) (f : nat -> option E)
    (positions : list nat) :
  (forall p, In p positions -> nth_error embs p = Some (f p)) ->
  vectors_at embs positions
  = flat_map (fun p => match f p with Some v => [v] | None => [] end) positions.
Proof.
  intros H. unfold vectors_at.
  induction positions as [|p ps IH]; [reflexivity|].
  cbn [flat_map]. rewrite (H p) by now left.
  rewrite IH by (intros q Hq; apply H; now right). reflexivity.
Qed.

Section Answers.

Context {E : Type}.
Variable client : nat -> list string -> string -> option (list E).
Variable splitter : string -> list string.

Lemma generic_embed_batch_length (all_chunks : list string) (query_type : string) :
  (forall i data,
      client i (Py.slice i batch_size all_chunks) query_type = Some data ->
      List.length data = List.length (Py.slice i batch_size all_chunks)) ->
  forall i, List.length (Generic.embed_batch client all_chunks query_type i)
            = List.length (Py.slice i batch_size all_chunks).
Proof.
  intros H i. unfold Generic.embed_batch.
  destruct (client i _ query_type) as [data|] eqn:Ec.
  - rewrite length_map. now apply H.
  - now rewrite length_map.
Qed.

(** The entry of the batch loop at a position is the answer of the call
    for the batch of that position. *)
Lemma embed_chunks_nth_error (all_chunks : list string) (query_type : string) :
  (forall i data,
      client i (Py.slice i batch_size all_chunks) query_type = Some data ->
      List.length data = List.length (Py.slice i batch_size all_chunks)) ->
  let out := Generic._embed_chunks_in_batches client all_chunks query_type in
  List.length out = List.length all_chunks
  /\ forall p, (p < List.length all_chunks)%nat ->
       nth_error out p
       = Some (let i := (p / batch_size * batch_size)%nat in
               match client i (Py.slice i batch_size all_chunks) query_type with
               | Some data => nth_error data (p mod batch_size)
               | None => None
               end).
Proof.
  intros Hc out. subst out. unfold Generic._embed_chunks_in_batches.
  destruct (batches_nth_error all_chunks
              (Generic.embed_batch client all_chunks query_type)
              (generic_embed_batch_length all_chunks query_type Hc))
    as [Hlen Hnth].
  split; [exact Hlen|].
  intros p Hp. cbv zeta. rewrite (Hnth p Hp).
  set (i := (p / batch_size * batch_size)%nat).
  assert (Hin : (p mod batch_size
                 < List.length (Py.slice i batch_size all_chunks))%nat).
  { rewrite slice_length. subst i. unfold batch_size. div_lia. }
  unfold Generic.embed_batch.
  destruct (client i _ query_type) as [data|] eqn:Ec.
  - rewrite <- (Hc i data Ec) in Hin. rewrite nth_error_map.
    destruct (nth_error data (p mod batch_size)) as [v|] eqn:Ev; [reflexivity|].
    apply nth_error_None in Ev. lia.
  - rewrite nth_error_map.
    destruct (nth_error (Py.slice i batch_size all_chunks) (p mod batch_size))
      eqn:Ev; [reflexivity|].
    apply nth_error_None in Ev. lia.
Qed.

(** Under the endpoint's contract, the vectors at the positions of text
    [n] are the answers for its chunks. *)
Lemma vectors_at_text_answers (texts : list string) (query_type : string) (n : nat) :
  (forall i data,
      client i (firstn batch_size (skipn i (flat_map splitter texts))) query_type
      = Some data ->
      List.length data
      = List.length (firstn batch_size (skipn i (flat_map splitter texts)))) ->
  (n < List.length texts)%nat ->
  vectors_at (Generic._embed_chunks_in_batches client
                (List.concat (map splitter texts)) query_type)
             (chunk_positions (map (@List.length string) (map splitter texts)) n)
  = text_answers client splitter texts query_type n.
Proof.
  intros Hc Hn. rewrite <- flat_map_concat_map.
  destruct (embed_chunks_nth_error (flat_map splitter texts) query_type Hc)
    as [_ Hnth].
  unfold chunk_positions, text_answers.
  rewrite chunk_offset_chunks_before, chunk_count_nth by exact Hn.
  apply vectors_at_answers. intros p Hp. apply in_seq in Hp.
  pose proof (chunks_of_text_in_range splitter texts n Hn) as Hr.
  rewrite Hnth by lia. reflexivity.
Qed.

End Answers.

Section Order.

Context {E : Type}.
Variable mean : list E -> result E.
Variable client : nat -> list string -> string -> option (list E).
Variable splitter : string -> list string.

Lemma text_answers_no_chunk (texts : list string) (query_type : string) (n : nat) :
  flat_map splitter texts = [] ->
  (n < List.length texts)%nat ->
  text_answers client splitter texts query_type n = [].
Proof.
  intros Hnil Hn. unfold text_answers.
  pose proof (chunks_of_text_in_range splitter texts n Hn) as Hr.
  rewrite Hnil in Hr. cbn [List.length] in Hr.
  replace (List.length (splitter (nth n texts EmptyString))) with 0%nat by lia.
  reflexivity.
Qed.

(** The text operation, entry by entry. *)
Lemma text_embeddings_entries (texts : list string) (query_type : string) :
  (forall i data,
      client i (firstn batch_size (skipn i (flat_map splitter texts))) query_type
      = Some data ->
      List.length data
      = List.length (firstn batch_size (skipn i (flat_map splitter texts)))) ->
  (forall n, (n < List.length texts)%nat ->
     let vs := text_answers client splitter texts query_type n in
     vs <> [] -> exists m, mean vs = Ok m) ->
  exists out,
    Generic.text_embeddings mean client splitter texts query_type = Ok out
    /\ List.length out = List.length texts
    /\ forall n, (n < List.length texts)%nat ->
         match text_answers client splitter texts query_type n with
         | [] => nth_error out n = Some None
         | vs => exists m, mean vs = Ok m /\ nth_error out n = Some (Some m)
         end.
Proof.
  intros Hc Hmean. unfold Generic.text_embeddings.
  destruct texts as [|t texts'] eqn:Et.
  { exists []. repeat split. intros n Hn. simpl in Hn. lia. }
  rewrite <- Et in *. unfold Generic._create_text_chunks.
  destruct (List.concat (map splitter texts)) as [|c cs] eqn:Ea.
  - (* no chunk at all: every entry is [None] *)
    exists (map (fun _ => None) texts). split; [reflexivity|].
    split; [apply length_map|]. intros n Hn.
    rewrite text_answers_no_chunk
      by (try exact Hn; now rewrite flat_map_concat_map).
    rewrite nth_error_map.
    destruct (nth_error texts n) eqn:En; [reflexivity|].
    apply nth_error_None in En. lia.
  - rewrite <- Ea.
    assert (Hcounts : List.length (map (@List.length string) (map splitter texts))
                      = List.length texts) by now rewrite !length_map.
    destruct (reconstruct_entries_of_positions mean texts
                (Generic._embed_chunks_in_batches client
                   (List.concat (map splitter texts)) query_type)
                (map (@List.length string) (map splitter texts)) Hcounts)
      as (out & Hout & Hlen & Hn).
    { intros n Hlt. cbv zeta.
      rewrite (vectors_at_text_answers client splitter texts query_type n Hc Hlt).
      apply Hmean. exact Hlt. }
    exists out. split; [exact Hout|]. split; [exact Hlen|].
    intros n Hlt. specialize (Hn n Hlt).
    rewrite (vectors_at_text_answers client splitter texts query_type n Hc Hlt)
      in Hn.
    exact Hn.
Qed.

(** C6: both embedding operations return one entry per input, in input
    order.  For texts, given that a successful call answers one vector per
    chunk of its batch and that [numpy.mean] returns for the answers of a
    text: the entry of text [n] is [None] exactly when the endpoint gave no
    answer for any chunk of text [n] (the text has no chunk, or every call
    with one of its chunks raised), and otherwise what [numpy.mean] returns
    for the answers to the chunks of text [n], in chunk order.  For image
    references: the entry of reference [p] is [None] when its preparation
    failed, and otherwise the next unused vector of the response to its
    batch ([None] when the call raised or the response ran out). *)
Theorem embeddings_keep_length_and_order (texts : list string)
    (query_type : string) (self : Retriever) (w : World) (refs : list string) :
  (forall i data,
      client i (firstn batch_size (skipn i (flat_map splitter texts))) query_type
      = Some data ->
      List.length data
      = List.length (firstn batch_size (skipn i (flat_map splitter texts)))) ->
  (forall n, (n < List.length texts)%nat ->
     let vs := text_answers client splitter texts query_type n in
     vs <> [] -> exists m, mean vs = Ok m) ->
  (exists out,
      Generic.text_embeddings mean client splitter texts query_type = Ok out
      /\ List.length out = List.length texts
      /\ forall n, (n < List.length texts)%nat ->
           match text_answers client splitter texts query_type n with
           | [] => nth_error out n = Some None
           | vs => exists m, mean vs = Ok m /\ nth_error out n = Some (Some m)
           end)
  /\ (let out := image_embeddings self w refs in
      List.length out = List.length refs
      /\ forall p text, nth_error refs p = Some text ->
           let i := (p / batch_size * batch_size)%nat in
           match fst (prepare_input w text) with
           | None => nth_error out p = Some None
           | Some _ =>
               nth_error out p
               = Some (nth_error
                         (image_batch_embeddings self w refs i)
                         (List.length
                            (Py.not_none
                               (firstn (p mod batch_size)
                                       (image_batch_inputs w refs i)))))
           end).
Proof.
  intros Hc Hmean. split.
  - exact (text_embeddings_entries texts query_type Hc Hmean).
  - cbv zeta. unfold image_embeddings.
    destruct (batches_nth_error refs (embed_image_batch self w refs)
                (embed_image_batch_length self w refs)) as [Hlen Hnth].
    split; [exact Hlen|].
    intros p text Hp.
    assert (Hlt : (p < List.length refs)%nat).
    { apply nth_error_Some. congruence. }
    rewrite (Hnth p Hlt), embed_image_batch_splice, splice_nth_error.
    set (i := (p / batch_size * batch_size)%nat).
    assert (Hin : nth_error (image_batch_inputs w refs i) (p mod batch_size)
                  = Some (fst (prepare_input w text))).
    { unfold image_batch_inputs. rewrite nth_error_map.
      rewrite slice_nth_error by (unfold batch_size; div_lia).
      replace (i + p mod batch_size)%nat with p
        by (subst i; unfold batch_size; div_lia).
      now rewrite Hp. }
    rewrite Hin. destruct (fst (prepare_input w text)); reflexivity.
Qed.

End Order.

(** ** Image normalisation *)

Lemma image_batch_inputs_nth (w : World) (refs : list string) (p : nat)
    (text : string) :
  nth_error refs p = Some text ->
  nth_error (image_batch_inputs w refs (p / batch_size * batch_size)%nat)
            (p mod batch_size)
  = Some (fst (prepare_input w text)).
Proof.
  intros Hp. unfold image_batch_inputs. rewrite nth_error_map.
  rewrite slice_nth_error by (unfold batch_size; div_lia).
  replace (p / batch_size * batch_size + p mod batch_size)%nat with p
    by (unfold batch_size; div_lia).
  now rewrite Hp.
Qed.

(** C8 (amended): preparing a reference never raises and makes at most one
    resize pass; a payload that is kept is within the ceiling.  An inline
    payload over the ceiling gets exactly one resize pass and is kept only
    when the pass succeeds with a result within the ceiling; an inline
    payload within the ceiling is kept as it is.  For a URL or a path no
    resize pass is made: the helper's own check drops a data URI over the
    ceiling, and a failed fetch, read or decode gives absence.  The entry
    prepared for a position depends on the reference at that position
    alone. *)
Theorem prepare_input_resize_policy (w : World) (text : string) :
  (resize_passes w text <= 1)%nat
  /\ (forall payload, fst (prepare_input w text) = Some payload ->
        (Py.len payload <= MAX_VARCHAR_LENGTH)%Z)
  /\ (is_url text = false -> is_path text = false ->
        if (Py.len text >? MAX_VARCHAR_LENGTH)%Z
        then snd (prepare_input w text) = [CallResize text]
             /\ fst (prepare_input w text)
                = match resize_base64_image w text with
                  | Some resized =>
                      if nonempty resized
                         && (Py.len resized <=? MAX_VARCHAR_LENGTH)%Z
                      then Some resized else None
                  | None => None
                  end
        else prepare_input w text = (Some text, []))
  /\ (is_url text = true ->
        prepare_input w text
        = (within_limit (fetch_encode w text), [CallUrlToBase64 text]))
  /\ (is_url text = false -> is_path text = true ->
        prepare_input w text
        = (within_limit (read_encode w text), [CallPathToBase64 text]))
  /\ (forall refs p, nth_error refs p = Some text ->
        nth_error (image_batch_inputs w refs (p / batch_size * batch_size)%nat)
                  (p mod batch_size)
        = Some (fst (prepare_input w text))).
Proof.
  assert (Hurl : is_url text = true ->
                 prepare_input w text
                 = (within_limit (fetch_encode w text), [CallUrlToBase64 text])).
  { intros Hu. unfold prepare_input, resolve_input, image_url_to_base64, within_limit.
    rewrite Hu. destruct (fetch_encode w text) as [s|]; [|reflexivity].
    unfold MAX_VARCHAR_LENGTH, max_b64_length.
    destruct (Py.len s >? 65535)%Z eqn:E; [reflexivity|]. now rewrite E. }
  assert (Hpath : is_url text = false -> is_path text = true ->
                  prepare_input w text
                  = (within_limit (read_encode w text), [CallPathToBase64 text])).
  { intros Hu Hp.
    unfold prepare_input, resolve_input, image_path_to_base64, within_limit.
    rewrite Hu, Hp. destruct (read_encode w text) as [s|]; [|reflexivity].
    unfold MAX_VARCHAR_LENGTH, max_b64_length.
    destruct (Py.len s >? 65535)%Z eqn:E; [reflexivity|]. now rewrite E. }
  assert (Hinline : is_url text = false -> is_path text = false ->
                    if (Py.len text >? MAX_VARCHAR_LENGTH)%Z
                    then snd (prepare_input w text) = [CallResize text]
                         /\ fst (prepare_input w text)
                            = match resize_base64_image w text with
                              | Some resized =>
                                  if nonempty resized
                                     && (Py.len resized <=? MAX_VARCHAR_LENGTH)%Z
                                  then Some resized else None
                              | None => None
                              end
                    else prepare_input w text = (Some text, [])).
  { intros Hu Hp. unfold prepare_input, resolve_input. rewrite Hu, Hp.
    destruct (Py.len text >? MAX_VARCHAR_LENGTH)%Z; [|reflexivity].
    destruct (resize_base64_image w text) as [r|]; [|split; reflexivity].
    destruct (nonempty r && (Py.len r <=? MAX_VARCHAR_LENGTH)%Z);
      split; reflexivity. }
  assert (Hlimit : forall o s, within_limit o = Some s ->
                               (Py.len s <= MAX_VARCHAR_LENGTH)%Z).
  { intros [s'|] s; simpl; [|discriminate].
    unfold max_b64_length, MAX_VARCHAR_LENGTH.
    destruct (Py.len s' >? 65535)%Z eqn:E; [discriminate|].
    intros H. injection H as <-. lia. }
  split; [|split; [|split; [exact Hinline|split; [exact Hurl|split; [exact Hpath|]]]]].
  - unfold resize_passes.
    destruct (is_url text) eqn:Hu; [rewrite (Hurl eq_refl); simpl; lia|].
    destruct (is_path text) eqn:Hp; [rewrite (Hpath eq_refl eq_refl); simpl; lia|].
    specialize (Hinline eq_refl eq_refl).
    destruct (Py.len text >? MAX_VARCHAR_LENGTH)%Z.
    + destruct Hinline as [-> _]. simpl. lia.
    + rewrite Hinline. simpl. lia.
  - intros payload.
    destruct (is_url text) eqn:Hu; [rewrite (Hurl eq_refl); apply Hlimit|].
    destruct (is_path text) eqn:Hp;
      [rewrite (Hpath eq_refl eq_refl); apply Hlimit|].
    specialize (Hinline eq_refl eq_refl).
    destruct (Py.len text >? MAX_VARCHAR_LENGTH)%Z eqn:E.
    + destruct Hinline as [_ ->].
      destruct (resize_base64_image w text) as [r|]; [|discriminate].
      destruct (nonempty r && (Py.len r <=? MAX_VARCHAR_LENGTH)%Z) eqn:Er;
        [|discriminate].
      intros H. injection H as <-.
      apply andb_true_iff in Er as [_ Er]. lia.
    + rewrite Hinline. simpl. intros H. injection H as <-. lia.
  - intros refs p. apply image_batch_inputs_nth.
Qed.

(** ** Bulk import *)

Lemma count_positive (col : option Collection) :
  (exists c, count_entities col = Ok c /\ (0 <? c)%nat = true) <-> holds_data col.
Proof.
  unfold holds_data, count_entities. split.
  - intros (n & Hn & Hpos). destruct col as [c|]; [|injection Hn as <-; discriminate].
    destruct (online c) eqn:Eo; [|discriminate]. injection Hn as <-.
    exists c. split; [reflexivity|]. split; [exact Eo|].
    intros Hnil. rewrite Hnil in Hpos. discriminate.
  - intros (c & -> & Ho & Hne). rewrite Ho. eexists. split; [reflexivity|].
    destruct (entities c); [contradiction|reflexivity].
Qed.

(** C9 (amended): the import is skipped exactly when both collections hold
    data; otherwise the population runs.  Once both collections hold data,
    any number of startups leaves the store as it is. *)
Theorem import_skipped_iff_both_hold_data (self : Retriever) (w : World)
    (df : option (list CsvRow)) (st : Store) :
  (embeddings_exist st = true
   <-> holds_data (text_col st) /\ holds_data (image_col st))
  /\ (milvus_from_csv self w st df
      = if embeddings_exist st then Ok st else populate self w st df)
  /\ (embeddings_exist st = true ->
      forall n, startups self w df n st = Ok st).
Proof.
  split; [|split].
  - rewrite <- !count_positive. unfold embeddings_exist.
    destruct (count_entities (text_col st)) as [tc|];
      destruct (count_entities (image_col st)) as [ic|]; simpl.
    + rewrite andb_true_iff. split.
      * intros [Ht Hi]. split; eexists; eauto.
      * intros [(a & Ha & Hpa) (b & Hb & Hpb)].
        injection Ha as <-. injection Hb as <-. tauto.
    + split; [discriminate|]. intros [_ (b & Hb & _)]. discriminate.
    + split; [discriminate|]. intros [(a & Ha & _) _]. discriminate.
    + split; [discriminate|]. intros [(a & Ha & _) _]. discriminate.
  - reflexivity.
  - intros He n. induction n as [|n IH]; [reflexivity|].
    simpl. unfold milvus_from_csv. rewrite He. exact IH.
Qed.

(** ** The model at sample inputs *)

Example split_pipe : Py.split "|" "a | b | c,d" = ["a "; " b "; " c,d"].
Proof. reflexivity. Qed.

Example split_trailing : Py.split "," "bags," = ["bags"; ""].
Proof. reflexivity. Qed.

Example split_price :
  Py.split "PRICE:" "bags,totes PRICE: 3" = ["bags,totes "; " 3"].
Proof. reflexivity. Qed.

Example replace_octet_stream :
  Py.replace "data:application/octet-stream" "data:image/jpeg"
             "data:application/octet-stream;base64,AAA"
  = "data:image/jpeg;base64,AAA".
Proof. reflexivity. Qed.

Example strip_lower : Py.lower (Py.strip "  Bags  ") = "bags".
Proof. reflexivity. Qed.

Example str_int_values : Py.str_int 42 = "42" /\ Py.str_int (-7) = "-7".
Proof. split; reflexivity. Qed.

Example slice_to_values :
  Py.slice_to 2 [1; 2; 3]%nat = [1; 2]%nat
  /\ Py.slice_to (-1) [1; 2; 3]%nat = [1; 2]%nat
  /\ Py.slice_to (-5) [1; 2; 3]%nat = [].
Proof. repeat split; reflexivity. Qed.

Example sorted_desc_stable :
  Py.sorted_desc snd [("a", 1%Q); ("b", 2%Q); ("c", 1%Q); ("d", 2%Q)]
  = [("b", 2%Q); ("d", 2%Q); ("a", 1%Q); ("c", 1%Q)].
Proof. reflexivity. Qed.

Example range_step_values : Py.range_step 70 32 = [0; 32; 64]%nat.
Proof. reflexivity. Qed.

Example parse_categories_value :
  parse_categories
    ("Tote | canvas | Bags,Totes" ++ newline ++ "PRICE: 3.0")%string
  = ["bags"; "totes"].
Proof. reflexivity. Qed.

Example match_found_values :
  match_found ["Bag"] ["bags"; "totes"] = true
  /\ match_found [" TOTES and more "] ["bags"; "totes"] = true
  /\ match_found ["shoes"] ["bags"; "totes"] = false.
Proof. repeat split; reflexivity. Qed.

Example interleave_uneven :
  interleave [[1; 2; 3]; [4]; [5; 6]]%nat = [1; 4; 5; 2; 6; 3]%nat.
Proof. reflexivity. Qed.

(** An inline payload over the ceiling whose resize pass fails: one pass,
    then absence.  Its position is [None]; so is the other one here, since
    the sample image endpoint is down. *)
Example inline_over_ceiling_resize_fails :
  resize_passes sample_world oversize_payload = 1%nat
  /\ fst (prepare_input sample_world oversize_payload) = None
  /\ image_embeddings sample_retriever sample_world
       [oversize_payload; "data:image/jpeg;base64,AAAA"] = [None; None].
Proof. repeat split; vm_compute; reflexivity. Qed.

(** ** The claims at the sample data *)

(** C2 at the sample retriever, for two queries and [k = 4]. *)
Lemma retrieve_sample_bounded_sorted_unique :
  (0 <= 4)%Z
  /\ let out := retrieve sample_retriever ["red shoes"; "blue shoes"]
                         ["Shoes"] "" 4 false in
     (Z.of_nat (List.length (sims out)) <= 4)%Z
     /\ (List.length (texts out) = List.length (sims out)
         /\ List.length (ids out) = List.length (sims out)
         /\ List.length (names out) = List.length (sims out)
         /\ List.length (images out) = List.length (sims out))
     /\ Forall (fun sim => (sim_threshold sample_retriever < sim)%Q) (sims out)
     /\ descending (sims out)
     /\ List.NoDup (ids out).
Proof.
  split; [lia|].
  apply (retrieve_bounded_sorted_unique sample_retriever
           ["red shoes"; "blue shoes"] ["Shoes"] "" 4 false).
  lia.
Defined.

(** The scenario of two queries with scores 0.9, 0.8 and 0.85, 0.7, the
    last hit repeating the id of the first: threshold 0.75 and the category
    term leave three hits, sorted by score. *)
Example retrieve_sample_value :
  let out := retrieve sample_retriever ["red shoes"; "blue shoes"]
                      ["Shoes"] "" 4 false in
  sims out = [0.9%Q; 0.85%Q; 0.8%Q] /\ ids out = ["1"; "3"; "2"].
Proof. vm_compute. split; reflexivity. Qed.


Example reconstruct_sample_entries :
  exists m1 m2,
    Generic._reconstruct_embeddings mean_axis0 ["t1"; "t2"; "t3"]
      [Some [1%Q; 2%Q]; None; Some [3%Q; 4%Q]; None] [3; 0; 1]%nat
    = Ok [Some [m1; m2]; None; None]
    /\ (m1 == 2)%Q /\ (m2 == 3)%Q.
Proof. eexists. eexists. split; [vm_compute; reflexivity|]. split; reflexivity. Qed.

(** The same call on doubles: the entry is the rounded mean, which is not
    the double nearest to the exact one. *)
Example reconstruct_sample_doubles :
  Generic._reconstruct_embeddings Doubles.mean ["t1"; "t2"; "t3"]
    Doubles.sample_chunk_embeddings [3; 0; 1]%nat
  = Ok [Some Doubles.sample_mean; None; None]
  /\ Doubles.sample_mean <> [PrimFloat.div (PrimFloat.of_uint63 (Uint63.of_Z 15))
                                           (PrimFloat.of_uint63 (Uint63.of_Z 100));
                             PrimFloat.div (PrimFloat.of_uint63 (Uint63.of_Z 3))
                                           (PrimFloat.of_uint63 (Uint63.of_Z 10))].
Proof. split; [vm_compute; reflexivity|]. vm_compute. intros H. discriminate H. Qed.

Example reconstruct_sample_value :
  exists m1 m2,
    _reconstruct_embeddings ["t1"; "t2"; "t3"]
      [Some [1%Q; 2%Q]; None; Some [3%Q; 4%Q]; None] [3; 0; 1]%nat
    = Ok [Some [m1; m2]; None; None]
    /\ (m1 == 2)%Q /\ (m2 == 3)%Q.
Proof. eexists. eexists. split; [vm_compute; reflexivity|]. split; reflexivity. Qed.

Lemma sample_text_client_count (all_chunks : list string) (query_type : string) :
  forall i data,
    text_client sample_retriever i (Py.slice i batch_size all_chunks) query_type
    = Some data ->
    List.length data = List.length (Py.slice i batch_size all_chunks).
Proof.
  intros i data. simpl. destruct (Nat.eqb i 32); [discriminate|].
  intros H. injection H as <-. apply length_map.
Defined.

Lemma sample_text_client_answers_every_chunk (texts : list string)
    (query_type : string) :
  forall i data,
    sample_text_client i
      (firstn batch_size (skipn i (flat_map sample_splitter texts))) query_type
    = Some data ->
    List.length data
    = List.length (firstn batch_size (skipn i (flat_map sample_splitter texts))).
Proof.
  intros i data. unfold sample_text_client.
  destruct (Nat.eqb i 32); [discriminate|].
  intros H. injection H as <-. apply length_map.
Defined.

Lemma sample_mean_of_answers :
  forall n, (n < List.length ["a"; EmptyString; "bb"; "ccc"])%nat ->
    let vs := text_answers sample_text_client sample_splitter
                ["a"; EmptyString; "bb"; "ccc"] "passage" n in
    vs <> [] -> exists m, mean_axis0 vs = Ok m.
Proof.
  intros [|[|[|[|n]]]] Hn; cbv zeta; intros Hvs.
  - eexists. vm_compute. reflexivity.
  - exfalso. apply Hvs. reflexivity.
  - eexists. vm_compute. reflexivity.
  - exfalso. apply Hvs. vm_compute. reflexivity.
  - cbn [List.length] in Hn. lia.
Defined.

(** C6 at four texts of 20, 0, 20 and 20 chunks, where the call for the
    second batch (chunks 32 to 59) raises, and at three image references
    of which the second cannot be read. *)
Lemma embeddings_sample_keep_length_and_order :
  let texts := ["a"; EmptyString; "bb"; "ccc"] in
  let refs := ["data:image/jpeg;base64,AAAA"; "/images/item.jpg";
               "data:image/png;base64,BBBBBB"] in
  (exists out,
      Generic.text_embeddings mean_axis0 sample_text_client sample_splitter
                              texts "passage" = Ok out
      /\ List.length out = List.length texts
      /\ forall n, (n < List.length texts)%nat ->
           match text_answers sample_text_client sample_splitter texts
                              "passage" n with
           | [] => nth_error out n = Some None
           | vs => exists m, mean_axis0 vs = Ok m
                             /\ nth_error out n = Some (Some m)
           end)
  /\ (let out := image_embeddings answering_retriever sample_world refs in
      List.length out = List.length refs
      /\ forall p text, nth_error refs p = Some text ->
           let i := (p / batch_size * batch_size)%nat in
           match fst (prepare_input sample_world text) with
           | None => nth_error out p = Some None
           | Some _ =>
               nth_error out p
               = Some (nth_error
                         (image_batch_embeddings answering_retriever
                                                 sample_world refs i)
                         (List.length
                            (Py.not_none
                               (firstn (p mod batch_size)
                                       (image_batch_inputs sample_world refs i)))))
           end).
Proof.
  exact (embeddings_keep_length_and_order mean_axis0 sample_text_client
           sample_splitter ["a"; EmptyString; "bb"; "ccc"] "passage"
           answering_retriever sample_world
           ["data:image/jpeg;base64,AAAA"; "/images/item.jpg";
            "data:image/png;base64,BBBBBB"]
           (sample_text_client_answers_every_chunk
              ["a"; EmptyString; "bb"; "ccc"] "passage")
           sample_mean_of_answers).
Defined.

Example embeddings_sample_entries :
  (exists m1 m2 m3 m4,
      Generic.text_embeddings mean_axis0 sample_text_client sample_splitter
        ["a"; EmptyString; "bb"; "ccc"] "passage"
      = Ok [Some [m1; m2]; None; Some [m3; m4]; None]
      /\ (m1 == 1)%Q /\ (m2 == 1)%Q /\ (m3 == 2)%Q /\ (m4 == 1)%Q)
  /\ List.length (text_answers sample_text_client sample_splitter
                    ["a"; EmptyString; "bb"; "ccc"] "passage" 2) = 12%nat
  /\ image_embeddings answering_retriever sample_world
       ["data:image/jpeg;base64,AAAA"; "/images/item.jpg";
        "data:image/png;base64,BBBBBB"]
     = [Some [27%Q]; None; Some [28%Q]].
Proof.
  split; [|split].
  - do 4 eexists. split; [vm_compute; reflexivity|].
    repeat split; reflexivity.
  - vm_compute. reflexivity.
  - vm_compute. reflexivity.
Qed.

(** C7 at 40 chunks, where the call for the second batch raises. *)
Lemma embed_chunks_sample_failure_is_per_batch :
  let all_chunks := repeat "chunk" 40 in
  let out := _embed_chunks_in_batches sample_retriever all_chunks "query" in
  List.length out = List.length all_chunks
  /\ forall p, (p < List.length all_chunks)%nat ->
       let i := (p / batch_size * batch_size)%nat in
       match text_client sample_retriever i (Py.slice i batch_size all_chunks)
                         "query" with
       | None => nth_error out p = Some None
       | Some data =>
           exists v, nth_error data (p mod batch_size) = Some v
                     /\ nth_error out p = Some (Some v)
       end.
Proof.
  exact (embed_chunks_failure_is_per_batch sample_retriever (repeat "chunk" 40)
           "query" (sample_text_client_count (repeat "chunk" 40) "query")).
Defined.

Example embed_chunks_sample_value :
  _embed_chunks_in_batches sample_retriever (repeat "chunk" 40) "query"
  = repeat (Some [1%Q; 0%Q]) 32 ++ repeat None 8.
Proof. vm_compute. reflexivity. Qed.

(** C8, as stated, fails for a URL: the data URI built for it is over the
    ceiling, yet no resize pass is made; the reference is dropped at once. *)
Lemma url_over_ceiling_gets_no_resize_pass :
  encoded_payload sample_world "http://shop/item.jpg" = Some oversize_payload
  /\ (MAX_VARCHAR_LENGTH < Py.len oversize_payload)%Z
  /\ resize_passes sample_world "http://shop/item.jpg" = 0%nat
  /\ prepare_input sample_world "http://shop/item.jpg"
     = (None, [CallUrlToBase64 "http://shop/item.jpg"]).
Proof.
  split; [reflexivity|].
  split; [vm_compute; reflexivity|].
  split; vm_compute; reflexivity.
Qed.

(** C9, as stated, fails: after a first startup whose image embeddings all
    failed, the text collection holds a record and the image collection
    none; the collections are not both empty, yet the next startup
    populates again and the text collection gets the same record twice. *)
Lemma second_startup_duplicates_text_records :
  match startups sample_retriever sample_world (Some sample_rows) 1 empty_store with
  | Ok st1 =>
      count_entities (text_col st1) = Ok 1%nat
      /\ count_entities (image_col st1) = Ok 0%nat
      /\ embeddings_exist st1 = false
      /\ match milvus_from_csv sample_retriever sample_world st1
                 (Some sample_rows) with
         | Ok st2 => count_entities (text_col st2) = Ok 2%nat
         | Raise => False
         end
  | Raise => False
  end.
Proof. vm_compute. repeat split; reflexivity. Qed.

(** * Further properties of the retrieval pipeline *)

(** ** Fusion neither loses nor invents a hit *)

Lemma interleave_perm {A : Type} (lists : list (list A)) :
  Permutation (interleave lists) (List.concat lists).
Proof.
  funelim (interleave lists).
  - reflexivity.
  - exact H.
  - rewrite H, concat_app. cbn [List.concat]. rewrite app_nil_r.
    change ((item :: current_it) ++ List.concat rest)
      with (item :: (current_it ++ List.concat rest)).
    constructor. apply Permutation_app_comm.
Qed.

Lemma concat_sorted_perm (rs : list (list Hit)) :
  Permutation (List.concat (map (Py.sorted_desc score) rs)) (List.concat rs).
Proof.
  induction rs as [|r rs IH]; [reflexivity|].
  cbn [map List.concat]. apply Permutation_app; [apply sorted_desc_perm|exact IH].
Qed.

Lemma fuse_perm (image_bool : bool) (unformatted_results : list (list Hit)) :
  Permutation (fuse image_bool unformatted_results)
              (List.concat unformatted_results).
Proof.
  unfold fuse. destruct image_bool.
  - rewrite sorted_desc_perm. apply concat_sorted_perm.
  - rewrite interleave_perm. apply concat_sorted_perm.
Qed.

(** X1: in both modes the fused sequence is a rearrangement of the hits the
    searches returned: every hit reaches deduplication exactly as often as
    the searches returned it. *)
Theorem fuse_permutation (image_bool : bool) (unformatted_results : list (list Hit)) :
  Permutation (fuse image_bool unformatted_results)
              (List.concat unformatted_results)
  /\ (forall res, In res (fuse image_bool unformatted_results)
                  <-> exists query_results,
                        In query_results unformatted_results
                        /\ In res query_results).
Proof.
  split; [apply fuse_perm|].
  intros res. rewrite <- in_concat. split; apply Permutation_in;
    [|symmetry]; apply fuse_perm.
Qed.

(** ** Deduplication *)

Lemma deduplicate_from_idempotent (seen_ids : gset string) (l : list Hit) :
  deduplicate_from seen_ids (deduplicate_from seen_ids l)
  = deduplicate_from seen_ids l.
Proof.
  revert seen_ids. induction l as [|r rest IH]; intros seen_ids; [reflexivity|].
  cbn [deduplicate_from]. destruct (hit_id r) as [id_|] eqn:Hid; [|apply IH].
  destruct (decide (id_ ∈ seen_ids)) as [Hin|Hnin]; [apply IH|].
  cbn [deduplicate_from]. rewrite Hid.
  destruct (decide (id_ ∈ seen_ids)); [contradiction|].
  f_equal. apply IH.
Qed.

(** X2: deduplicating a deduplicated sequence changes nothing. *)
Theorem deduplicate_idempotent (interleaved_results : list Hit) :
  deduplicate (deduplicate interleaved_results) = deduplicate interleaved_results.
Proof. apply deduplicate_from_idempotent. Qed.

Lemma deduplicate_from_sublist (seen_ids : gset string) (l : list Hit) :
  sublist (deduplicate_from seen_ids l) l.
Proof.
  revert seen_ids. induction l as [|r rest IH]; intros seen_ids;
    cbn [deduplicate_from]; [constructor|].
  destruct (hit_id r) as [id_|]; [|constructor; apply IH].
  destruct (decide (id_ ∈ seen_ids)); constructor; apply IH.
Qed.

Lemma deduplicate_from_complete (seen_ids : gset string) (l : list Hit)
    (x : string) :
  In x (ids_of l) -> x ∉ seen_ids -> In x (ids_of (deduplicate_from seen_ids l)).
Proof.
  revert seen_ids. induction l as [|r rest IH]; intros seen_ids Hx Hnot;
    [contradiction|].
  change (r :: rest) with ([r] ++ rest) in Hx.
  rewrite ids_of_app, in_app_iff in Hx.
  cbn [deduplicate_from].
  destruct (hit_id r) as [id_|] eqn:Hid.
  - destruct (decide (id_ ∈ seen_ids)) as [Hin|Hnin].
    + destruct Hx as [Hx|Hx]; [|now apply IH].
      unfold ids_of, Py.not_none in Hx. simpl in Hx. rewrite Hid in Hx.
      destruct Hx as [<-|[]]. contradiction.
    + change (r :: deduplicate_from ({[id_]} ∪ seen_ids) rest)
        with ([r] ++ deduplicate_from ({[id_]} ∪ seen_ids) rest).
      rewrite ids_of_app, in_app_iff.
      destruct (String.eqb_spec x id_) as [->|Hne].
      * left. unfold ids_of, Py.not_none. simpl. rewrite Hid. now left.
      * right. destruct Hx as [Hx|Hx].
        { unfold ids_of, Py.not_none in Hx. simpl in Hx. rewrite Hid in Hx.
          destruct Hx as [<-|[]]. contradiction. }
        apply IH; [exact Hx|].
        rewrite elem_of_union, elem_of_singleton. tauto.
  - destruct Hx as [Hx|Hx]; [|now apply IH].
    unfold ids_of, Py.not_none in Hx. simpl in Hx. rewrite Hid in Hx.
    contradiction.
Qed.

Lemma ids_of_str_pk (l : list Hit) :
  Forall (fun res => hit_id res <> None) l ->
  ids_of l = map (fun res => str_pk (fst res)) l.
Proof.
  induction l as [|r l IH]; intros H; [reflexivity|].
  apply Forall_cons_iff in H as [Hr H].
  change (r :: l) with ([r] ++ l). rewrite ids_of_app, map_app, IH by exact H.
  f_equal. unfold ids_of, Py.not_none, hit_id, str_pk in *. simpl.
  destruct (pk (fst r)); [reflexivity|contradiction].
Qed.

(** X3: deduplication keeps the hits in their order (its result is a
    subsequence of its input) and keeps exactly one hit for every id that
    occurs in the input: no id is lost and none occurs twice. *)
Theorem deduplicate_one_hit_per_id (interleaved_results : list Hit) :
  sublist (deduplicate interleaved_results) interleaved_results
  /\ (forall id_, In id_ (ids_of (deduplicate interleaved_results))
                  <-> In id_ (ids_of interleaved_results))
  /\ List.NoDup (ids_of (deduplicate interleaved_results)).
Proof.
  split; [apply deduplicate_from_sublist|]. split.
  - intros x. split.
    + rewrite !in_ids_of. intros (res & Hres & Hid).
      apply deduplicate_from_in in Hres as [Hres _]. eauto.
    + intros Hx. apply deduplicate_from_complete; [exact Hx|].
      apply not_elem_of_empty.
  - rewrite ids_of_str_pk; [apply deduplicate_from_nodup|].
    apply List.Forall_forall. intros res Hres.
    apply deduplicate_from_in in Hres as (_ & x & Hx & _). congruence.
Qed.

Lemma str_int_inj (a b : Z) : Py.str_int a = Py.str_int b -> a = b.
Proof.
  unfold Py.str_int. intros H. apply Stdlib.Numbers.DecimalZ.to_int_inj.
  assert (Hn : forall z, Z.to_int z <> Decimal.Pos Decimal.Nil
                         /\ Z.to_int z <> Decimal.Neg Decimal.Nil).
  { intros z. destruct z as [|p|p]; simpl; split; try discriminate;
      intros Hc; injection Hc as Hc;
      pose proof (Stdlib.Numbers.DecimalPos.Unsigned.to_uint_nonnil p); contradiction. }
  assert (Hs : Some (Z.to_int a) = Some (Z.to_int b)).
  { rewrite <- (NilZero.isi (Z.to_int a)) by apply Hn.
    rewrite <- (NilZero.isi (Z.to_int b)) by apply Hn.
    now rewrite H. }
  now injection Hs.
Qed.

(** X4: the text form of the id separates the records: two hits have the
    same id text exactly when they have the same [pk] (or both have none),
    so the hits that pass deduplication have pairwise different [pk]. *)
Theorem same_id_iff_same_pk (interleaved_results : list Hit) :
  (forall res1 res2 : Hit,
      hit_id res1 = hit_id res2 <-> pk (fst res1) = pk (fst res2))
  /\ List.NoDup (map (fun res => pk (fst res)) (deduplicate interleaved_results)).
Proof.
  assert (Hiff : forall res1 res2 : Hit,
             hit_id res1 = hit_id res2 <-> pk (fst res1) = pk (fst res2)).
  { intros res1 res2. unfold hit_id.
    destruct (pk (fst res1)) as [a|], (pk (fst res2)) as [b|];
      split; intros H; try discriminate; try reflexivity.
    - injection H as H. apply str_int_inj in H. now subst.
    - injection H as ->. reflexivity. }
  split; [exact Hiff|].
  pose proof (deduplicate_from_nodup ∅ interleaved_results) as Hnd.
  fold (deduplicate interleaved_results) in Hnd.
  assert (Hall : Forall (fun res => hit_id res <> None)
                        (deduplicate interleaved_results)).
  { apply List.Forall_forall. intros res Hres.
    apply deduplicate_from_in in Hres as (_ & x & Hx & _). congruence. }
  induction (deduplicate interleaved_results) as [|r l IH]; [constructor|].
  cbn [map] in *. apply NoDup_cons_iff in Hnd as [Hr Hnd].
  apply Forall_cons_iff in Hall as [Hrid Hall].
  constructor; [|now apply IH].
  intros Hin. apply Hr. apply in_map_iff in Hin as (res & Hpk & Hres).
  apply in_map_iff. exists res. split; [|exact Hres].
  unfold str_pk. now rewrite Hpk.
Qed.

(** ** The five returned lists describe the same hits *)

Lemma filter_incl_hits (p : Hit -> bool) (l : list Hit) (res : Hit) :
  In res (List.filter p l) -> In res l.
Proof. intros H. now apply filter_In in H. Qed.

(** X5: the five lists a call returns are read off one list of hits,
    position by position (text, id, score, name and image at a position
    belong to one hit), and each of these hits was returned by one of the
    searches of the call. *)
Theorem retrieve_lists_are_aligned (self : Retriever)
    (query categories : list string) (img : string) (k : Z) (image_bool : bool) :
  exists hs : list Hit,
    retrieve self query categories img k image_bool
    = mkResults (map hit_text hs)
                (map (fun res => str_pk (fst res)) hs)
                (map score hs)
                (map (fun res => name (fst res)) hs)
                (map (fun res => image (fst res)) hs)
    /\ Forall (fun res =>
                 In res (List.concat
                           (map (run_search self)
                                (dispatch query img k image_bool)))) hs.
Proof.
  exists (final_hits self query categories img k image_bool).
  split; [apply retrieve_hits|].
  apply List.Forall_forall. intros res Hres. unfold final_hits in Hres.
  destruct (filtered_hits_filter image_bool categories
              (ranked_hits self k
                 (deduplicate (fused_hits self query img k image_bool))))
    as (p & E).
  rewrite E in Hres. apply filter_In in Hres as [Hres _].
  apply ranked_hits_in in Hres as [Hres _].
  apply deduplicate_from_in in Hres as [Hres _].
  unfold fused_hits in Hres.
  apply (Permutation_in _ (fuse_perm image_bool _)) in Hres.
  exact Hres.
Qed.

(** ** Raising the threshold *)

Lemma insert_desc_front {A : Type} (key : A -> Q) (x : A) (l : list A) :
  Forall (fun z => Py.gt (key z) (key x) = false) l ->
  Py.insert_desc key x l = x :: l.
Proof.
  intros H. destruct l as [|y l]; [reflexivity|].
  apply Forall_cons_iff in H as [Hy _]. simpl. now rewrite Hy.
Qed.

Lemma filter_insert_desc {A : Type} (key : A -> Q) (p : A -> bool) (x : A)
    (l : list A) :
  descending (map key l) ->
  List.filter p (Py.insert_desc key x l)
  = if p x then Py.insert_desc key x (List.filter p l) else List.filter p l.
Proof.
  unfold descending. induction l as [|y l IH]; intros Hs.
  - simpl. now destruct (p x).
  - cbn [map] in Hs. apply StronglySorted_inv in Hs as [Hs Hy].
    cbn [Py.insert_desc]. destruct (Py.gt (key y) (key x)) eqn:E.
    + cbn [List.filter]. rewrite (IH Hs).
      destruct (p x), (p y); try reflexivity.
      cbn [Py.insert_desc]. now rewrite E.
    + change (List.filter p (x :: y :: l))
        with (if p x then x :: List.filter p (y :: l) else List.filter p (y :: l)).
      destruct (p x); [|reflexivity].
      symmetry. apply insert_desc_front.
      assert (Hall : Forall (fun z => Py.gt (key z) (key x) = false) (y :: l)).
      { constructor; [exact E|].
        apply List.Forall_forall. intros z Hz.
        rewrite List.Forall_forall in Hy.
        assert (Hzy : (key z <= key y)%Q) by (apply Hy; now apply in_map).
        apply gt_false in E.
        destruct (Py.gt (key z) (key x)) eqn:Ez; [|reflexivity].
        apply gt_spec in Ez. exfalso.
        apply (Qlt_not_le _ _ Ez). now apply Qle_trans with (key y). }
      apply List.Forall_forall. intros z Hz.
      rewrite List.Forall_forall in Hall. apply Hall.
      now apply filter_In in Hz.
Qed.

Lemma filter_sorted_desc {A : Type} (key : A -> Q) (p : A -> bool) (l : list A) :
  List.filter p (Py.sorted_desc key l) = Py.sorted_desc key (List.filter p l).
Proof.
  induction l as [|x l IH]; [reflexivity|].
  cbn [Py.sorted_desc fold_right List.filter].
  change (fold_right (Py.insert_desc key) [] l) with (Py.sorted_desc key l).
  rewrite filter_insert_desc by apply sorted_desc_descending.
  rewrite IH. now destruct (p x).
Qed.

Lemma filter_comm {A : Type} (p q : A -> bool) (l : list A) :
  List.filter p (List.filter q l) = List.filter q (List.filter p l).
Proof.
  induction l as [|x l IH]; [reflexivity|]. simpl.
  destruct (p x) eqn:Ep, (q x) eqn:Eq; simpl; rewrite ?Ep, ?Eq, IH; reflexivity.
Qed.

Lemma filter_above_above (t1 t2 : Q) (l : list Hit) :
  (t1 <= t2)%Q ->
  List.filter (above t2) (List.filter (above t1) l) = List.filter (above t2) l.
Proof.
  intros Ht. induction l as [|x l IH]; [reflexivity|]. simpl.
  destruct (above t1 x) eqn:E1; simpl; [now rewrite IH|].
  destruct (above t2 x) eqn:E2; [|exact IH].
  unfold above in *. apply gt_spec in E2. apply gt_false in E1.
  exfalso. apply (Qlt_not_le _ _ E2). now apply Qle_trans with t1.
Qed.

Lemma slice_to_all {A : Type} (k : Z) (l : list A) :
  (0 <= k)%Z -> (Z.of_nat (List.length l) <= k)%Z -> Py.slice_to k l = l.
Proof.
  intros Hk Hl. unfold Py.slice_to.
  destruct (k <? 0)%Z eqn:E; [apply Z.ltb_lt in E; lia|].
  apply firstn_all2. lia.
Qed.

Lemma ranked_hits_nonneg (self : Retriever) (k : Z) (all_results : list Hit) :
  (0 <= k)%Z ->
  ranked_hits self k all_results
  = Py.sorted_desc score
      (List.filter (above (sim_threshold self)) (Py.slice_to k all_results)).
Proof.
  intros Hk. unfold ranked_hits. apply slice_to_all; [exact Hk|].
  rewrite (Permutation_length (sorted_desc_perm score _)).
  pose proof (filter_length_le (above (sim_threshold self))
                (Py.slice_to k all_results)).
  pose proof (slice_to_length k all_results Hk). lia.
Qed.

Lemma filtered_hits_uniform (image_bool : bool) (categories : list string) :
  exists p, forall hs, filtered_hits image_bool categories hs = List.filter p hs.
Proof.
  unfold filtered_hits. destruct image_bool.
  - exists (fun _ => true). intros hs.
    induction hs as [|h hs IH]; simpl; congruence.
  - destruct categories as [|c cs]; [|eexists; reflexivity].
    exists (fun _ => false). intros hs.
    induction hs as [|h hs IH]; simpl; congruence.
Qed.

Lemma final_hits_threshold (self : Retriever) (query categories : list string)
    (img : string) (k : Z) (image_bool : bool) (t1 t2 : Q) :
  (0 <= k)%Z -> (t1 <= t2)%Q ->
  final_hits (with_threshold self t2) query categories img k image_bool
  = List.filter (above t2)
      (final_hits (with_threshold self t1) query categories img k image_bool).
Proof.
  intros Hk Ht. unfold final_hits.
  destruct (filtered_hits_uniform image_bool categories) as (p & Hp).
  rewrite !Hp, !ranked_hits_nonneg by exact Hk.
  change (fused_hits (with_threshold self t2) query img k image_bool)
    with (fused_hits (with_threshold self t1) query img k image_bool).
  cbn [sim_threshold with_threshold].
  rewrite (filter_comm (above t2) p), (filter_sorted_desc score (above t2)).
  rewrite (filter_above_above t1 t2) by exact Ht.
  reflexivity.
Qed.

Lemma sublist_map_filter {A B : Type} (f : A -> B) (p : A -> bool) (l : list A) :
  sublist (map f (List.filter p l)) (map f l).
Proof.
  induction l as [|x l IH]; simpl; [constructor|].
  destruct (p x); simpl; now constructor.
Qed.

(** X6: for [k >= 0], raising the similarity threshold only removes
    results: the scores returned at the higher threshold are the scores
    returned at the lower one that exceed the higher threshold, in the same
    order, and the returned ids are a subsequence of those returned before. *)
Theorem raising_threshold_only_removes (self : Retriever)
    (query categories : list string) (img : string) (k : Z) (image_bool : bool)
    (t1 t2 : Q) :
  (0 <= k)%Z -> (t1 <= t2)%Q ->
  let out1 := retrieve (with_threshold self t1) query categories img k image_bool in
  let out2 := retrieve (with_threshold self t2) query categories img k image_bool in
  sims out2 = List.filter (fun sim => Py.gt sim t2) (sims out1)
  /\ (List.length (sims out2) <= List.length (sims out1))%nat
  /\ sublist (ids out2) (ids out1)
  /\ sublist (texts out2) (texts out1).
Proof.
  intros Hk Ht out1 out2. subst out1 out2. rewrite !retrieve_hits.
  rewrite (final_hits_threshold self query categories img k image_bool t1 t2 Hk Ht).
  cbn [results_of_hits sims ids texts].
  assert (Hs : map score
                 (List.filter (above t2)
                    (final_hits (with_threshold self t1) query categories img k
                                image_bool))
               = List.filter (fun sim => Py.gt sim t2)
                   (map score
                      (final_hits (with_threshold self t1) query categories img k
                                  image_bool))).
  { rewrite filter_map. reflexivity. }
  split; [exact Hs|]. split; [rewrite Hs; apply filter_length_le|].
  split; apply sublist_map_filter.
Qed.

(** ** Category filtering *)

(** X7: in text-only mode with at least one category term, the returned
    texts are exactly the ranked texts whose parsed categories match a
    term, in ranking order; so every returned text matches. *)
Theorem category_filter_keeps_matching_texts (self : Retriever)
    (query : list string) (c : string) (cs : list string) (img : string) (k : Z) :
  let ranked := rank self k (deduplicate (fused_hits self query img k false)) in
  let out := retrieve self query (c :: cs) img k false in
  texts out = List.filter (text_matches (c :: cs)) (texts ranked)
  /\ Forall (fun text => text_matches (c :: cs) text = true) (texts out).
Proof.
  intros ranked out.
  assert (E : texts out = List.filter (text_matches (c :: cs)) (texts ranked)).
  { subst ranked out. rewrite retrieve_hits, rank_hits.
    unfold final_hits, filtered_hits. cbn [results_of_hits texts].
    rewrite filter_map. reflexivity. }
  split; [exact E|]. rewrite E. apply List.Forall_forall.
  intros t Ht. now apply filter_In in Ht.
Qed.

Lemma contains_empty (s : string) : Py.contains EmptyString s = true.
Proof. destruct s; reflexivity. Qed.

(** X8: a product without parsed categories matches no term list, and a
    term that is blank after lower-casing and stripping matches every
    product that has at least one parsed category (the empty text is a
    substring of any text). *)
Theorem blank_category_term_matches_everything :
  (forall categories, match_found categories [] = false)
  /\ (forall categories cats user_cat,
         In user_cat categories ->
         Py.strip (Py.lower user_cat) = EmptyString ->
         cats <> [] ->
         match_found categories cats = true).
Proof.
  split.
  - intros categories. unfold match_found.
    induction categories as [|u us IH]; [reflexivity|]. simpl. exact IH.
  - intros categories cats u Hin Hblank Hne. unfold match_found.
    apply existsb_exists. exists u. split; [exact Hin|].
    cbv zeta. rewrite Hblank.
    destruct cats as [|prod_cat cats]; [contradiction|].
    simpl. now rewrite contains_empty.
Qed.

(** ** Image references and the resize helper *)

(** X10: no text is both a URL and a path for the two prefix tests, so the
    order of the two tests in the source decides nothing. *)
Theorem url_and_path_are_exclusive (w : World) (text : string) :
  is_url text && is_path text = false
  /\ (is_path text = true ->
      resolve_input w text
      = (image_path_to_base64 w text, [CallPathToBase64 text])).
Proof.
  assert (H : is_url text && is_path text = false).
  { unfold is_url, is_path. destruct text as [|ch s]; [reflexivity|].
    destruct (Ascii.eqb_spec "/" ch) as [<-|Hne]; [reflexivity|].
    apply andb_false_intro2. cbn [Py.startswith].
    destruct (Ascii.eqb_spec "/" ch); [contradiction|reflexivity]. }
  split; [exact H|]. intros Hp. unfold resolve_input.
  rewrite Hp in *. rewrite andb_true_r in H. now rewrite H.
Qed.

Lemma string_app_assoc (a b c : string) : ((a ++ b) ++ c = a ++ (b ++ c))%string.
Proof.
  induction a as [|ch a IH]; [reflexivity|].
  change (String ch ((a ++ b) ++ c) = String ch (a ++ (b ++ c)))%string.
  now rewrite IH.
Qed.

Lemma rev_app_app (a b : string) :
  String.rev_app a b = (String.rev_app a EmptyString ++ b)%string.
Proof.
  revert b. induction a as [|ch a IH]; intros b; simpl; [reflexivity|].
  rewrite (IH (String ch b)), (IH (String ch EmptyString)).
  now rewrite string_app_assoc.
Qed.

Lemma rev_cons (ch : ascii) (cur : string) :
  String.rev (String ch cur) = (String.rev cur ++ String ch EmptyString)%string.
Proof. unfold String.rev. simpl. apply rev_app_app. Qed.

Lemma startswith_app (p s t : string) :
  Py.startswith p s = true -> Py.startswith p (s ++ t) = true.
Proof.
  revert s. induction p as [|a p IH]; intros s H; [reflexivity|].
  destruct s as [|b s]; [discriminate|]. simpl in *.
  destruct (Ascii.eqb a b); [now apply IH|discriminate].
Qed.

Lemma split_once_go_found (cur h d : string) :
  Py.contains "," h = false ->
  Py.split_once_go "," cur (h ++ "," ++ d)
  = Some ((String.rev cur ++ h)%string, d).
Proof.
  revert cur. induction h as [|ch h IH]; intros cur Hc.
  - simpl. unfold String.rev. rewrite rev_app_app.
    now rewrite string_app_assoc.
  - cbn [Py.contains Py.startswith] in Hc.
    apply orb_false_iff in Hc as [Hch Hh].
    change (String ch h ++ "," ++ d)%string with (String ch (h ++ "," ++ d))%string.
    cbn [Py.split_once_go Py.startswith].
    destruct (Ascii.eqb "," ch) eqn:E; [cbv in Hch; discriminate|].
    rewrite (IH (String ch cur) Hh), rev_cons, string_app_assoc. reflexivity.
Qed.

Lemma split_once_go_missing (cur s : string) :
  Py.contains "," s = false -> Py.split_once_go "," cur s = None.
Proof.
  revert cur. induction s as [|ch s IH]; intros cur Hc; [reflexivity|].
  cbn [Py.contains Py.startswith] in Hc.
  apply orb_false_iff in Hc as [Hch Hs].
  cbn [Py.split_once_go Py.startswith].
  destruct (Ascii.eqb "," ch) eqn:E; [cbv in Hch; discriminate|]. now apply IH.
Qed.

Lemma contains_app_r (p a b : string) :
  Py.contains p b = true -> Py.contains p (a ++ b) = true.
Proof.
  intros H. induction a as [|ch a IH]; [exact H|].
  simpl. rewrite IH. apply orb_true_r.
Qed.

(** X11: [resize_base64_image] keeps the header of a data URI (the text
    before its first comma) and replaces the data after it by the
    recompressed data; a payload that does not start with [data:] gets the
    JPEG header; a [data:] text without a comma gives [None]; a result is
    never empty. *)
Theorem resize_keeps_header (w : World) :
  (forall header data,
      Py.startswith "data:" header = true ->
      Py.contains "," header = false ->
      resize_base64_image w (header ++ "," ++ data)
      = option_map (fun resized => (header ++ "," ++ resized)%string)
                   (recompress w data))
  /\ (forall base64_string,
         Py.startswith "data:" base64_string = true ->
         Py.contains "," base64_string = false ->
         resize_base64_image w base64_string = None)
  /\ (forall base64_string,
         Py.startswith "data:" base64_string = false ->
         resize_base64_image w base64_string
         = option_map (fun resized =>
                         ("data:image/jpeg;base64" ++ "," ++ resized)%string)
                      (recompress w base64_string))
  /\ (forall base64_string resized,
         resize_base64_image w base64_string = Some resized ->
         nonempty resized = true /\ Py.contains "," resized = true).
Proof.
  split; [|split; [|split]].
  - intros header data Hd Hc. unfold resize_base64_image.
    rewrite (startswith_app _ _ _ Hd). unfold Py.split_once.
    rewrite (split_once_go_found EmptyString header data Hc).
    change (String.rev EmptyString ++ header)%string with header.
    now destruct (recompress w data).
  - intros s Hd Hc. unfold resize_base64_image. rewrite Hd.
    unfold Py.split_once. now rewrite (split_once_go_missing _ _ Hc).
  - intros s Hd. unfold resize_base64_image. rewrite Hd.
    now destruct (recompress w s).
  - intros s r. unfold resize_base64_image.
    destruct (if Py.startswith "data:" s then Py.split_once "," s
              else Some ("data:image/jpeg;base64", s)) as [[header data]|];
      [|discriminate].
    destruct (recompress w data) as [r'|]; [|discriminate].
    intros H. injection H as <-. split.
    + destruct header; reflexivity.
    + apply contains_app_r. reflexivity.
Qed.

(** ** The batch loops *)

Lemma splice_not_none (l : list (option string)) (es : list Vector) :
  Py.not_none (splice l es) = firstn (List.length (Py.not_none l)) es.
Proof.
  revert es. induction l as [|[x|] l IH]; intros es.
  - reflexivity.
  - destruct es as [|e es].
    + cbn [splice]. change (Py.not_none (None :: splice l []))
        with (Py.not_none (splice l [])).
      rewrite IH. now rewrite !firstn_nil.
    + cbn [splice]. change (Py.not_none (Some e :: splice l es))
        with (e :: Py.not_none (splice l es)).
      rewrite IH. reflexivity.
  - cbn [splice]. change (Py.not_none (None :: splice l es))
      with (Py.not_none (splice l es)).
    apply IH.
Qed.

(** X12: the vectors present in the output of an image batch are the
    first vectors of the response, in response order, at most one per
    prepared input: none is skipped, repeated or moved, and vectors beyond
    the number of prepared inputs are ignored. *)
Theorem image_batch_uses_response_in_order (self : Retriever) (w : World)
    (texts : list string) (i : nat) :
  Py.not_none (embed_image_batch self w texts i)
  = firstn (List.length (Py.not_none (image_batch_inputs w texts i)))
           (image_batch_embeddings self w texts i)
  /\ (List.length (Py.not_none (embed_image_batch self w texts i))
      <= List.length (Py.not_none (image_batch_inputs w texts i)))%nat.
Proof.
  rewrite embed_image_batch_splice, splice_not_none.
  split; [reflexivity|]. apply firstn_le_length.
Qed.

(** X13: the batches of a loop are consecutive pieces of the list: put
    end to end they give the list back, each holds between 1 and 32
    elements, and there are [ceil (n / 32)] of them. *)
Theorem batches_partition {A : Type} (l : list A) :
  List.concat (batches l) = l
  /\ Forall (fun b => (1 <= List.length b <= batch_size)%nat) (batches l)
  /\ List.length (batches l) = ((List.length l + batch_size - 1) / batch_size)%nat.
Proof.
  unfold batches.
  destruct (batches_nth_error l (fun i => Py.slice i batch_size l)
              (fun i => eq_refl)) as [Hlen Hnth].
  split; [|split].
  - apply nth_error_ext. intros p.
    destruct (Nat.lt_ge_cases p (List.length l)) as [Hp|Hp].
    + rewrite (Hnth p Hp).
      rewrite slice_nth_error by (unfold batch_size; div_lia).
      f_equal. unfold batch_size. div_lia.
    + rewrite (proj2 (nth_error_None l p)) by exact Hp.
      apply nth_error_None. rewrite Hlen. exact Hp.
  - apply List.Forall_forall. intros b Hb.
    apply in_map_iff in Hb as (i & <- & Hi).
    unfold Py.range_step in Hi. apply in_map_iff in Hi as (j & <- & Hj).
    apply in_seq in Hj. rewrite slice_length. unfold batch_size in *. div_lia.
  - unfold Py.range_step. now rewrite !length_map, length_seq.
Qed.

(** ** The embedding wrappers *)

(** X14: [ImageEmbeddings.embed_query] returns the first vector of the
    response to the one-image batch; it raises when the image could not be
    prepared, when the call raised and when the response is empty. *)
Theorem image_embed_query_spec (self : Retriever) (w : World) (text : string) :
  image_embed_query self w text
  = match fst (prepare_input w text) with
    | Some input_data =>
        match image_client self 0 [input_data] with
        | Some (embedding :: _) => Ok embedding
        | _ => Raise
        end
    | None => Raise
    end.
Proof.
  unfold image_embed_query, image_embeddings.
  change (Py.range_step (List.length [text]) batch_size) with [0%nat].
  cbn [map List.concat]. rewrite app_nil_r.
  unfold embed_image_batch.
  change (Py.slice 0 batch_size [text]) with [text]. cbn [map].
  destruct (fst (prepare_input w text)) as [input_data|]; [|reflexivity].
  change (Py.not_none [Some input_data]) with [input_data].
  destruct (image_client self 0 [input_data]) as [[|e es]|]; reflexivity.
Qed.

Lemma reconstruct_from_length (embs : list (option Vector)) (counts : list nat)
    (texts : list string) (i idx : nat) (out : list (option Vector)) :
  reconstruct_from embs counts texts i idx = Ok out ->
  List.length out = List.length texts.
Proof.
  revert i idx out. induction texts as [|t texts IH]; intros i idx out H.
  - simpl in H. injection H as <-. reflexivity.
  - simpl in H. destruct (nth_error counts i) as [[|c]|]; [| |discriminate].
    + destruct (reconstruct_from embs counts texts (S i) idx) as [rest|] eqn:E;
        [|discriminate].
      simpl in H. injection H as <-. simpl. f_equal. eapply IH, E.
    + destruct (average_valid (Py.slice idx (S c) embs)) as [e|];
        [|discriminate].
      simpl in H.
      destruct (reconstruct_from embs counts texts (S i) (idx + S c))
        as [rest|] eqn:E; [|discriminate].
      simpl in H. injection H as <-. simpl. f_equal. eapply IH, E.
Qed.

Lemma text_embeddings_length (self : Retriever) (w : World) (texts : list string)
    (query_type : string) (out : list (option Vector)) :
  text_embeddings self w texts query_type = Ok out ->
  List.length out = List.length texts.
Proof.
  unfold text_embeddings. destruct texts as [|t texts].
  - intros H. injection H as <-. reflexivity.
  - destruct (_create_text_chunks w (t :: texts)) as [all_chunks counts].
    destruct all_chunks as [|c cs].
    + intros H. injection H as <-. simpl. now rewrite length_map.
    + apply reconstruct_from_length.
Qed.



(** ** What a call can return *)

(** X16: a hit is returned exactly when it is among the first [k] hits of
    the deduplicated fused sequence, its score exceeds the threshold and,
    in text-only mode, category terms were given and its text matches one.
    A hit further down the deduplicated sequence is never returned,
    whatever its score. *)
Theorem returned_hits_characterised (self : Retriever)
    (query categories : list string) (img : string) (k : Z) (image_bool : bool) :
  (0 <= k)%Z ->
  exists hs : list Hit,
    retrieve self query categories img k image_bool = results_of_hits hs
    /\ forall res,
         In res hs
         <-> In res (Py.slice_to k
                       (deduplicate (fused_hits self query img k image_bool)))
             /\ above (sim_threshold self) res = true
             /\ (image_bool = true
                 \/ (categories <> []
                     /\ text_matches categories (hit_text res) = true)).
Proof.
  intros Hk. exists (final_hits self query categories img k image_bool).
  split; [apply retrieve_hits|].
  intros res. unfold final_hits. rewrite ranked_hits_nonneg by exact Hk.
  set (first_k := Py.slice_to k
                    (deduplicate (fused_hits self query img k image_bool))).
  assert (Hr : In res (Py.sorted_desc score
                         (List.filter (above (sim_threshold self)) first_k))
               <-> In res first_k /\ above (sim_threshold self) res = true).
  { rewrite <- filter_In. split; apply Permutation_in;
      [|symmetry]; apply sorted_desc_perm. }
  unfold filtered_hits. destruct image_bool.
  - rewrite Hr. tauto.
  - destruct categories as [|c cs].
    + split; [contradiction|]. intros (_ & _ & [H|[H _]]); [discriminate|].
      now contradiction H.
    + rewrite filter_In, Hr. unfold text_matches. split.
      * intros [[H1 H2] H3]. repeat split; try assumption.
        right. split; [discriminate|exact H3].
      * intros (H1 & H2 & [H3|[_ H3]]); [discriminate|]. tauto.
Qed.

(** ** Bulk import *)

Lemma add_embeddings_entities (col col' : option Collection) (new : list Entity) :
  add_embeddings col new = Ok col' ->
  entities_of col' = entities_of col ++ new.
Proof.
  unfold add_embeddings. destruct col as [c|].
  - destruct (online c); [|discriminate]. intros H. injection H as <-. reflexivity.
  - intros H. injection H as <-. reflexivity.
Qed.

Lemma successful_data_records (field : CsvRow -> string) (rows : list CsvRow)
    (embs : list (option Vector)) :
  successful_data (map field rows) embs rows = records_of field rows embs.
Proof.
  unfold successful_data, records_of. revert embs.
  induction rows as [|r rows IH]; intros [|e embs]; try reflexivity.
  cbn [map combine flat_map fst snd]. rewrite IH. now destruct e.
Qed.

(** The records of [records_of], position by position. *)
Lemma records_of_in (field : CsvRow -> string) (rows : list CsvRow)
    (embs : list (option Vector)) (e : Entity) :
  In e (records_of field rows embs)
  <-> exists n row emb,
        nth_error rows n = Some row /\ nth_error embs n = Some (Some emb)
        /\ e = (field row, emb, row).
Proof.
  unfold records_of. revert embs.
  induction rows as [|r rows IH]; intros embs.
  - split; [intros []|]. intros (n & row & emb & Hr & _). now destruct n.
  - destruct embs as [|o embs].
    + split; [intros []|]. intros (n & row & emb & _ & He & _). now destruct n.
    + cbn [combine flat_map fst snd]. rewrite in_app_iff, IH. split.
      * intros [H|(n & row & emb & Hr & He & ->)].
        -- destruct o as [emb|]; [|destruct H].
           destruct H as [<-|[]]. now exists 0%nat, r, emb.
        -- now exists (S n), row, emb.
      * intros ([|n] & row & emb & Hr & He & ->).
        -- cbn [nth_error] in Hr, He. injection Hr as ->. injection He as ->.
           left. now left.
        -- right. now exists n, row, emb.
Qed.

Lemma image_embeddings_length (self : Retriever) (w : World) (refs : list string) :
  List.length (image_embeddings self w refs) = List.length refs.
Proof.
  unfold image_embeddings.
  exact (proj1 (batches_nth_error refs (embed_image_batch self w refs)
                  (embed_image_batch_length self w refs))).
Qed.

(** X17: a population that returns only appends, and what it appends is
    fixed by the embeddings, row by row.  The records a collection held
    before stay in front.  After them the text collection holds, in row
    order, one record for every row for which [text_embeddings] returned
    an embedding, made of the combined text of that row, that embedding
    and that row as metadata; a row without text embedding adds nothing
    and shifts nothing.  The same holds for the image collection with the
    image reference and the result of [image_embeddings].  Both embedding
    lists have one entry per row. *)
Theorem populate_appends_aligned_records (self : Retriever) (w : World)
    (st st' : Store) (rows : list CsvRow) :
  populate self w st (Some rows) = Ok st' ->
  exists text_embs,
    text_embeddings self w (map combined_text rows) "passage" = Ok text_embs
    /\ List.length text_embs = List.length rows
    /\ List.length (image_embeddings self w (map csv_image rows))
       = List.length rows
    /\ entities_of (text_col st')
       = entities_of (text_col st) ++ records_of combined_text rows text_embs
    /\ entities_of (image_col st')
       = entities_of (image_col st)
         ++ records_of csv_image rows
                       (image_embeddings self w (map csv_image rows))
    /\ (forall e, In e (records_of combined_text rows text_embs)
                  <-> exists n row emb,
                        nth_error rows n = Some row
                        /\ nth_error text_embs n = Some (Some emb)
                        /\ e = (combined_text row, emb, row))
    /\ (forall e, In e (records_of csv_image rows
                          (image_embeddings self w (map csv_image rows)))
                  <-> exists n row emb,
                        nth_error rows n = Some row
                        /\ nth_error (image_embeddings self w (map csv_image rows)) n
                           = Some (Some emb)
                        /\ e = (csv_image row, emb, row)).
Proof.
  unfold populate.
  destruct (text_embeddings self w (map combined_text rows) "passage")
    as [text_embs|] eqn:Et; [|discriminate].
  cbn [mbind result_bind]. rewrite !successful_data_records.
  set (new_t := records_of combined_text rows text_embs).
  set (new_i := records_of csv_image rows
                  (image_embeddings self w (map csv_image rows))).
  intros H.
  assert (Htc : exists tc, match new_t with
                           | [] => Ok (text_col st)
                           | _ => add_embeddings (text_col st) new_t
                           end = Ok tc
                           /\ entities_of tc = entities_of (text_col st) ++ new_t).
  { destruct new_t as [|e l] eqn:E.
    - exists (text_col st). split; [reflexivity|now rewrite app_nil_r].
    - destruct (add_embeddings (text_col st) (e :: l)) as [tc|] eqn:Ea;
        [|discriminate].
      exists tc. split; [reflexivity|]. now apply add_embeddings_entities. }
  destruct Htc as (tc & Etc & Htc). rewrite Etc in H. cbn [mbind result_bind] in H.
  assert (Hic : exists ic, match new_i with
                           | [] => Ok (image_col st)
                           | _ => add_embeddings (image_col st) new_i
                           end = Ok ic
                           /\ entities_of ic = entities_of (image_col st) ++ new_i).
  { destruct new_i as [|e l] eqn:E.
    - exists (image_col st). split; [reflexivity|now rewrite app_nil_r].
    - destruct (add_embeddings (image_col st) (e :: l)) as [ic|] eqn:Ea;
        [|discriminate].
      exists ic. split; [reflexivity|]. now apply add_embeddings_entities. }
  destruct Hic as (ic & Eic & Hic). rewrite Eic in H. cbn [mbind result_bind] in H.
  injection H as <-. exists text_embs. cbn [text_col image_col].
  split; [reflexivity|].
  split; [rewrite (text_embeddings_length _ _ _ _ _ Et); apply length_map|].
  split; [rewrite image_embeddings_length; apply length_map|].
  split; [exact Htc|]. split; [exact Hic|].
  split; intros e; apply records_of_in.
Qed.

(** ** Texts of one chunk *)

Lemma mean_of_one (v : Vector) :
  exists m, mean_axis0 [v] = Ok m /\ Forall2 Qeq m v.
Proof.
  unfold mean_axis0. cbn [forallb fold_left List.length].
  eexists. split; [reflexivity|].
  induction v as [|x v IH]; cbn [map]; constructor; [|exact IH].
  change (inject_Z (Z.of_nat 1)) with 1%Q. field.
Qed.

Lemma reconstruct_one_chunk_each (vs : list Vector) (n : nat)
    (texts : list string) (i : nat) :
  (i + List.length texts = List.length vs)%nat ->
  n = List.length vs ->
  exists out,
    reconstruct_from (map Some vs) (repeat 1%nat n) texts i i = Ok out
    /\ Forall2 (fun o v => exists m, o = Some m /\ Forall2 Qeq m v)
               out (skipn i vs).
Proof.
  intros Hlen ->. revert i Hlen.
  induction texts as [|t texts IH]; intros i Hlen.
  - exists []. split; [reflexivity|].
    rewrite skipn_all2 by (simpl in Hlen; lia). constructor.
  - simpl in Hlen.
    assert (Hc : nth_error (repeat 1%nat (List.length vs)) i = Some 1%nat).
    { rewrite nth_error_repeat by lia. reflexivity. }
    destruct (nth_error vs i) as [v|] eqn:Ev;
      [|apply nth_error_None in Ev; lia].
    assert (Hs : Py.slice i 1 (map Some vs) = [Some v]).
    { rewrite (slice_cons i 0 (Some v)).
      - unfold Py.slice. now rewrite firstn_O.
      - rewrite nth_error_map, Ev. reflexivity. }
    destruct (mean_of_one v) as (m & Hm & Hmv).
    destruct (IH (S i)) as (rest & Hrest & Hall); [lia|].
    exists (Some m :: rest). split.
    + cbn [reconstruct_from]. rewrite Hc, Hs.
      unfold average_valid. change (Py.not_none [Some v]) with [v].
      rewrite Hm. cbn [mbind result_bind].
      replace (i + 1)%nat with (S i) by lia. rewrite Hrest. reflexivity.
    + assert (Hsk : skipn i vs = v :: skipn (S i) vs).
      { clear -Ev. revert vs Ev. induction i as [|i IHi]; intros [|x vs] Ev;
          try discriminate.
        - simpl in Ev. injection Ev as ->. reflexivity.
        - simpl in Ev. simpl. now apply IHi. }
      rewrite Hsk. constructor; [|exact Hall]. exists m. split; [reflexivity|exact Hmv].
Qed.

(** X18: when every text has exactly one chunk and every chunk has an
    embedding, reconstruction returns for each text the embedding of its
    chunk (coordinate by coordinate the same number). *)
Theorem reconstruct_single_chunks (texts : list string) (vs : list Vector) :
  List.length vs = List.length texts ->
  exists out,
    _reconstruct_embeddings texts (map Some vs)
                            (repeat 1%nat (List.length texts)) = Ok out
    /\ Forall2 (fun o v => exists m, o = Some m /\ Forall2 Qeq m v) out vs.
Proof.
  intros Hlen. unfold _reconstruct_embeddings.
  destruct (reconstruct_one_chunk_each vs (List.length texts) texts 0)
    as (out & Hout & Hall); [simpl; lia|lia|].
  exists out. split; [exact Hout|exact Hall].
Qed.

(** ** From the imported text back to the categories *)

Lemma string_app_nil_r (s : string) : (s ++ EmptyString)%string = s.
Proof.
  induction s as [|ch s IH]; [reflexivity|].
  change (String ch (s ++ EmptyString)%string = String ch s). now rewrite IH.
Qed.

Lemma rev_app_string (cur : string) (ch : ascii) (t : string) :
  (String.rev (String ch cur) ++ t)%string = (String.rev cur ++ String ch t)%string.
Proof. rewrite rev_cons, string_app_assoc. reflexivity. Qed.

Lemma contains_char_cons (c d : ascii) (s : string) :
  Py.contains (String c EmptyString) (String d s)
  = Ascii.eqb c d || Py.contains (String c EmptyString) s.
Proof.
  cbn [Py.contains Py.startswith]. now destruct (Ascii.eqb c d).
Qed.

Lemma contains_char_app (c : ascii) (a b : string) :
  Py.contains (String c EmptyString) (a ++ b)
  = Py.contains (String c EmptyString) a || Py.contains (String c EmptyString) b.
Proof.
  induction a as [|d a IH].
  - change (EmptyString ++ b)%string with b.
    change (Py.contains (String c EmptyString) EmptyString) with false.
    reflexivity.
  - change (String d a ++ b)%string with (String d (a ++ b)%string).
    rewrite !contains_char_cons, IH. now rewrite orb_assoc.
Qed.

Section SplitChar.
Variable c : ascii.
Let sep : string := String c EmptyString.

Lemma split_go_char_step (cur : string) (d : ascii) (s : string) :
  Py.split_go sep 0 cur (String d s)
  = if Ascii.eqb c d
    then String.rev cur :: Py.split_go sep 0 EmptyString s
    else Py.split_go sep 0 (String d cur) s.
Proof.
  unfold sep. cbn [Py.split_go Py.startswith String.length Nat.sub].
  now destruct (Ascii.eqb c d).
Qed.

Lemma split_go_nonempty (cur s : string) : Py.split_go sep 0 cur s <> [].
Proof.
  revert cur. induction s as [|d s IH]; intros cur; [discriminate|].
  rewrite split_go_char_step. destruct (Ascii.eqb c d); [discriminate|apply IH].
Qed.

Lemma split_go_no_sep (cur t : string) :
  Py.contains sep t = false ->
  Py.split_go sep 0 cur t = [(String.rev cur ++ t)%string].
Proof.
  revert cur. induction t as [|d t IH]; intros cur H.
  - cbn [Py.split_go]. now rewrite string_app_nil_r.
  - unfold sep in H. rewrite contains_char_cons in H.
    apply orb_false_iff in H as [Hd Ht].
    rewrite split_go_char_step, Hd, (IH _ Ht), rev_app_string. reflexivity.
Qed.

Lemma split_go_at_sep (cur a b : string) :
  Py.contains sep a = false ->
  Py.split_go sep 0 cur (a ++ sep ++ b)
  = (String.rev cur ++ a)%string :: Py.split_go sep 0 EmptyString b.
Proof.
  revert cur. induction a as [|d a IH]; intros cur H.
  - change (EmptyString ++ sep ++ b)%string with (String c b).
    rewrite split_go_char_step, Ascii.eqb_refl, string_app_nil_r. reflexivity.
  - unfold sep in H. rewrite contains_char_cons in H.
    apply orb_false_iff in H as [Hd Ha].
    change (String d a ++ sep ++ b)%string with (String d (a ++ sep ++ b)%string).
    rewrite split_go_char_step, Hd, (IH _ Ha), rev_app_string. reflexivity.
Qed.

Lemma last_cons_nonempty {A : Type} (x d : A) (l : list A) :
  l <> [] -> List.last (x :: l) d = List.last l d.
Proof. destruct l; [contradiction|reflexivity]. Qed.

Lemma last_split_go (cur a t : string) :
  Py.contains sep t = false ->
  List.last (Py.split_go sep 0 cur (a ++ sep ++ t)) EmptyString = t.
Proof.
  intros Ht. revert cur. induction a as [|d a IH]; intros cur.
  - change (EmptyString ++ sep ++ t)%string with (String c t).
    rewrite split_go_char_step, Ascii.eqb_refl, (split_go_no_sep _ _ Ht).
    reflexivity.
  - change (String d a ++ sep ++ t)%string with (String d (a ++ sep ++ t)%string).
    rewrite split_go_char_step. destruct (Ascii.eqb c d); [|apply IH].
    rewrite last_cons_nonempty by apply split_go_nonempty. apply IH.
Qed.

End SplitChar.

Lemma lstrip_app (s t : string) (ch : ascii) :
  Py.isspace ch = false ->
  Py.lstrip (s ++ String ch t) = (Py.lstrip s ++ String ch t)%string.
Proof.
  intros Hch. induction s as [|d s IH].
  - change (EmptyString ++ String ch t)%string with (String ch t).
    cbn [Py.lstrip]. now rewrite Hch.
  - change (String d s ++ String ch t)%string with (String d (s ++ String ch t)%string).
    cbn [Py.lstrip]. destruct (Py.isspace d); [exact IH|reflexivity].
Qed.

Lemma rstrip_app (s t : string) :
  Py.rstrip (s ++ t)
  = match Py.rstrip t with
    | EmptyString => Py.rstrip s
    | r => (s ++ r)%string
    end.
Proof.
  induction s as [|d s IH].
  - change (EmptyString ++ t)%string with t. now destruct (Py.rstrip t).
  - change (String d s ++ t)%string with (String d (s ++ t)%string).
    cbn [Py.rstrip]. rewrite IH.
    destruct (Py.rstrip t) as [|x r]; [reflexivity|].
    now destruct s.
Qed.

Lemma lstrip_idempotent (s : string) : Py.lstrip (Py.lstrip s) = Py.lstrip s.
Proof.
  induction s as [|d s IH]; [reflexivity|].
  cbn [Py.lstrip]. destruct (Py.isspace d) eqn:E; [exact IH|].
  cbn [Py.lstrip]. now rewrite E.
Qed.

Lemma rstrip_idempotent (s : string) : Py.rstrip (Py.rstrip s) = Py.rstrip s.
Proof.
  induction s as [|d s IH]; [reflexivity|].
  cbn [Py.rstrip]. destruct (Py.rstrip s) as [|x r] eqn:E.
  - destruct (Py.isspace d) eqn:Ed; [reflexivity|].
    cbn [Py.rstrip]. now rewrite Ed.
  - cbn [Py.rstrip] in *. rewrite IH. reflexivity.
Qed.

Lemma lstrip_rstrip (s : string) :
  Py.lstrip (Py.rstrip s) = Py.rstrip (Py.lstrip s).
Proof.
  induction s as [|d s IH]; [reflexivity|].
  cbn [Py.lstrip]. destruct (Py.isspace d) eqn:Ed.
  - rewrite <- IH. cbn [Py.rstrip]. rewrite Ed.
    destruct (Py.rstrip s) as [|x r]; [reflexivity|].
    cbn [Py.lstrip]. now rewrite Ed.
  - cbn [Py.rstrip]. rewrite Ed. destruct (Py.rstrip s) as [|x r];
      cbn [Py.lstrip]; now rewrite Ed.
Qed.

Lemma strip_lstrip (s : string) : Py.strip (Py.lstrip s) = Py.strip s.
Proof. unfold Py.strip. now rewrite lstrip_idempotent. Qed.

Lemma strip_rstrip (s : string) : Py.strip (Py.rstrip s) = Py.strip s.
Proof.
  unfold Py.strip. now rewrite lstrip_rstrip, rstrip_idempotent.
Qed.

Lemma startswith_price_false (y : string) (w : string) :
  y <> EmptyString ->
  Py.contains ":" y = false ->
  Py.startswith "PRICE:" (y ++ "PRICE:" ++ w) = false.
Proof.
  intros Hne Hc.
  assert (Hcolon : forall (d : ascii) (s : string),
             Py.contains ":" (String d s) = false ->
             Ascii.eqb ":" d = false /\ Py.contains ":" s = false).
  { intros d s H. rewrite contains_char_cons in H.
    now apply orb_false_iff in H. }
  destruct y as [|c0 y]; [contradiction|].
  apply Hcolon in Hc as [_ Hc].
  destruct y as [|c1 y];
    [cbv [append]; cbn [Py.startswith]; repeat test_char; reflexivity|].
  apply Hcolon in Hc as [_ Hc].
  destruct y as [|c2 y];
    [cbv [append]; cbn [Py.startswith]; repeat test_char; reflexivity|].
  apply Hcolon in Hc as [_ Hc].
  destruct y as [|c3 y];
    [cbv [append]; cbn [Py.startswith]; repeat test_char; reflexivity|].
  apply Hcolon in Hc as [_ Hc].
  destruct y as [|c4 y];
    [cbv [append]; cbn [Py.startswith]; repeat test_char; reflexivity|].
  apply Hcolon in Hc as [_ Hc].
  destruct y as [|c5 y];
    [cbv [append]; cbn [Py.startswith]; repeat test_char; reflexivity|].
  apply Hcolon in Hc as [Hc5 _].
  cbv [append]; cbn [Py.startswith]. rewrite Hc5.
  repeat test_char; reflexivity.
Qed.

Lemma split_go_price_step (cur : string) (d : ascii) (s : string) :
  Py.split_go "PRICE:" 0 cur (String d s)
  = if Py.startswith "PRICE:" (String d s)
    then String.rev cur :: Py.split_go "PRICE:" 5 EmptyString s
    else Py.split_go "PRICE:" 0 (String d cur) s.
Proof. reflexivity. Qed.

Lemma hd_split_price (cur z w : string) :
  Py.contains ":" z = false ->
  List.hd EmptyString (Py.split_go "PRICE:" 0 cur (z ++ "PRICE:" ++ w))
  = (String.rev cur ++ z)%string.
Proof.
  revert cur. induction z as [|d z IH]; intros cur Hz.
  - change (EmptyString ++ "PRICE:" ++ w)%string
      with (String "P" ("RICE:" ++ w)%string).
    rewrite split_go_price_step.
    change (Py.startswith "PRICE:" (String "P" ("RICE:" ++ w)%string)) with true.
    cbn [List.hd]. now rewrite string_app_nil_r.
  - pose proof (startswith_price_false (String d z) w
                  ltac:(discriminate) Hz) as Hf.
    change (String d z ++ "PRICE:" ++ w)%string
      with (String d (z ++ "PRICE:" ++ w)%string) in *.
    rewrite split_go_price_step, Hf.
    rewrite contains_char_cons in Hz. apply orb_false_iff in Hz as [_ Hz].
    rewrite (IH _ Hz), rev_app_string. reflexivity.
Qed.

Lemma contains_char_lstrip (c : ascii) (s : string) :
  Py.contains (String c EmptyString) s = false ->
  Py.contains (String c EmptyString) (Py.lstrip s) = false.
Proof.
  induction s as [|d s IH]; intros H; [exact H|].
  cbn [Py.lstrip]. destruct (Py.isspace d); [|exact H].
  rewrite contains_char_cons in H. apply orb_false_iff in H as [_ H].
  now apply IH.
Qed.

Lemma contains_char_rstrip (c : ascii) (s : string) :
  Py.contains (String c EmptyString) s = false ->
  Py.contains (String c EmptyString) (Py.rstrip s) = false.
Proof.
  induction s as [|d s IH]; intros H; [exact H|].
  rewrite contains_char_cons in H. apply orb_false_iff in H as [Hd H].
  specialize (IH H). cbn [Py.rstrip].
  destruct (Py.rstrip s) as [|x r].
  - destruct (Py.isspace d); [reflexivity|].
    rewrite contains_char_cons, Hd. reflexivity.
  - rewrite contains_char_cons, Hd, IH. reflexivity.
Qed.

Lemma rstrip_ends_nonspace (u : string) (ch : ascii) :
  Py.isspace ch = false ->
  Py.rstrip (u ++ String ch EmptyString) = (u ++ String ch EmptyString)%string.
Proof.
  intros H. rewrite rstrip_app. cbn [Py.rstrip]. now rewrite H.
Qed.

Lemma contains_startswith (p s : string) :
  Py.startswith p s = true -> Py.contains p s = true.
Proof. intros H. destruct s; cbn [Py.contains]; now rewrite H. Qed.

Lemma plain_spec (s : string) :
  plain s = true ->
  Py.contains "|" s = false /\ Py.contains "," s = false
  /\ Py.contains ":" s = false.
Proof.
  unfold plain. rewrite !andb_true_iff, !negb_true_iff. tauto.
Qed.

(** The category part of a stored text followed by the price line. *)
Lemma category_segment (category subcategory price_text : string) :
  plain category = true -> plain subcategory = true ->
  let segment :=
    (" " ++ category ++ "," ++ subcategory ++ newline ++ "PRICE: " ++ price_text)%string in
  let category_part := Py.strip segment in
  (if Py.contains "PRICE:" category_part
   then Py.strip (List.hd EmptyString (Py.split "PRICE:" category_part))
   else category_part)
  = (Py.lstrip category ++ "," ++ Py.rstrip subcategory)%string.
Proof.
  intros Hc Hs segment category_part.
  apply plain_spec in Hc as (_ & Hc1 & Hc2).
  apply plain_spec in Hs as (_ & Hs1 & Hs2).
  set (z := (Py.lstrip category ++ "," ++ subcategory ++ newline)%string).
  set (w := Py.rstrip (" " ++ price_text)).
  assert (Hpart : category_part = (z ++ "PRICE:" ++ w)%string).
  { subst category_part segment. unfold Py.strip.
    change (Py.lstrip (" " ++ category ++ "," ++ subcategory ++ newline
                        ++ "PRICE: " ++ price_text))
      with (Py.lstrip (category ++ String ","
                         (subcategory ++ newline ++ "PRICE: " ++ price_text))).
    rewrite lstrip_app by reflexivity.
    change (Py.lstrip category
            ++ String "," (subcategory ++ newline ++ "PRICE: " ++ price_text))%string
      with (Py.lstrip category ++ "," ++ subcategory ++ newline
            ++ "PRICE:" ++ " " ++ price_text)%string.
    replace (Py.lstrip category ++ "," ++ subcategory ++ newline
             ++ "PRICE:" ++ " " ++ price_text)%string
      with ((z ++ "PRICE:") ++ " " ++ price_text)%string
      by (subst z; rewrite !string_app_assoc; reflexivity).
    rewrite rstrip_app. fold w. destruct w as [|x r] eqn:Ew.
    - change "PRICE:" with ("PRICE" ++ String ":" EmptyString)%string at 1.
      rewrite <- string_app_assoc, rstrip_ends_nonspace by reflexivity.
      rewrite string_app_assoc. reflexivity.
    - now rewrite string_app_assoc. }
  assert (Hz : Py.contains ":" z = false).
  { subst z. rewrite !contains_char_app.
    rewrite (contains_char_lstrip _ _ Hc2), Hs2. reflexivity. }
  rewrite Hpart.
  rewrite (contains_app_r "PRICE:" z ("PRICE:" ++ w))
    by (apply contains_startswith, startswith_app; reflexivity).
  cbv iota. unfold Py.split. rewrite (hd_split_price EmptyString z w Hz).
  change (String.rev EmptyString ++ z)%string with z.
  subst z. unfold Py.strip.
  change (Py.lstrip category ++ "," ++ subcategory ++ newline)%string
    with (Py.lstrip category ++ String "," (subcategory ++ newline))%string.
  rewrite lstrip_app, lstrip_idempotent by reflexivity.
  change (Py.lstrip category ++ String "," (subcategory ++ newline))%string
    with (Py.lstrip category ++ "," ++ (subcategory ++ newline))%string.
  rewrite <- string_app_assoc, rstrip_app, (rstrip_app subcategory newline).
  change (Py.rstrip newline) with EmptyString. cbv iota.
  destruct (Py.rstrip subcategory) as [|x r] eqn:Er.
  - rewrite rstrip_ends_nonspace by reflexivity.
    rewrite ?string_app_assoc; reflexivity.
  - rewrite ?string_app_assoc; reflexivity.
Qed.

(** X19: the text the import stores for a CSV row is parsed back to the
    categories of the row.  For a hit whose text is the stored text of
    [row], whose category and subcategory hold none of the characters
    [|], [,] and [:], and whose price text holds no [|], the parsed
    categories are the lower-cased, stripped category and subcategory
    (each dropped if it is empty or starts with a slash); the name and the
    description have no influence. *)
Theorem imported_text_parses_to_its_categories (row : CsvRow) (res : Hit) :
  page_content (fst res) = combined_text row ->
  plain (csv_category row) = true ->
  plain (csv_subcategory row) = true ->
  Py.contains "|" (price (fst res)) = false ->
  parse_categories (hit_text res)
  = List.filter usable
      [Py.lower (Py.strip (csv_category row));
       Py.lower (Py.strip (csv_subcategory row))].
Proof.
  intros Hpage Hc Hs Hp. unfold hit_text. rewrite Hpage.
  set (segment := (" " ++ csv_category row ++ "," ++ csv_subcategory row
                   ++ newline ++ "PRICE: " ++ price (fst res))%string).
  assert (Htext : (combined_text row ++ newline ++ "PRICE: " ++ price (fst res))%string
                  = ((csv_name row ++ " | " ++ csv_description row ++ " ")
                     ++ "|" ++ segment)%string).
  { unfold combined_text, segment. rewrite !string_app_assoc. reflexivity. }
  assert (Hseg : Py.contains "|" segment = false).
  { pose proof (plain_spec _ Hc) as (Hc0 & _ & _).
    pose proof (plain_spec _ Hs) as (Hs0 & _ & _).
    unfold segment. rewrite !contains_char_app, Hc0, Hs0, Hp. reflexivity. }
  pose proof (category_segment (csv_category row) (csv_subcategory row)
                (price (fst res)) Hc Hs) as Hpart.
  cbv zeta in Hpart. fold segment in Hpart.
  assert (Hlast : List.last
                    (Py.split "|"
                       ((csv_name row ++ " | " ++ csv_description row ++ " ")
                        ++ "|" ++ segment)) EmptyString = segment).
  { apply (last_split_go "|" EmptyString _ segment Hseg). }
  unfold parse_categories. rewrite Htext. cbv zeta. rewrite !Hlast, Hpart.
  pose proof (plain_spec _ Hc) as (_ & Hc1 & _).
  pose proof (plain_spec _ Hs) as (_ & Hs1 & _).
  unfold Py.split.
  rewrite (split_go_at_sep "," EmptyString _ _ (contains_char_lstrip _ _ Hc1)).
  rewrite (split_go_no_sep "," EmptyString _ (contains_char_rstrip _ _ Hs1)).
  change (String.rev EmptyString ++ Py.lstrip (csv_category row))%string
    with (Py.lstrip (csv_category row)).
  change (String.rev EmptyString ++ Py.rstrip (csv_subcategory row))%string
    with (Py.rstrip (csv_subcategory row)).
  cbn [map]. rewrite strip_lstrip, strip_rstrip. reflexivity.
Qed.

(** ** The image payload of a dispatch *)

Lemma replace_go_unchanged (old new s : string) :
  Py.contains old s = false -> Py.replace_go old new 0 s = s.
Proof.
  induction s as [|ch s IH]; intros H; [reflexivity|].
  cbn [Py.contains] in H. apply orb_false_iff in H as [Hs Hc].
  cbn [Py.replace_go]. rewrite Hs, (IH Hc). reflexivity.
Qed.

Lemma replace_go_skip (old new p s : string) :
  Py.replace_go old new (String.length p) (p ++ s) = Py.replace_go old new 0 s.
Proof.
  induction p as [|ch p IH]; [now destruct s|].
  change (String ch p ++ s)%string with (String ch (p ++ s)%string).
  cbn [String.length Py.replace_go]. exact IH.
Qed.

Lemma startswith_refl_app (p s : string) : Py.startswith p (p ++ s) = true.
Proof.
  induction p as [|ch p IH]; [reflexivity|].
  change (String ch p ++ s)%string with (String ch (p ++ s)%string).
  cbn [Py.startswith]. now rewrite Ascii.eqb_refl.
Qed.

Lemma replace_at_front (o : ascii) (old' new s : string) :
  Py.replace (String o old') new (String o old' ++ s)
  = (new ++ Py.replace (String o old') new s)%string.
Proof.
  unfold Py.replace.
  pose proof (startswith_refl_app (String o old') s) as Hs.
  change (String o old' ++ s)%string with (String o (old' ++ s)%string) in *.
  cbn [Py.replace_go]. rewrite Hs.
  replace (String.length (String o old') - 1)%nat with (String.length old')
    by (cbn [String.length]; lia).
  rewrite replace_go_skip. reflexivity.
Qed.

(** X20: the image search gets the payload with every
    [data:application/octet-stream] replaced by [data:image/jpeg]: a
    payload without that text is searched as it is, and a payload that
    starts with it (and holds it nowhere else) gets the JPEG media type in
    front of its unchanged rest. *)
Theorem dispatch_image_payload (query : list string) (k : Z) :
  (forall img,
      Py.contains octet_stream img = false ->
      In (ImageSearch img (k * Z.of_nat (List.length query)))
         (dispatch query img k true))
  /\ (forall rest,
         Py.contains octet_stream rest = false ->
         In (ImageSearch (image_jpeg ++ rest)
                         (k * Z.of_nat (List.length query)))
            (dispatch query (octet_stream ++ rest) k true)).
Proof.
  unfold dispatch. split.
  - intros img H. apply in_or_app. right. left.
    unfold Py.replace. fold octet_stream.
    now rewrite (replace_go_unchanged _ _ _ H).
  - intros rest H. apply in_or_app. right. left.
    fold octet_stream. fold image_jpeg.
    unfold octet_stream at 1 2. rewrite replace_at_front.
    fold octet_stream. unfold Py.replace.
    now rewrite (replace_go_unchanged _ _ _ H).
Qed.

(** ** Text-only fusion starts with the best hit of every query *)

Lemma sorted_desc_head_best (l : list Hit) (h : Hit) (t : list Hit) :
  Py.sorted_desc score l = h :: t -> best_of l h.
Proof.
  intros E. pose proof (sorted_desc_perm score l) as Hp.
  pose proof (sorted_desc_descending score l) as Hd.
  rewrite E in Hp, Hd. split.
  - apply (Permutation_in _ Hp). now left.
  - apply List.Forall_forall. intros x Hx.
    apply (Permutation_in _ (Permutation_sym Hp)) in Hx as [<-|Hx];
      [apply Qle_refl|].
    unfold descending in Hd. cbn [map] in Hd.
    apply StronglySorted_inv in Hd as [_ Hd].
    rewrite List.Forall_forall in Hd. apply Hd. now apply in_map.
Qed.

Lemma heads_sorted_best (rs : list (list Hit)) :
  Forall2 best_of (List.filter (fun l => negb (Nat.eqb (List.length l) 0)) rs)
          (heads (map (Py.sorted_desc score) rs)).
Proof.
  induction rs as [|l rs IH]; [constructor|].
  cbn [map List.filter]. unfold heads. cbn [flat_map].
  fold (heads (map (Py.sorted_desc score) rs)).
  destruct (Py.sorted_desc score l) as [|h t] eqn:E.
  - assert (Hl : l = []).
    { pose proof (Permutation_length (sorted_desc_perm score l)) as Hlen.
      rewrite E in Hlen. destruct l; [reflexivity|discriminate]. }
    subst l. exact IH.
  - assert (Hl : negb (Nat.eqb (List.length l) 0) = true).
    { pose proof (Permutation_length (sorted_desc_perm score l)) as Hlen.
      rewrite E in Hlen. destruct l; [discriminate|reflexivity]. }
    rewrite Hl. cbn [app]. constructor; [|exact IH].
    eapply sorted_desc_head_best, E.
Qed.

(** X21: in text-only mode the fused sequence starts with one hit per
    query that returned something, in query order, and this hit is a
    best-scoring hit of its query: every such query contributes its best
    hit before any query contributes a second one. *)
Theorem fuse_text_only_starts_with_best_hits (unformatted_results : list (list Hit)) :
  exists firsts later,
    fuse false unformatted_results = firsts ++ later
    /\ Forall2 best_of
         (List.filter (fun l => negb (Nat.eqb (List.length l) 0))
                      unformatted_results)
         firsts.
Proof.
  exists (heads (map (Py.sorted_desc score) unformatted_results)).
  exists (interleave (tails (map (Py.sorted_desc score) unformatted_results))).
  split; [|apply heads_sorted_best].
  unfold fuse.
  rewrite <- (app_nil_r (map (Py.sorted_desc score) unformatted_results)) at 1.
  rewrite interleave_round. reflexivity.
Qed.

(** ** The further properties at the sample data *)

Lemma raising_threshold_sample :
  (0 <= 4)%Z /\ (0.75 <= 0.85)%Q
  /\ sims (retrieve (with_threshold sample_retriever 0.85)
                    ["red shoes"; "blue shoes"] ["shoes"] "" 4 false)
     = List.filter (fun sim => Py.gt sim 0.85)
         (sims (retrieve (with_threshold sample_retriever 0.75)
                         ["red shoes"; "blue shoes"] ["shoes"] "" 4 false)).
Proof.
  split; [lia|]. split; [unfold Qle; simpl; lia|].
  apply (raising_threshold_only_removes sample_retriever
           ["red shoes"; "blue shoes"] ["shoes"] "" 4 false 0.75 0.85).
  - lia.
  - unfold Qle; simpl; lia.
Defined.

Lemma returned_hits_sample :
  (0 <= 4)%Z
  /\ exists hs : list Hit,
       retrieve sample_retriever ["red shoes"; "blue shoes"] ["shoes"] "" 4 false
       = results_of_hits hs
       /\ forall res,
            In res hs
            <-> In res (Py.slice_to 4
                          (deduplicate
                             (fused_hits sample_retriever
                                ["red shoes"; "blue shoes"] "" 4 false)))
                /\ above (sim_threshold sample_retriever) res = true
                /\ (false = true
                    \/ (["shoes"] <> []
                        /\ text_matches ["shoes"] (hit_text res) = true)).
Proof.
  split; [lia|].
  apply (returned_hits_characterised sample_retriever
           ["red shoes"; "blue shoes"] ["shoes"] "" 4 false).
  lia.
Defined.

(** X17 at three rows and a store that holds one text record: the text
    of the third row gets no embedding (its chunks are in the batch that
    fails) and the image of the second row cannot be read. *)
Lemma populate_sample_appends_aligned_records :
  exists st',
    populate answering_retriever chunking_world text_only_store
             (Some three_rows) = Ok st'
    /\ exists text_embs,
         text_embeddings answering_retriever chunking_world
                         (map combined_text three_rows) "passage" = Ok text_embs
         /\ List.length text_embs = List.length three_rows
         /\ List.length (image_embeddings answering_retriever chunking_world
                           (map csv_image three_rows))
            = List.length three_rows
         /\ entities_of (text_col st')
            = entities_of (text_col text_only_store)
              ++ records_of combined_text three_rows text_embs
         /\ entities_of (image_col st')
            = entities_of (image_col text_only_store)
              ++ records_of csv_image three_rows
                   (image_embeddings answering_retriever chunking_world
                                     (map csv_image three_rows)).
Proof.
  eexists. split; [vm_compute; reflexivity|].
  destruct (populate_appends_aligned_records answering_retriever chunking_world
              text_only_store _ three_rows
              ltac:(vm_compute; reflexivity))
    as (text_embs & H1 & H2 & H3 & H4 & H5 & _).
  exists text_embs. repeat split; assumption.
Defined.

Example populate_sample_records :
  exists st',
    populate answering_retriever chunking_world text_only_store
             (Some three_rows) = Ok st'
    /\ map (fun e : Entity => csv_name (snd e)) (entities_of (text_col st'))
       = ["Old hat"; "Red sneaker"; "Red boot"]
    /\ map (fun e : Entity => fst (fst e)) (entities_of (text_col st'))
       = ["Old hat | felt | hats,caps"; "Red sneaker | canvas | shoes,sneakers";
          "Red boot | leather | shoes,boots"]
    /\ map (fun e : Entity => (csv_name (snd e), fst (fst e)))
           (entities_of (image_col st'))
       = [("Red sneaker", "data:image/jpeg;base64,AAAA");
          ("Tote", "data:image/png;base64,BBBBBB")]
    /\ map (fun e : Entity => snd (fst e)) (entities_of (image_col st'))
       = [[27%Q]; [28%Q]].
Proof.
  eexists. split; [vm_compute; reflexivity|].
  repeat split; vm_compute; reflexivity.
Qed.

Lemma reconstruct_sample_single_chunks :
  List.length [[1%Q; 0%Q]; [0%Q; 1%Q]] = List.length ["red shoes"; "blue shoes"]
  /\ exists out,
       _reconstruct_embeddings ["red shoes"; "blue shoes"]
         (map Some [[1%Q; 0%Q]; [0%Q; 1%Q]])
         (repeat 1%nat (List.length ["red shoes"; "blue shoes"])) = Ok out
       /\ Forall2 (fun o v => exists m, o = Some m /\ Forall2 Qeq m v) out
                  [[1%Q; 0%Q]; [0%Q; 1%Q]].
Proof.
  split; [reflexivity|].
  apply (reconstruct_single_chunks ["red shoes"; "blue shoes"]
           [[1%Q; 0%Q]; [0%Q; 1%Q]]).
  reflexivity.
Defined.

Lemma imported_sample_text_parses_to_its_categories :
  page_content (fst sample_hit) = combined_text sample_row
  /\ plain (csv_category sample_row) = true
  /\ plain (csv_subcategory sample_row) = true
  /\ Py.contains "|" (price (fst sample_hit)) = false
  /\ parse_categories (hit_text sample_hit)
     = List.filter usable
         [Py.lower (Py.strip (csv_category sample_row));
          Py.lower (Py.strip (csv_subcategory sample_row))].
Proof.
  split; [reflexivity|]. split; [reflexivity|]. split; [reflexivity|].
  split; [reflexivity|].
  apply (imported_text_parses_to_its_categories sample_row sample_hit);
    reflexivity.
Defined.

Lemma blank_category_term_sample :
  In " " ["shoes"; " "] /\ Py.strip (Py.lower " ") = EmptyString
  /\ match_found ["shoes"; " "] ["bags"] = true.
Proof.
  split; [right; left; reflexivity|]. split; [reflexivity|].
  apply (proj2 blank_category_term_matches_everything
           ["shoes"; " "] ["bags"] " ").
  - right; left; reflexivity.
  - reflexivity.
  - discriminate.
Defined.

Lemma path_sample_is_read_from_disk :
  is_path "/data/images/item.jpg" = true
  /\ resolve_input sample_world "/data/images/item.jpg"
     = (image_path_to_base64 sample_world "/data/images/item.jpg",
        [CallPathToBase64 "/data/images/item.jpg"]).
Proof.
  split; [reflexivity|].
  apply (proj2 (url_and_path_are_exclusive sample_world "/data/images/item.jpg")).
  reflexivity.
Defined.

Lemma resize_sample_keeps_header :
  Py.startswith "data:" "data:image/png;base64" = true
  /\ Py.contains "," "data:image/png;base64" = false
  /\ resize_base64_image sample_world ("data:image/png;base64" ++ "," ++ "AAAA")
     = option_map (fun resized => ("data:image/png;base64" ++ "," ++ resized)%string)
                  (recompress sample_world "AAAA").
Proof.
  split; [reflexivity|]. split; [reflexivity|].
  apply (proj1 (resize_keeps_header sample_world)); reflexivity.
Defined.


Lemma dispatch_sample_image_payload :
  Py.contains octet_stream ";base64,AAAA" = false
  /\ In (ImageSearch (image_jpeg ++ ";base64,AAAA")
                     (4 * Z.of_nat (List.length ["red shoes"])))
        (dispatch ["red shoes"] (octet_stream ++ ";base64,AAAA") 4 true).
Proof.
  split; [reflexivity|].
  apply (proj2 (dispatch_image_payload ["red shoes"] 4)).
  reflexivity.
Defined.
